(** * deep_chem/utils/evaluate.py: evaluation of models on a test set

    A shallow embedding of [model_predictions], [eval_model] and the three
    score functions of [deep_chem/utils/evaluate.py], with the Python values
    and built-ins they use, followed by the properties proved about them. *)

From Stdlib Require Import ZArith String Ascii List Floats Uint63.
From stdpp Require Import gmap strings list sorting pretty.

Local Open Scope Z_scope.
Local Set Warnings "-register-all".

(** ** Python values *)

(** A number is an [int] (unbounded) or a [float] (IEEE binary64). *)
Inductive pynum :=
| PInt (z : Z)
| PFloat (f : float).

(** The integer a float denotes exactly, when it denotes one. *)
Definition float_to_Z (f : float) : option Z :=
  match Prim2SF f with
  | S754_zero _ => Some 0
  | S754_finite s m e =>
      let signed (v : Z) := if s then - v else v in
      if 0 <=? e then Some (signed (Z.pos m * 2 ^ e))
      else if (Z.pos m) mod (2 ^ (- e)) =? 0
           then Some (signed (Z.pos m / 2 ^ (- e)))
           else None
  | S754_infinity _ | S754_nan => None
  end.

(** [x == y] on numbers: ints and floats compare by exact value. *)
Definition py_eq (x y : pynum) : bool :=
  match x, y with
  | PInt a, PInt b => a =? b
  | PFloat a, PFloat b => PrimFloat.eqb a b
  | PInt a, PFloat b | PFloat b, PInt a =>
      match float_to_Z b with
      | Some z => a =? z
      | None => false
      end
  end.

(** What a model returns: numbers, lists, numpy arrays (by their entries
    along the first axis) and dicts with string keys. *)
Inductive pyobj :=
| PyNum (x : pynum)
| PyList (items : list pyobj)
| PyArray (entries : list pyobj)
| PyDict (d : gmap string pyobj).

(** A subscript is an integer or a string. *)
Inductive pykey :=
| KInt (i : Z)
| KStr (s : string).

(** ** Exceptions and the error monad *)

Inductive exn :=
| ValueError (msg : string)
| KeyError (k : pykey)
| IndexError
| TypeError.

Inductive result (A : Type) :=
| Ok (a : A)
| Raise (e : exn).
Arguments Ok {A} a.
Arguments Raise {A} e.

Global Instance result_ret : MRet result := λ A a, Ok a.
Global Instance result_bind : MBind result := λ A B f r,
  match r with
  | Ok a => f a
  | Raise e => Raise e
  end.
Global Instance result_fmap : FMap result := λ A B f r,
  match r with
  | Ok a => Ok (f a)
  | Raise e => Raise e
  end.

Definition is_ok {A} (r : result A) : bool :=
  match r with Ok _ => true | Raise _ => false end.

(** ** Built-ins *)

(** [seq[i]] on a list or an array: a negative index counts from the end. *)
Definition seq_getitem {A} (l : list A) (i : Z) : result A :=
  let n := Z.of_nat (length l) in
  let j := if i <? 0 then i + n else i in
  if (0 <=? j) && (j <? n) then
    match l !! Z.to_nat j with
    | Some x => Ok x
    | None => Raise IndexError
    end
  else Raise IndexError.

(** [o[k]]. A number has no subscript; a list takes integers only; an array
    refuses a string with IndexError; a dict raises KeyError on a key it does
    not hold (its keys are strings, so on every integer). *)
Definition py_getitem (o : pyobj) (k : pykey) : result pyobj :=
  match o, k with
  | PyNum _, _ => Raise TypeError
  | PyList l, KInt i => seq_getitem l i
  | PyList _, KStr _ => Raise TypeError
  | PyArray l, KInt i => seq_getitem l i
  | PyArray _, KStr _ => Raise IndexError
  | PyDict d, KStr s =>
      match d !! s with
      | Some v => Ok v
      | None => Raise (KeyError k)
      end
  | PyDict _, KInt _ => Raise (KeyError k)
  end.

(** [d[k]] on a dict with string keys. *)
Definition dict_getitem {V} (d : gmap string V) (k : string) : result V :=
  match d !! k with
  | Some v => Ok v
  | None => Raise (KeyError (KStr k))
  end.

(** Order of Python 2 [str] values: lexicographic on the bytes. *)
Definition str_le (a b : string) : Prop := String.leb a b = true.

Global Instance str_le_dec a b : Decision (str_le a b).
Proof. unfold str_le. apply _. Defined.

(** [sorted(l)] on strings. *)
Definition sorted (l : list string) : list string := merge_sort str_le l.

(** ["task%d" % index] for a non-negative index. *)
Definition task_key (index : nat) : string := "task" +:+ pretty index.

(** [int(s)] on a string: surrounding whitespace is dropped, a sign is
    allowed, and at least one decimal digit must follow. *)
Definition is_space (c : ascii) : bool :=
  let n := nat_of_ascii c in
  ((n =? 32) || ((9 <=? n) && (n <=? 13)))%nat.

Definition digit_val (c : ascii) : option Z :=
  let n := Z.of_nat (nat_of_ascii c) in
  if (48 <=? n) && (n <=? 57) then Some (n - 48) else None.

Fixpoint lstrip (s : list ascii) : list ascii :=
  match s with
  | c :: s' => if is_space c then lstrip s' else s
  | [] => []
  end.

Fixpoint digits_val (acc : Z) (s : list ascii) : option Z :=
  match s with
  | [] => Some acc
  | c :: s' =>
      match digit_val c with
      | Some d => digits_val (10 * acc + d) s'
      | None => None
      end
  end.

Definition invalid_literal (s : string) : exn :=
  ValueError ("invalid literal for int() with base 10: '" +:+ s +:+ "'").

Definition py_int (s : string) : result Z :=
  let body := rev (lstrip (rev (lstrip (list_ascii_of_string s)))) in
  let '(neg, ds) :=
    match body with
    | "-"%char :: ds => (true, ds)
    | "+"%char :: ds => (false, ds)
    | _ => (false, body)
    end in
  match ds with
  | [] => Raise (invalid_literal s)
  | _ =>
      match digits_val 0 ds with
      | Some v => Ok (if neg : bool then - v else v)
      | None => Raise (invalid_literal s)
      end
  end.

(** [for index, x in enumerate(l)], threading a state, stopping at the first
    exception. *)
Fixpoint for_each {A St} (body : nat → A → St → result St)
    (index : nat) (l : list A) (s : St) : result St :=
  match l with
  | [] => Ok s
  | x :: l' => s' ← body index x s; for_each body (S index) l' s'
  end.

(** [for x in l: ys.append(f(x))]. *)
Fixpoint collect {A B} (f : A → result B) (l : list A) : result (list B) :=
  match l with
  | [] => Ok []
  | x :: l' => y ← f x; ys ← collect f l'; Ok (y :: ys)
  end.

(** [numpy.array(l)]: the array whose entries along the first axis are those
    of [l]. Rows are kept as they are; a row is subscripted the same way
    whether it is a list or an array. Numbers are kept as they are too, as
    numpy keeps the floats of a list of floats and the ints of a list of ints
    of the int64 range; the conversion numpy makes of any other list of
    numbers to one type is not modelled. *)
Definition np_array (l : list pyobj) : pyobj := PyArray l.

(** [a[:, k]]: entry [k] of every row of a two-dimensional array. An array
    with one axis only (no rows, or entries that are not sequences) raises
    IndexError. *)
Definition row_entry (k : Z) (row : pyobj) : result pyobj :=
  match row with
  | PyList l | PyArray l => seq_getitem l k
  | PyNum _ | PyDict _ => Raise IndexError
  end.

Definition column (k : Z) (a : pyobj) : result pyobj :=
  match a with
  | PyArray [] => Raise IndexError
  | PyArray rows => np_array <$> collect (row_entry k) rows
  | PyList _ | PyNum _ | PyDict _ => Raise TypeError
  end.

(** ** The data of evaluate.py *)

(** A transform of a descriptor: None, "log", "normalize", "log-normalize". *)
Inductive transform := NoTransform | Log | Normalize | LogNormalize.

(** A data point of the test set: [datapoint["labels"]] maps task names to
    labels; [datapoint["descriptors"]] may be absent. *)
Record datapoint := {
  labels : gmap string pynum;
  descriptors : option (list pynum)
}.

(** The argument of [model.predict]: the feature matrix, or a dict of named
    inputs. *)
Inductive predict_arg (X : Type) :=
| Matrix (x : X)
| Inputs (d : gmap string X).
Arguments Matrix {X} x.
Arguments Inputs {X} d.

(** A trained model, by the two methods evaluate.py calls. *)
Record model (X : Type) := {
  predict_proba : X → pyobj;
  predict : predict_arg X → pyobj
}.
Arguments predict_proba {X} m x.
Arguments predict {X} m a.

(** The order in which a dict yields its keys ([d.keys()], [for k in d]).
    Python 2 promises no particular order, only that every key comes once. *)
Class DictOrder := {
  keys : ∀ {V}, gmap string V → list string;
  keys_perm : ∀ V (m : gmap string V), keys m ≡ₚ (map_to_list m).*1
}.

(** One such order, used to run the functions on concrete inputs. *)
Definition listing_order : DictOrder :=
  {| keys := λ V m, (map_to_list m).*1; keys_perm := λ V m, reflexivity _ |}.

(** Another one: the same keys, backwards. *)
Definition reverse_order : DictOrder :=
  {| keys := λ V m, reverse (map_to_list m).*1;
     keys_perm := λ V m, reverse_Permutation _ |}.

(** The (ytrue, yscore) lists of every endpoint while they are filled. *)
Abbreviation results_lists := (gmap string (list pynum * list pyobj)).
(** The dict [eval_model] returns: a pair of arrays per endpoint. *)
Abbreviation results_map := (gmap string (pyobj * pyobj)).

(** evaluate.py, lines 95-97: an empty pair of lists for every endpoint. *)
Definition empty_results (endpoints : list string) : results_lists :=
  foldl (λ results target, <[target := ([], [])]> results) ∅ endpoints.

Section evaluate.
Context `{DictOrder}.
(** [dataset_to_numpy] is imported from elsewhere: it returns the feature
    matrix of the test set (and two more values that are dropped). *)
Context {ndarray : Type}
        (dataset_to_numpy : gmap string datapoint → ndarray * ndarray * ndarray).

(** evaluate.py, lines 8-52. *)
Definition model_predictions (test_set : gmap string datapoint)
    (model : model ndarray) (n_targets n_descriptors : nat)
    (add_descriptors : bool) (modeltype : string) : result pyobj :=
  let '(X, _, _) := dataset_to_numpy test_set in
  let n_outputs :=
    if add_descriptors then (n_targets + n_descriptors)%nat else n_targets in
  ypreds ←
    (if decide (modeltype = "sklearn") then Ok (predict_proba model X)
     else if decide (modeltype = "keras") then Ok (predict model (Matrix X))
     else if decide (modeltype = "keras_multitask") then
       let predictions := predict model (Inputs {["input" := X]}) in
       ypreds ← for_each (λ _ index ypreds,
                   p ← py_getitem predictions (KStr (task_key index));
                   Ok (ypreds ++ [p]))
                 0 (seq 0 n_outputs) [];
       Ok (PyList ypreds)
     else Raise (ValueError "Improper modeltype."));
  (* Handle the edge case for singletask. *)
  match ypreds with
  | PyList _ => Ok ypreds
  | _ => Ok (PyList [ypreds])
  end.

(** evaluate.py, lines 104-125: the body of the loop over the endpoints,
    for the data point at position [index] of the sorted test set. *)
Definition align_endpoint (sorted_targets : list string)
    (local_task_types : gmap string string) (ypreds : pyobj)
    (index : nat) (datapoint : datapoint) (t_ind : nat) (target : string)
    (results : results_lists) : result results_lists :=
  let labels := labels datapoint in
  task_type ← dict_getitem local_task_types target;
  missing ←
    (if bool_decide (target ∈ sorted_targets)
     then l ← dict_getitem labels target; Ok (py_eq l (PInt (-1)))
     else Ok false);
  if missing : bool then Ok results
  else
    '(ytrue, yscore) ← dict_getitem results target;
    ytrue ←
      (if decide (task_type = "classification") then
         l ← dict_getitem labels target;
         if py_eq l (PInt 0) then Ok (ytrue ++ [PInt 0])
         else if py_eq l (PInt 1) then Ok (ytrue ++ [PInt 1])
         else Raise (ValueError "Labels must be 0/1.")
       else if bool_decide (target ∈ sorted_targets)
               && bool_decide (task_type = "regression") then
         l ← dict_getitem labels target;
         Ok (ytrue ++ [l])
       else if bool_decide (target ∉ sorted_targets)
               && bool_decide (task_type = "regression") then
         descriptors ←
           match descriptors datapoint with
           | Some d => Ok d
           | None => Raise (KeyError (KStr "descriptors"))
           end;
         (* The "target" for descriptors is simply the index in the
            descriptor vector. *)
         i ← py_int target;
         d ← seq_getitem descriptors i;
         Ok (ytrue ++ [d])
       else
         Raise (ValueError "task_type must be classification or regression."));
    preds ← py_getitem ypreds (KInt (Z.of_nat t_ind));
    p ← py_getitem preds (KInt (Z.of_nat index));
    Ok (<[target := (ytrue, yscore ++ [p])]> results).

(** evaluate.py, lines 101-125: the body of the loop over the test set. *)
Definition align_sample (test_set : gmap string datapoint)
    (sorted_targets endpoints : list string)
    (local_task_types : gmap string string) (ypreds : pyobj)
    (index : nat) (smiles : string) (results : results_lists)
    : result results_lists :=
  datapoint ← dict_getitem test_set smiles;
  for_each (align_endpoint sorted_targets local_task_types ypreds index datapoint)
    0 endpoints results.

(** evaluate.py, lines 82-91. *)
Definition endpoint_list (task_types : gmap string string)
    (desc_transforms : gmap string transform) (add_descriptors : bool)
    : list string * gmap string string :=
  let sorted_targets := sorted (keys task_types) in
  if add_descriptors then
    let sorted_descriptors := sorted (keys desc_transforms) in
    (sorted_targets ++ sorted_descriptors,
     foldl (λ local_task_types desc, <[desc := "regression"]> local_task_types)
       task_types (keys desc_transforms))
  else (sorted_targets, task_types).

(** evaluate.py, lines 54-129. The last loop stores the arrays under the
    same keys; the dict is written afresh here, which is the same dict since
    the keys of [results] are the endpoints. *)
Definition eval_model (test_set : gmap string datapoint) (model : model ndarray)
    (task_types : gmap string string) (desc_transforms : gmap string transform)
    (modeltype : string) (add_descriptors : bool) : result results_map :=
  let sorted_targets := sorted (keys task_types) in
  let '(endpoints, local_task_types) :=
    endpoint_list task_types desc_transforms add_descriptors in
  ypreds ← model_predictions test_set model (length sorted_targets)
              (size desc_transforms) add_descriptors modeltype;
  let results := empty_results endpoints in
  (* Iterate through test set data points. *)
  let sorted_smiles := sorted (keys test_set) in
  results ← for_each
    (align_sample test_set sorted_targets endpoints local_task_types ypreds)
    0 sorted_smiles results;
  for_each (λ _ target (arrays : results_map),
      '(ytrue, yscore) ← dict_getitem results target;
      Ok (<[target := (np_array (PyNum <$> ytrue), np_array yscore)]> arrays))
    0 endpoints ∅.
End evaluate.

Section scores.
Context `{DictOrder}.
(** The metric primitives are imported from elsewhere (sklearn, numpy and
    the preprocessing utilities); any of the first four may raise. *)
Context (labels_to_weights : pyobj → result pyobj)
        (roc_auc_score : pyobj → pyobj → pyobj → result pynum)
        (r2_score : pyobj → pyobj → result pynum)
        (mean_squared_error : pyobj → pyobj → result pynum)
        (np_sqrt : pynum → pynum).

(** evaluate.py, lines 131-157 (what is printed is left out). *)
Definition compute_roc_auc_scores (results : results_map)
    (task_types : gmap string string) : result (gmap string pynum) :=
  for_each (λ _ target (scores : gmap string pynum),
      task_type ← dict_getitem task_types target;
      if decide (task_type ≠ "classification") then Ok scores
      else
        '(ytrue, yscore) ← dict_getitem results target;
        sample_weights ← labels_to_weights ytrue;
        positive ← column 1 yscore;
        score ← roc_auc_score ytrue positive sample_weights;
        Ok (<[target := score]> scores))
    0 (keys results) ∅.

(** evaluate.py, lines 159-179 (what is printed is left out). *)
Definition compute_r2_scores (results : results_map)
    (task_types : gmap string string) : result (gmap string pynum) :=
  for_each (λ _ target (scores : gmap string pynum),
      task_type ← dict_getitem task_types target;
      if decide (task_type ≠ "regression") then Ok scores
      else
        '(ytrue, yscore) ← dict_getitem results target;
        score ← r2_score ytrue yscore;
        Ok (<[target := score]> scores))
    0 (keys results) ∅.

(** evaluate.py, lines 181-201 (what is printed is left out). *)
Definition compute_rms_scores (results : results_map)
    (task_types : gmap string string) : result (gmap string pynum) :=
  for_each (λ _ target (scores : gmap string pynum),
      task_type ← dict_getitem task_types target;
      if decide (task_type ≠ "regression") then Ok scores
      else
        '(ytrue, yscore) ← dict_getitem results target;
        mse ← mean_squared_error ytrue yscore;
        Ok (<[target := np_sqrt mse]> scores))
    0 (keys results) ∅.
End scores.

(** ** Vocabulary of the statements *)

(** [ypreds[t_ind][index]]. *)
Definition prediction (ypreds : pyobj) (visit : nat * nat) : result pyobj :=
  let '(index, t_ind) := visit in
  preds ← py_getitem ypreds (KInt (Z.of_nat t_ind));
  py_getitem preds (KInt (Z.of_nat index)).

(** The test of line 105: the endpoint is one of the tasks and the data
    point's label for it is -1. *)
Definition is_skipped (sorted_targets : list string) (datapoint : datapoint)
    (target : string) : bool :=
  bool_decide (target ∈ sorted_targets) &&
  match labels datapoint !! target with
  | Some l => py_eq l (PInt (-1))
  | None => false
  end.

(** The positions of [target] in a list of endpoints numbered from [t_ind]. *)
Fixpoint positions (target : string) (t_ind : nat) (endpoints : list string)
    : list nat :=
  match endpoints with
  | [] => []
  | e :: endpoints' =>
      (if decide (e = target) then [t_ind] else [])
      ++ positions target (S t_ind) endpoints'
  end.

(** The (index, t_ind) pairs at which the loops of [eval_model] reach
    [target] without skipping it, in the order of the loops: the data points
    of [smiles] are numbered from [index]. *)
Fixpoint visits (test_set : gmap string datapoint)
    (sorted_targets endpoints : list string) (target : string)
    (index : nat) (smiles : list string) : list (nat * nat) :=
  match smiles with
  | [] => []
  | s :: smiles' =>
      match test_set !! s with
      | Some datapoint =>
          if is_skipped sorted_targets datapoint target then []
          else (λ t_ind, (index, t_ind)) <$> positions target 0 endpoints
      | None => []
      end
      ++ visits test_set sorted_targets endpoints target (S index) smiles'
  end.

(** The data points of the test set that are skipped for [target]. *)
Definition skipped_samples (test_set : gmap string datapoint)
    (sorted_targets : list string) (target : string) : gmap string datapoint :=
  filter (λ kv, is_skipped sorted_targets kv.2 target = true) test_set.

(** [len(a)] of an array or a list. *)
Definition py_len (o : pyobj) : option nat :=
  match o with
  | PyList l | PyArray l => Some (length l)
  | PyNum _ | PyDict _ => None
  end.

(** Whether the data point stored under [smiles] is skipped for [target]. *)
Definition skipped_at (test_set : gmap string datapoint)
    (sorted_targets : list string) (target smiles : string) : bool :=
  match test_set !! smiles with
  | Some datapoint => is_skipped sorted_targets datapoint target
  | None => false
  end.

(** The order of the loops on visits: by data point, then by endpoint. *)
Definition visit_lt (v w : nat * nat) : Prop :=
  (v.1 < w.1)%nat ∨ (v.1 = w.1 ∧ (v.2 < w.2)%nat).

(** What the body of the loop of [compute_roc_auc_scores] computes for one
    endpoint: no score when its type is not "classification". *)
Definition auc_score (labels_to_weights : pyobj → result pyobj)
    (roc_auc_score : pyobj → pyobj → pyobj → result pynum)
    (results : results_map) (task_types : gmap string string)
    (target : string) : result (option pynum) :=
  task_type ← dict_getitem task_types target;
  if decide (task_type ≠ "classification") then Ok None
  else
    '(ytrue, yscore) ← dict_getitem results target;
    sample_weights ← labels_to_weights ytrue;
    positive ← column 1 yscore;
    score ← roc_auc_score ytrue positive sample_weights;
    Ok (Some score).

(** The same for [compute_r2_scores] and [compute_rms_scores], by the metric
    of each. *)
Definition regression_score (metric : pyobj → pyobj → result pynum)
    (results : results_map) (task_types : gmap string string)
    (target : string) : result (option pynum) :=
  task_type ← dict_getitem task_types target;
  if decide (task_type ≠ "regression") then Ok None
  else
    '(ytrue, yscore) ← dict_getitem results target;
    score ← metric ytrue yscore;
    Ok (Some score).

(** Storing the score of an endpoint, if it has one. *)
Definition store_score (target : string) (score : option pynum)
    (scores : gmap string pynum) : gmap string pynum :=
  match score with
  | Some s => <[target := s]> scores
  | None => scores
  end.

(** The error of a lookup [task_types[k]] for a key [k] of the results that
    [task_types] does not hold. *)
Definition missing_type (results : results_map) (task_types : gmap string string)
    (e : exn) : Prop :=
  ∃ k, is_Some (results !! k) ∧ task_types !! k = None ∧ e = KeyError (KStr k).

(** An error raised by one of the calls of [compute_roc_auc_scores] on the
    arrays of an endpoint of the results. *)
Definition auc_call_raised (labels_to_weights : pyobj → result pyobj)
    (roc_auc_score : pyobj → pyobj → pyobj → result pynum)
    (results : results_map) (e : exn) : Prop :=
  ∃ k ytrue yscore,
    results !! k = Some (ytrue, yscore) ∧
    (labels_to_weights ytrue = Raise e
     ∨ column 1 yscore = Raise e
     ∨ ∃ positive weights, roc_auc_score ytrue positive weights = Raise e).

(** An error raised by the metric of a regression score on the arrays of an
    endpoint of the results. *)
Definition metric_raised (metric : pyobj → pyobj → result pynum)
    (results : results_map) (e : exn) : Prop :=
  ∃ k ytrue yscore, results !! k = Some (ytrue, yscore) ∧ metric ytrue yscore = Raise e.

(** The value lines 109-124 append to [ytrue] at a pair that is not skipped,
    for an endpoint of type [task_type]. *)
Definition ytrue_entry (sorted_targets : list string) (task_type : string)
    (datapoint : datapoint) (target : string) : result pynum :=
  if decide (task_type = "classification") then
    l ← dict_getitem (labels datapoint) target;
    if py_eq l (PInt 0) then Ok (PInt 0)
    else if py_eq l (PInt 1) then Ok (PInt 1)
    else Raise (ValueError "Labels must be 0/1.")
  else if bool_decide (target ∈ sorted_targets)
          && bool_decide (task_type = "regression") then
    dict_getitem (labels datapoint) target
  else if bool_decide (target ∉ sorted_targets)
          && bool_decide (task_type = "regression") then
    descriptors ←
      match descriptors datapoint with
      | Some d => Ok d
      | None => Raise (KeyError (KStr "descriptors"))
      end;
    i ← py_int target;
    seq_getitem descriptors i
  else Raise (ValueError "task_type must be classification or regression.").

(** The same with the type looked up in the working copy of the types. *)
Definition ground_truth (sorted_targets : list string)
    (local_task_types : gmap string string) (target : string)
    (datapoint : datapoint) : result pynum :=
  task_type ← dict_getitem local_task_types target;
  ytrue_entry sorted_targets task_type datapoint target.

(** The data points of [smiles] that are not skipped for [target], in the
    order of [smiles]. *)
Fixpoint kept_samples (test_set : gmap string datapoint)
    (sorted_targets : list string) (target : string) (smiles : list string)
    : list datapoint :=
  match smiles with
  | [] => []
  | s :: smiles' =>
      match test_set !! s with
      | Some datapoint =>
          if is_skipped sorted_targets datapoint target then [] else [datapoint]
      | None => []
      end
      ++ kept_samples test_set sorted_targets target smiles'
  end.

(** The same, each data point once for every occurrence of [target] among
    the endpoints: the data points of the visits. *)
Fixpoint visited_samples (test_set : gmap string datapoint)
    (sorted_targets endpoints : list string) (target : string)
    (smiles : list string) : list datapoint :=
  match smiles with
  | [] => []
  | s :: smiles' =>
      match test_set !! s with
      | Some datapoint =>
          if is_skipped sorted_targets datapoint target then []
          else (λ _, datapoint) <$> positions target 0 endpoints
      | None => []
      end
      ++ visited_samples test_set sorted_targets endpoints target smiles'
  end.

(** The entries of an array of numbers. *)
Definition array_of (l : list pynum) : pyobj := PyArray (PyNum <$> l).

(** Whether [numpy.array] keeps the numbers of a list as they are. It does
    when all are floats (an array of float64) and when all are ints of the
    int64 range (an array of int64); it converts the numbers of any other
    list to one type. *)
Definition is_float (x : pynum) : bool :=
  match x with PFloat _ => true | PInt _ => false end.

Definition is_int64 (x : pynum) : bool :=
  match x with
  | PInt z => (- 2 ^ 63 <=? z) && (z <? 2 ^ 63)
  | PFloat _ => false
  end.

Definition one_dtype (l : list pynum) : bool :=
  forallb is_float l || forallb is_int64 l.

(** ** Concrete inputs *)

Local Set Warnings "-inexact-float".

(** A data point with one label and no descriptors. *)
Definition labelled (task : string) (l : pynum) : datapoint :=
  {| labels := {[task := l]}; descriptors := None |}.

(** A model that answers every call with the same value, on a test set whose
    features are not looked at. *)
Definition constant_model (out : pyobj) : model unit :=
  {| predict_proba := λ _, out; predict := λ _, out |}.

Definition no_features (test_set : gmap string datapoint) : unit * unit * unit :=
  (tt, tt, tt).

(** The scenario with the samples A, B and C and the one task t1. *)
Definition scenario_test_set : gmap string datapoint :=
  {[ "A" := labelled "t1" (PInt 1);
     "B" := labelled "t1" (PInt 0);
     "C" := labelled "t1" (PInt (-1)) ]}.

Definition scenario_task_types : gmap string string :=
  {[ "t1" := "classification" ]}.

Definition proba (p0 p1 : float) : pyobj :=
  PyArray [PyNum (PFloat p0); PyNum (PFloat p1)].

Definition scenario_predictions : pyobj :=
  PyArray [proba 0.1 0.9; proba 0.8 0.2; proba 0.5 0.5].

Definition scenario_results : results_map :=
  {[ "t1" := (PyArray [PyNum (PInt 1); PyNum (PInt 0)],
              PyArray [proba 0.1 0.9; proba 0.8 0.2]) ]}.

(** A task and a descriptor that share the name "0", with a multi-head model
    that has one output block per endpoint. *)
Definition collision_test_set : gmap string datapoint :=
  {[ "A" := {| labels := {[ "0" := PInt 5 ]}; descriptors := Some [PInt 7] |} ]}.

Definition collision_task_types : gmap string string :=
  {[ "0" := "regression" ]}.

Definition collision_desc_transforms : gmap string transform :=
  {[ "0" := NoTransform ]}.

Definition collision_predictions : pyobj :=
  PyDict {[ "task0" := PyArray [PyNum (PFloat 0.5)];
            "task1" := PyArray [PyNum (PFloat 0.25)] ]}.

(** A test set with a label that is none of -1, 0, 1 for a classification
    task: sample B of the first, the only sample of the second. *)
Definition invalid_test_set : gmap string datapoint :=
  {[ "A" := labelled "t1" (PInt 1); "B" := labelled "t1" (PInt 2) ]}.

Definition invalid_predictions : pyobj :=
  PyArray [proba 0.1 0.9; proba 0.8 0.2].

(** Two classification tasks, of which the samples above have no label for
    the first. *)
Definition two_task_types : gmap string string :=
  {[ "t0" := "classification"; "t1" := "classification" ]}.

Definition collision_invalid_test_set : gmap string datapoint :=
  {[ "A" := {| labels := {[ "0" := PInt 2 ]}; descriptors := Some [PInt 7] |} ]}.

Definition collision_classification : gmap string string :=
  {[ "0" := "classification" ]}.

(** *** Metrics to run the score functions with *)

Definition to_float (x : pynum) : float :=
  match x with
  | PFloat f => f
  | PInt z =>
      if z <? 0 then PrimFloat.opp (PrimFloat.of_uint63 (Uint63.of_Z (- z)))
      else PrimFloat.of_uint63 (Uint63.of_Z z)
  end.

(** The numbers of a one-dimensional array. *)
Definition numbers (a : pyobj) : result (list float) :=
  match a with
  | PyArray l | PyList l =>
      collect (λ o, match o with
                    | PyNum x => Ok (to_float x)
                    | _ => Raise TypeError
                    end) l
  | PyNum _ | PyDict _ => Raise TypeError
  end.

Definition float_array (l : list float) : pyobj :=
  PyArray ((λ f, PyNum (PFloat f)) <$> l).

Definition float_sum (l : list float) : float :=
  foldr PrimFloat.add 0%float l.

Definition float_of_nat (n : nat) : float :=
  PrimFloat.of_uint63 (Uint63.of_Z (Z.of_nat n)).

(** Modelled from the spec: [labels_to_weights] is not among the sources; the
    weight of a sample is inversely proportional to the frequency of its
    class among the true labels, so that the two classes weigh the same in
    total. Here it is one over the number of samples of the class. *)
Definition class_weights (ytrue : pyobj) : result pyobj :=
  ys ← numbers ytrue;
  let count (positive : bool) :=
    length (filter (λ y, PrimFloat.eqb y 1 = positive) ys) in
  Ok (float_array
        ((λ y, PrimFloat.div 1 (float_of_nat (count (PrimFloat.eqb y 1)))) <$> ys)).

(** The weighted area under the ROC curve, by pairs of a positive and a
    negative sample: a pair counts 1 when the positive sample has the higher
    score and 1/2 on a tie. With one class only it is not defined. *)
Definition pairwise_auc (ytrue positive weights : pyobj) : result pynum :=
  ys ← numbers ytrue;
  ss ← numbers positive;
  ws ← numbers weights;
  let rows := zip ys (zip ss ws) in
  let pos := filter (λ r, PrimFloat.eqb r.1 1 = true) rows in
  let neg := filter (λ r, PrimFloat.eqb r.1 1 = false) rows in
  let pair (p n : float * (float * float)) : float :=
    let w := PrimFloat.mul p.2.2 n.2.2 in
    if PrimFloat.ltb n.2.1 p.2.1 then w
    else if PrimFloat.eqb n.2.1 p.2.1 then PrimFloat.mul 0.5 w
    else 0%float in
  let won := float_sum (p ← pos; n ← neg; [pair p n]) in
  let all := PrimFloat.mul (float_sum ((λ r, r.2.2) <$> pos))
                           (float_sum ((λ r, r.2.2) <$> neg)) in
  if PrimFloat.eqb all 0 then
    Raise (ValueError "Only one class present in y_true.")
  else Ok (PFloat (PrimFloat.div won all)).

Definition squared_error (ytrue yscore : list float) : float :=
  float_sum ((λ yp, let d := PrimFloat.sub yp.1 yp.2 in PrimFloat.mul d d)
               <$> zip ytrue yscore).

(** The mean of the squared differences. *)
Definition mean_squared (ytrue yscore : pyobj) : result pynum :=
  ys ← numbers ytrue;
  ps ← numbers yscore;
  if bool_decide (length ys = length ps) && negb (bool_decide (ys = []))
  then Ok (PFloat (PrimFloat.div (squared_error ys ps) (float_of_nat (length ys))))
  else Raise (ValueError "Found input variables with inconsistent numbers of samples").

(** The coefficient of determination: one minus the squared error over the
    squared deviation from the mean. *)
Definition determination (ytrue yscore : pyobj) : result pynum :=
  ys ← numbers ytrue;
  ps ← numbers yscore;
  if bool_decide (length ys = length ps) && negb (bool_decide (ys = []))
  then
    let mean := PrimFloat.div (float_sum ys) (float_of_nat (length ys)) in
    let deviation := squared_error ys ((λ _, mean) <$> ys) in
    Ok (PFloat (PrimFloat.sub 1 (PrimFloat.div (squared_error ys ps) deviation)))
  else Raise (ValueError "Found input variables with inconsistent numbers of samples").

Definition float_sqrt (x : pynum) : pynum := PFloat (PrimFloat.sqrt (to_float x)).

(** A regression task with one descriptor, and a multi-head model that
    predicts both exactly. *)
Definition descriptor_test_set : gmap string datapoint :=
  {[ "A" := {| labels := {[ "t1" := PFloat 1.5 ]};
               descriptors := Some [PFloat 0.25] |};
     "B" := {| labels := {[ "t1" := PFloat 2.5 ]};
               descriptors := Some [PFloat 0.75] |} ]}.

Definition descriptor_task_types : gmap string string :=
  {[ "t1" := "regression" ]}.

Definition descriptor_transforms : gmap string transform :=
  {[ "0" := Log ]}.

Definition descriptor_predictions : pyobj :=
  PyDict {[ "task0" := PyArray [PyNum (PFloat 1.5); PyNum (PFloat 2.5)];
            "task1" := PyArray [PyNum (PFloat 0.25); PyNum (PFloat 0.75)] ]}.

Definition descriptor_results : results_map :=
  {[ "t1" := (PyArray [PyNum (PFloat 1.5); PyNum (PFloat 2.5)],
              PyArray [PyNum (PFloat 1.5); PyNum (PFloat 2.5)]);
     "0" := (PyArray [PyNum (PFloat 0.25); PyNum (PFloat 0.75)],
             PyArray [PyNum (PFloat 0.25); PyNum (PFloat 0.75)]) ]}.

(** A task of a type that is neither "classification" nor "regression". *)
Definition ranking_task_types : gmap string string :=
  {[ "t1" := "ranking" ]}.

(** The scenario with every label missing. *)
Definition unlabelled_test_set : gmap string datapoint :=
  {[ "A" := labelled "t1" (PInt (-1)); "B" := labelled "t1" (PFloat (-1)) ]}.

(** A multi-head model that lacks the block of the second output. *)
Definition one_block_predictions : pyobj :=
  PyDict {[ "task0" := PyArray [PyNum (PFloat 0.5)] ]}.

(** Results with one classification endpoint and one regression endpoint. *)
Definition mixed_results : results_map :=
  {[ "t1" := (PyArray [PyNum (PInt 1); PyNum (PInt 0)],
              PyArray [proba 0.1 0.9; proba 0.8 0.2]);
     "0" := (PyArray [PyNum (PFloat 0.25); PyNum (PFloat 0.75)],
             PyArray [PyNum (PFloat 0.25); PyNum (PFloat 0.75)]) ]}.

Definition mixed_task_types : gmap string string :=
  {[ "t1" := "classification"; "0" := "regression" ]}.

(** A classification task with one descriptor, and a multi-head model whose
    block for the task has one axis: a score per sample, not a row of class
    probabilities. *)
Definition flat_test_set : gmap string datapoint :=
  {[ "A" := {| labels := {[ "t1" := PInt 1 ]};
               descriptors := Some [PFloat 0.25] |};
     "B" := {| labels := {[ "t1" := PInt 0 ]};
               descriptors := Some [PFloat 0.75] |} ]}.

Definition flat_predictions : pyobj :=
  PyDict {[ "task0" := PyArray [PyNum (PFloat 0.9); PyNum (PFloat 0.2)];
            "task1" := PyArray [PyNum (PFloat 0.25); PyNum (PFloat 0.75)] ]}.

Definition flat_results : results_map :=
  {[ "t1" := (PyArray [PyNum (PInt 1); PyNum (PInt 0)],
              PyArray [PyNum (PFloat 0.9); PyNum (PFloat 0.2)]);
     "0" := (PyArray [PyNum (PFloat 0.25); PyNum (PFloat 0.75)],
             PyArray [PyNum (PFloat 0.25); PyNum (PFloat 0.75)]) ]}.

(** ** The built-ins on concrete values *)

Example py_eq_float_int : py_eq (PFloat (-1)%float) (PInt (-1)) = true.
Proof. reflexivity. Qed.
Example py_int_ex : py_int " -12 " = Ok (-12).
Proof. reflexivity. Qed.
Example task_key_ex : task_key 12 = "task12".
Proof. vm_compute. reflexivity. Qed.
Example sorted_ex : sorted ["b"; "a10"; "B"; "a2"] = ["B"; "a10"; "a2"; "b"].
Proof. vm_compute. reflexivity. Qed.

(** ** The order on strings and [sorted] *)

Lemma string_compare_refl (s : string) : String.compare s s = Eq.
Proof.
  induction s as [|c s IH]; simpl; [done|].
  unfold Ascii.compare. by rewrite N.compare_refl.
Qed.

Lemma string_compare_trans (c : comparison) (s1 s2 s3 : string) :
  String.compare s1 s2 = c → String.compare s2 s3 = c → String.compare s1 s3 = c.
Proof.
  revert s2 s3. induction s1 as [|a1 s1 IH]; intros [|a2 s2] [|a3 s3]; simpl;
    try congruence.
  unfold Ascii.compare.
  destruct (N.compare_spec (N_of_ascii a1) (N_of_ascii a2)) as [E12|L12|G12];
    destruct (N.compare_spec (N_of_ascii a2) (N_of_ascii a3)) as [E23|L23|G23];
    intros H12 H23; try congruence.
  - rewrite E12, E23, N.compare_refl. eauto.
  - rewrite E12. by rewrite (proj2 (N.compare_lt_iff _ _) L23).
  - rewrite E12. by rewrite (proj2 (N.compare_gt_iff _ _) G23).
  - rewrite <- E23. by rewrite (proj2 (N.compare_lt_iff _ _) L12).
  - by rewrite (proj2 (N.compare_lt_iff _ _) (N.lt_trans _ _ _ L12 L23)).
  - rewrite <- E23. by rewrite (proj2 (N.compare_gt_iff _ _) G12).
  - by rewrite (proj2 (N.compare_gt_iff _ _) (N.lt_trans _ _ _ G23 G12)).
Qed.

Global Instance str_le_refl : Reflexive str_le.
Proof. intros s. unfold str_le, String.leb. by rewrite string_compare_refl. Qed.

Global Instance str_le_trans : Transitive str_le.
Proof.
  intros s1 s2 s3. unfold str_le, String.leb.
  destruct (String.compare s1 s2) eqn:E12; [|  |done];
    destruct (String.compare s2 s3) eqn:E23; try done; intros _ _.
  - by rewrite (string_compare_trans Eq s1 s2 s3).
  - apply String.compare_eq_iff in E12 as ->. by rewrite E23.
  - apply String.compare_eq_iff in E23 as <-. by rewrite E12.
  - by rewrite (string_compare_trans Lt s1 s2 s3).
Qed.

Global Instance str_le_antisym : AntiSymm (=) str_le.
Proof. intros s1 s2. apply String.leb_antisym. Qed.

Global Instance str_le_total : Total str_le.
Proof. intros s1 s2. apply String.leb_total. Qed.

Lemma sorted_Sorted (l : list string) : Sorted str_le (sorted l).
Proof. apply (Sorted_merge_sort str_le). Qed.

Lemma sorted_Permutation (l : list string) : sorted l ≡ₚ l.
Proof. apply (merge_sort_Permutation str_le). Qed.

(** [sorted] forgets the order of its argument. *)
Lemma sorted_perm_eq (l1 l2 : list string) : l1 ≡ₚ l2 → sorted l1 = sorted l2.
Proof.
  intros Hp. apply (Sorted_unique str_le); [apply sorted_Sorted..|].
  by rewrite !sorted_Permutation.
Qed.

Lemma elem_of_sorted (l : list string) (x : string) : x ∈ sorted l ↔ x ∈ l.
Proof. by rewrite sorted_Permutation. Qed.

(** ** Keys of a dict *)

Section keys.
Context `{DictOrder} {V : Type}.
Implicit Types m : gmap string V.

Lemma elem_of_keys m k : k ∈ keys m ↔ is_Some (m !! k).
Proof.
  rewrite keys_perm, list_elem_of_fmap. split.
  - intros [[k' v] [-> Hkv]]. apply elem_of_map_to_list in Hkv. by exists v.
  - intros [v Hv]. exists (k, v). split; [done|]. by apply elem_of_map_to_list.
Qed.

Lemma NoDup_keys m : NoDup (keys m).
Proof. rewrite keys_perm. apply NoDup_fst_map_to_list. Qed.

Lemma length_keys m : length (keys m) = size m.
Proof. by rewrite keys_perm, length_fmap, length_map_to_list. Qed.

Lemma elem_of_sorted_keys m k : k ∈ sorted (keys m) ↔ is_Some (m !! k).
Proof. by rewrite elem_of_sorted, elem_of_keys. Qed.

Lemma NoDup_sorted_keys m : NoDup (sorted (keys m)).
Proof. rewrite sorted_Permutation. apply NoDup_keys. Qed.

Lemma length_sorted_keys m : length (sorted (keys m)) = size m.
Proof. by rewrite sorted_Permutation, length_keys. Qed.
End keys.

(** Whatever the order of the keys, sorting them gives the same list. *)
Lemma sorted_keys_order (o1 o2 : DictOrder) {V} (m : gmap string V) :
  sorted (@keys o1 V m) = sorted (@keys o2 V m).
Proof. apply sorted_perm_eq. by rewrite !keys_perm. Qed.

(** Storing one value under each key of a list. *)
Lemma lookup_foldl_insert {V} (v : V) (l : list string) (m : gmap string V) k :
  foldl (λ m d, <[d := v]> m) m l !! k = if decide (k ∈ l) then Some v else m !! k.
Proof.
  revert m. induction l as [|d l IH]; intros m; cbn [foldl].
  - rewrite decide_False; [done|]. intros Hk. by apply elem_of_nil in Hk.
  - rewrite IH, lookup_insert.
    destruct (decide (k ∈ l)) as [Hin|Hin].
    + rewrite decide_True; [done|]. rewrite elem_of_cons. by right.
    + destruct (decide (d = k)) as [->|Hne].
      * rewrite decide_True; [done|]. rewrite elem_of_cons. by left.
      * rewrite decide_False; [done|]. rewrite elem_of_cons. intros [?|?]; congruence.
Qed.

Lemma foldl_insert_perm {V} (v : V) (l1 l2 : list string) (m : gmap string V) :
  l1 ≡ₚ l2 →
  foldl (λ m d, <[d := v]> m) m l1 = foldl (λ m d, <[d := v]> m) m l2.
Proof.
  intros Hp. apply map_eq. intros k. rewrite !lookup_foldl_insert.
  destruct (decide (k ∈ l1)) as [H1|H1]; rewrite Hp in H1.
  - by rewrite decide_True.
  - by rewrite decide_False.
Qed.

(** ** The error monad and the loops *)

Lemma bind_Ok {A B} (r : result A) (f : A → result B) (b : B) :
  r ≫= f = Ok b ↔ ∃ a, r = Ok a ∧ f a = Ok b.
Proof.
  destruct r as [a|e]; simpl; split.
  - eauto.
  - by intros (a' & [= ->] & ?).
  - done.
  - by intros (? & ? & ?).
Qed.

Lemma bind_Raise {A B} (r : result A) (f : A → result B) (e : exn) :
  r ≫= f = Raise e ↔ r = Raise e ∨ ∃ a, r = Ok a ∧ f a = Raise e.
Proof.
  destruct r as [a|e']; simpl; split.
  - eauto.
  - by intros [?|(a' & [= ->] & ?)].
  - intros [= ->]. by left.
  - intros [?|(? & ? & ?)]; by simplify_eq.
Qed.

Lemma dict_getitem_Ok {V} (d : gmap string V) k v :
  dict_getitem d k = Ok v ↔ d !! k = Some v.
Proof. unfold dict_getitem. destruct (d !! k); split; try intros [??]; congruence. Qed.

Lemma dict_getitem_Raise {V} (d : gmap string V) k e :
  dict_getitem d k = Raise e ↔ d !! k = None ∧ e = KeyError (KStr k).
Proof.
  unfold dict_getitem. destruct (d !! k); split; try intros [??]; try congruence.
  by intros [= <-].
Qed.

Lemma for_each_app {A St} (body : nat → A → St → result St) i l1 l2 s :
  for_each body i (l1 ++ l2) s
  = for_each body i l1 s ≫= for_each body (i + length l1) l2.
Proof.
  revert i s. induction l1 as [|x l1 IH]; intros i s; simpl.
  - by rewrite Nat.add_0_r.
  - destruct (body i x s) as [s'|e]; simpl; [|done].
    rewrite IH. by replace (S i + length l1)%nat with (i + S (length l1))%nat by lia.
Qed.

(** A loop whose body fails at some element, whatever the state, fails. *)
Lemma for_each_fails {A St} (body : nat → A → St → result St) i l s j x :
  l !! j = Some x →
  (∀ s', is_ok (body (i + j)%nat x s') = false) →
  is_ok (for_each body i l s) = false.
Proof.
  revert i s j. induction l as [|y l IH]; intros i s [|j] Hj Hbad; simplify_eq/=.
  - specialize (Hbad s). rewrite Nat.add_0_r in Hbad.
    by destruct (body i x s).
  - destruct (body i y s) as [s'|]; simpl; [|done].
    apply (IH _ _ j); [done|]. intros s''.
    by replace (S i + j)%nat with (i + S j)%nat by lia.
Qed.

Lemma collect_app {A B} (f : A → result B) (l1 l2 : list A) :
  collect f (l1 ++ l2)
  = ys1 ← collect f l1; ys2 ← collect f l2; Ok (ys1 ++ ys2).
Proof.
  induction l1 as [|x l1 IH]; simpl.
  - by destruct (collect f l2).
  - destruct (f x); simpl; [|done]. rewrite IH.
    destruct (collect f l1); simpl; [|done]. by destruct (collect f l2).
Qed.

Lemma collect_fmap {A B C} (f : B → result C) (g : A → B) (l : list A) :
  collect f (g <$> l) = collect (f ∘ g) l.
Proof. induction l as [|x l IH]; csimpl; [done|]. by rewrite IH. Qed.

Lemma collect_length {A B} (f : A → result B) (l : list A) (ys : list B) :
  collect f l = Ok ys → length ys = length l.
Proof.
  revert ys. induction l as [|x l IH]; intros ys; simpl.
  - by intros [= <-].
  - destruct (f x); simpl; [|done]. destruct (collect f l); simpl; [|done].
    intros [= <-]. simpl. f_equal. by apply IH.
Qed.

Lemma collect_lookup {A B} (f : A → result B) (l : list A) (ys : list B) i x :
  collect f l = Ok ys → l !! i = Some x → ∃ y, ys !! i = Some y ∧ f x = Ok y.
Proof.
  revert ys i. induction l as [|x' l IH]; intros ys i; simpl; [done|].
  destruct (f x') as [y'|] eqn:Hf; simpl; [|done].
  destruct (collect f l) as [ys'|]; simpl; [|done].
  intros [= <-]. destruct i as [|i]; simpl.
  - intros [= ->]. eauto.
  - intros Hi. by apply IH.
Qed.

(** ** The loops of [eval_model] *)

Section alignment.
Context (test_set : gmap string datapoint) (sorted_targets endpoints : list string)
        (local_task_types : gmap string string) (ypreds : pyobj).
Implicit Types results : results_lists.

(** What one step of the inner loop does when it does not raise. *)
Lemma align_endpoint_Ok index dp t_ind target results results' :
  align_endpoint sorted_targets local_task_types ypreds index dp t_ind target
    results = Ok results' →
  if is_skipped sorted_targets dp target then results' = results
  else ∃ yt ys a p,
    results !! target = Some (yt, ys) ∧
    prediction ypreds (index, t_ind) = Ok p ∧
    results' = <[target := (yt ++ [a], ys ++ [p])]> results.
Proof.
  unfold align_endpoint. intros Hok.
  apply bind_Ok in Hok as (task_type & Htt & Hok).
  apply bind_Ok in Hok as (missing & Hmiss & Hok).
  assert (missing = is_skipped sorted_targets dp target) as ->.
  { unfold is_skipped. destruct (bool_decide (target ∈ sorted_targets)); simpl in *.
    - apply bind_Ok in Hmiss as (l & Hl & [= <-]).
      apply dict_getitem_Ok in Hl. by rewrite Hl.
    - by injection Hmiss. }
  destruct (is_skipped sorted_targets dp target); [by injection Hok|].
  apply bind_Ok in Hok as ([yt ys] & Hres & Hok).
  apply bind_Ok in Hok as (yt' & Hyt & Hok).
  apply bind_Ok in Hok as (preds & Hpreds & Hok).
  apply bind_Ok in Hok as (p & Hp & [= <-]).
  apply dict_getitem_Ok in Hres.
  assert (∃ a, yt' = yt ++ [a]) as [a ->].
  { destruct (decide (task_type = "classification")).
    - apply bind_Ok in Hyt as (l & _ & Hyt).
      destruct (py_eq l (PInt 0)); [injection Hyt as <-; eauto|].
      destruct (py_eq l (PInt 1)); [injection Hyt as <-; eauto|done].
    - destruct (_ && _).
      + apply bind_Ok in Hyt as (l & _ & [= <-]). eauto.
      + destruct (_ && _); [|done].
        apply bind_Ok in Hyt as (ds & _ & Hyt).
        apply bind_Ok in Hyt as (i & _ & Hyt).
        apply bind_Ok in Hyt as (d & _ & [= <-]). eauto. }
  exists yt, ys, a, p. split_and!; [done| |done].
  unfold prediction. by rewrite Hpreds.
Qed.

Lemma length_positions target t_ind eps :
  length (positions target t_ind eps) = length (filter (λ e, e = target) eps).
Proof.
  revert t_ind. induction eps as [|e eps IH]; intros t_ind; [done|].
  cbn [positions]. rewrite length_app, IH, filter_cons.
  by destruct (decide (e = target)).
Qed.

(** The inner loop at one data point: what it appends for each endpoint. *)
Lemma align_endpoints_Ok index dp t_ind eps results results' target :
  for_each (align_endpoint sorted_targets local_task_types ypreds index dp)
    t_ind eps results = Ok results' →
  match results !! target with
  | Some (yt, ys) => ∃ yt2 ys2,
      results' !! target = Some (yt ++ yt2, ys ++ ys2) ∧
      length yt2 = length ys2 ∧
      collect (prediction ypreds)
        (if is_skipped sorted_targets dp target then []
         else (λ t, (index, t)) <$> positions target t_ind eps) = Ok ys2
  | None => results' !! target = None
  end.
Proof.
  revert t_ind results. induction eps as [|e eps IH]; intros t_ind results Hok.
  - injection Hok as <-. destruct (results !! target) as [[yt ys]|]; [|done].
    exists [], []. rewrite !app_nil_r. by destruct (is_skipped _ _ _).
  - cbn [for_each] in Hok. apply bind_Ok in Hok as (results1 & Hstep & Hok).
    apply align_endpoint_Ok in Hstep. specialize (IH _ _ Hok).
    destruct (is_skipped sorted_targets dp e) eqn:Hskip_e.
    { subst results1. destruct (results !! target) as [[yt ys]|]; [|done].
      destruct IH as (yt2 & ys2 & ? & ? & Hc). exists yt2, ys2.
      split_and!; [done..|].
      destruct (is_skipped sorted_targets dp target) eqn:Hskip; [done|].
      cbn [positions]. destruct (decide (e = target)) as [->|]; [congruence|done]. }
    destruct Hstep as (yt0 & ys0 & a & p & Hres & Hp & ->).
    destruct (decide (e = target)) as [->|Hne].
    + rewrite lookup_insert_eq in IH. rewrite Hres.
      destruct IH as (yt2 & ys2 & Hres' & Hlen & Hc).
      exists ([a] ++ yt2), ([p] ++ ys2). rewrite !app_assoc.
      split_and!; [done|simpl; lia|].
      rewrite Hskip_e in Hc |- *. cbn [positions].
      rewrite decide_True by done. csimpl.
      unfold prediction in Hp. rewrite Hp. csimpl. by rewrite Hc.
    + rewrite lookup_insert_ne in IH by done.
      destruct (results !! target) as [[yt ys]|]; [|done].
      destruct IH as (yt2 & ys2 & ? & ? & Hc). exists yt2, ys2.
      split_and!; [done..|]. cbn [positions]. by rewrite decide_False.
Qed.

(** The outer loop. *)
Lemma align_samples_Ok index smiles results results' target :
  for_each (align_sample test_set sorted_targets endpoints local_task_types ypreds)
    index smiles results = Ok results' →
  match results !! target with
  | Some (yt, ys) => ∃ yt2 ys2,
      results' !! target = Some (yt ++ yt2, ys ++ ys2) ∧
      length yt2 = length ys2 ∧
      collect (prediction ypreds)
        (visits test_set sorted_targets endpoints target index smiles) = Ok ys2
  | None => results' !! target = None
  end.
Proof.
  revert index results. induction smiles as [|s smiles IH]; intros index results Hok.
  - injection Hok as <-. destruct (results !! target) as [[yt ys]|]; [|done].
    exists [], []. by rewrite !app_nil_r.
  - cbn [for_each] in Hok. apply bind_Ok in Hok as (results1 & Hstep & Hok).
    unfold align_sample in Hstep. apply bind_Ok in Hstep as (dp & Hdp & Hstep).
    apply dict_getitem_Ok in Hdp.
    apply (align_endpoints_Ok _ _ _ _ _ _ target) in Hstep.
    specialize (IH _ _ Hok).
    destruct (results !! target) as [[yt ys]|].
    + destruct Hstep as (yt1 & ys1 & Hres1 & Hlen1 & Hc1). rewrite Hres1 in IH.
      destruct IH as (yt2 & ys2 & Hres2 & Hlen2 & Hc2).
      exists (yt1 ++ yt2), (ys1 ++ ys2). rewrite !app_assoc.
      split_and!; [done|rewrite !length_app; lia|].
      cbn [visits]. rewrite Hdp, collect_app, Hc2.
      destruct (is_skipped sorted_targets dp target); by rewrite Hc1.
    + by rewrite Hstep in IH.
Qed.
End alignment.

(** ** Counting the visits *)

Lemma length_filter_split {A} (f : A → bool) (l : list A) :
  (length (filter (λ x, f x = false) l) + length (filter (λ x, f x = true) l)
   = length l)%nat.
Proof.
  induction l as [|x l IH]; [done|]. rewrite !filter_cons.
  destruct (f x); repeat case_decide; try done; simpl; lia.
Qed.

Lemma length_visits test_set sorted_targets endpoints target index smiles :
  (∀ s, s ∈ smiles → is_Some (test_set !! s)) →
  length (visits test_set sorted_targets endpoints target index smiles)
  = (length (filter (λ e, e = target) endpoints)
     * length (filter (λ s, skipped_at test_set sorted_targets target s = false)
                smiles))%nat.
Proof.
  revert index. induction smiles as [|s smiles IH]; intros index Hin.
  - simpl. lia.
  - cbn [visits]. rewrite length_app, IH, filter_cons.
    2:{ intros s' Hs'. apply Hin. rewrite elem_of_cons. by right. }
    destruct (Hin s) as [dp Hdp]; [rewrite elem_of_cons; by left|].
    assert (skipped_at test_set sorted_targets target s
            = is_skipped sorted_targets dp target) as Hs
      by (unfold skipped_at; by rewrite Hdp).
    rewrite Hdp, Hs. destruct (is_skipped sorted_targets dp target).
    + by rewrite decide_False.
    + rewrite decide_True by done. rewrite length_fmap, length_positions.
      simpl. lia.
Qed.

(** The skipped data points, counted along any list of the keys. *)
Lemma size_skipped_samples test_set sorted_targets target smiles :
  smiles ≡ₚ (map_to_list test_set).*1 →
  size (skipped_samples test_set sorted_targets target)
  = length (filter (λ s, skipped_at test_set sorted_targets target s = true) smiles).
Proof.
  intros Hp. rewrite <- length_map_to_list.
  rewrite <- (length_fmap fst). apply Permutation_length.
  apply NoDup_Permutation.
  - apply NoDup_fst_map_to_list.
  - apply NoDup_filter. rewrite Hp. apply NoDup_fst_map_to_list.
  - intros s. rewrite list_elem_of_filter, Hp, !list_elem_of_fmap.
    unfold skipped_samples, skipped_at. split.
    + intros ([s' dp] & -> & Hs). apply elem_of_map_to_list in Hs.
      apply map_lookup_filter_Some in Hs as [Hdp Hskip]. simpl in *.
      rewrite Hdp. split; [done|]. exists (s', dp). split; [done|].
      by apply elem_of_map_to_list.
    + intros [Hskip ([s' dp] & -> & Hs)]. apply elem_of_map_to_list in Hs.
      simpl in *. rewrite Hs in Hskip. exists (s', dp). split; [done|].
      apply elem_of_map_to_list. by apply map_lookup_filter_Some.
Qed.

Lemma length_visits_sorted_keys `{DictOrder} test_set sorted_targets endpoints target :
  length (visits test_set sorted_targets endpoints target 0 (sorted (keys test_set)))
  = (length (filter (λ e, e = target) endpoints)
     * (size test_set - size (skipped_samples test_set sorted_targets target)))%nat.
Proof.
  rewrite length_visits by (intros s; apply elem_of_sorted_keys).
  f_equal.
  rewrite (size_skipped_samples _ _ _ (sorted (keys test_set)))
    by (by rewrite sorted_Permutation, keys_perm).
  rewrite <- (length_sorted_keys test_set).
  rewrite <- (length_filter_split (skipped_at test_set sorted_targets target)
                (sorted (keys test_set))).
  lia.
Qed.

(** ** [eval_model] as a whole *)

Lemma endpoint_list_fst `{DictOrder} task_types desc_transforms add_descriptors :
  (endpoint_list task_types desc_transforms add_descriptors).1
  = sorted (keys task_types)
    ++ (if add_descriptors then sorted (keys desc_transforms) else []).
Proof. unfold endpoint_list. destruct add_descriptors; [done|]. by rewrite app_nil_r. Qed.

Lemma endpoint_list_snd `{DictOrder} task_types desc_transforms add_descriptors k :
  (endpoint_list task_types desc_transforms add_descriptors).2 !! k
  = if add_descriptors && bool_decide (is_Some (desc_transforms !! k))
    then Some "regression" else task_types !! k.
Proof.
  unfold endpoint_list. destruct add_descriptors; [|done]. cbn [snd andb].
  rewrite lookup_foldl_insert. destruct (decide (k ∈ keys desc_transforms)) as [Hk|Hk];
    rewrite elem_of_keys in Hk.
  - by rewrite bool_decide_eq_true_2.
  - by rewrite bool_decide_eq_false_2.
Qed.

Lemma endpoint_list_order (o1 o2 : DictOrder) task_types desc_transforms add_descriptors :
  @endpoint_list o1 task_types desc_transforms add_descriptors
  = @endpoint_list o2 task_types desc_transforms add_descriptors.
Proof.
  unfold endpoint_list. rewrite (sorted_keys_order o1 o2 task_types).
  destruct add_descriptors; [|done].
  rewrite (sorted_keys_order o1 o2 desc_transforms). f_equal.
  apply foldl_insert_perm. by rewrite !keys_perm.
Qed.

(** The order in which the dicts yield their keys has no effect on
    [eval_model]. *)
Lemma eval_model_order (o1 o2 : DictOrder) {ndarray}
    (dataset_to_numpy : gmap string datapoint → ndarray * ndarray * ndarray)
    test_set model task_types desc_transforms modeltype add_descriptors :
  @eval_model o1 _ dataset_to_numpy test_set model task_types desc_transforms
    modeltype add_descriptors
  = @eval_model o2 _ dataset_to_numpy test_set model task_types desc_transforms
      modeltype add_descriptors.
Proof.
  unfold eval_model.
  rewrite (endpoint_list_order o1 o2), (sorted_keys_order o1 o2 task_types),
    (sorted_keys_order o1 o2 test_set).
  done.
Qed.

(** The last loop of [eval_model]. *)
Lemma freeze_Ok (results : results_lists) index eps (arrays0 arrays : results_map) target :
  for_each (λ _ target (arrays : results_map),
      '(ytrue, yscore) ← dict_getitem results target;
      Ok (<[target := (np_array (PyNum <$> ytrue), np_array yscore)]> arrays))
    index eps arrays0 = Ok arrays →
  if decide (target ∈ eps) then
    ∃ yt ys, results !! target = Some (yt, ys) ∧
             arrays !! target = Some (np_array (PyNum <$> yt), np_array ys)
  else arrays !! target = arrays0 !! target.
Proof.
  revert index arrays0. induction eps as [|e eps IH]; intros index arrays0 Hok.
  - injection Hok as <-. rewrite decide_False; [done|].
    intros Hin. by apply elem_of_nil in Hin.
  - cbn [for_each] in Hok. apply bind_Ok in Hok as (arrays1 & Hstep & Hok).
    apply bind_Ok in Hstep as ([yt ys] & Hres & [= <-]).
    apply dict_getitem_Ok in Hres. specialize (IH _ _ Hok).
    destruct (decide (target ∈ eps)) as [Hin|Hin].
    + rewrite decide_True; [done|]. rewrite elem_of_cons. by right.
    + destruct (decide (e = target)) as [->|Hne].
      * rewrite decide_True by (rewrite elem_of_cons; by left).
        exists yt, ys. by rewrite IH, lookup_insert_eq.
      * rewrite decide_False by (rewrite elem_of_cons; intros [?|?]; congruence).
        by rewrite IH, lookup_insert_ne.
Qed.

(** What [eval_model] returns when it returns: a pair of arrays for every
    endpoint and nothing else; the predicted values of an endpoint are the
    entries [ypreds[t_ind][index]] of its visits, in that order. *)
Lemma eval_model_Ok `{DictOrder} {ndarray}
    (dataset_to_numpy : gmap string datapoint → ndarray * ndarray * ndarray)
    test_set model task_types desc_transforms modeltype add_descriptors R :
  eval_model dataset_to_numpy test_set model task_types desc_transforms
    modeltype add_descriptors = Ok R →
  let sorted_targets := sorted (keys task_types) in
  let endpoints := (endpoint_list task_types desc_transforms add_descriptors).1 in
  ∃ ypreds,
    model_predictions dataset_to_numpy test_set model (length sorted_targets)
      (size desc_transforms) add_descriptors modeltype = Ok ypreds ∧
    ∀ target,
      if decide (target ∈ endpoints) then
        ∃ yt ys,
          R !! target = Some (np_array (PyNum <$> yt), np_array ys) ∧
          length yt = length ys ∧
          collect (prediction ypreds)
            (visits test_set sorted_targets endpoints target 0
               (sorted (keys test_set))) = Ok ys
      else R !! target = None.
Proof.
  unfold eval_model. intros Hok. cbv zeta.
  destruct (endpoint_list task_types desc_transforms add_descriptors)
    as [endpoints local_task_types]. cbn [fst].
  apply bind_Ok in Hok as (ypreds & Hpreds & Hok).
  apply bind_Ok in Hok as (results & Hloop & Hok).
  exists ypreds. split; [done|]. intros target.
  apply (align_samples_Ok _ _ _ _ _ _ _ _ _ target) in Hloop.
  apply (freeze_Ok _ _ _ _ _ target) in Hok.
  unfold empty_results in Hloop. rewrite lookup_foldl_insert in Hloop.
  destruct (decide (target ∈ endpoints)); [|by rewrite Hok].
  destruct Hloop as (yt & ys & Hres & Hlen & Hc).
  destruct Hok as (yt' & ys' & Hres' & HR). simplify_eq/=.
  by exists yt, ys.
Qed.

(** The positions and the visits, element by element. *)
Lemma elem_of_positions target t_ind eps t :
  t ∈ positions target t_ind eps
  ↔ (t_ind ≤ t)%nat ∧ eps !! (t - t_ind)%nat = Some target.
Proof.
  revert t_ind. induction eps as [|e eps IH]; intros t_ind; cbn [positions].
  - rewrite elem_of_nil, lookup_nil. split; [done|]. by intros [_ ?].
  - rewrite elem_of_app, IH. destruct (decide (t = t_ind)) as [->|Hne].
    + rewrite Nat.sub_diag. cbn [lookup list_lookup].
      destruct (decide (e = target)) as [->|Hne].
      * rewrite list_elem_of_singleton. split; [by intros _|]. intros _. by left.
      * rewrite elem_of_nil. split; [intros [[]|[? _]]; lia|]. intros [_ ?]. congruence.
    + assert (t ∈ (if decide (e = target) then [t_ind] else []) ↔ False) as ->.
      { destruct (decide (e = target));
          [rewrite list_elem_of_singleton|rewrite elem_of_nil]; tauto. }
      split.
      * intros [[]|[Hle Ht]]. split; [lia|].
        by replace (t - t_ind)%nat with (S (t - S t_ind)) by lia.
      * intros [Hle Ht]. right. split; [lia|].
        by replace (t - t_ind)%nat with (S (t - S t_ind)) in Ht by lia.
Qed.

Lemma elem_of_visits test_set sorted_targets endpoints target index smiles i t :
  (i, t) ∈ visits test_set sorted_targets endpoints target index smiles
  ↔ (index ≤ i)%nat ∧ endpoints !! t = Some target ∧
    ∃ s dp, smiles !! (i - index)%nat = Some s ∧ test_set !! s = Some dp ∧
            is_skipped sorted_targets dp target = false.
Proof.
  revert index. induction smiles as [|s smiles IH]; intros index; cbn [visits].
  - rewrite elem_of_nil. split; [done|]. by intros (_ & _ & ? & ? & ? & _).
  - rewrite elem_of_app, IH. clear IH. split.
    + intros [Hhere|(Hle & Ht & s' & dp & Hs' & Hdp & Hskip)].
      * destruct (test_set !! s) as [dp|] eqn:Hdp; [|by apply elem_of_nil in Hhere].
        destruct (is_skipped sorted_targets dp target) eqn:Hskip;
          [by apply elem_of_nil in Hhere|].
        apply list_elem_of_fmap in Hhere as (t' & [= -> ->] & Ht').
        apply elem_of_positions in Ht' as [_ Ht']. rewrite Nat.sub_0_r in Ht'.
        split_and!; [done..|]. exists s, dp. by rewrite Nat.sub_diag.
      * split_and!; [lia|done|]. exists s', dp. split_and!; [|done..].
        by replace (i - index)%nat with (S (i - S index)) by lia.
    + intros (Hle & Ht & s' & dp & Hs' & Hdp & Hskip).
      destruct (decide (i = index)) as [->|Hne].
      * left. rewrite Nat.sub_diag in Hs'. injection Hs' as <-.
        rewrite Hdp, Hskip. apply list_elem_of_fmap. exists t. split; [done|].
        apply elem_of_positions. rewrite Nat.sub_0_r. split; [lia|done].
      * right. split_and!; [lia|done|]. exists s', dp. split_and!; [|done..].
        by replace (i - index)%nat with (S (i - S index)) in Hs' by lia.
Qed.

Lemma length_filter_eq_NoDup (l : list string) (x : string) :
  NoDup l → length (filter (λ e, e = x) l) = if decide (x ∈ l) then 1%nat else 0%nat.
Proof.
  induction 1 as [|y l Hy Hl IH]; [done|]. rewrite filter_cons.
  destruct (decide (y = x)) as [->|Hne]; simpl.
  - rewrite IH, decide_False by done. rewrite decide_True; [done|].
    rewrite elem_of_cons. by left.
  - rewrite IH. destruct (decide (x ∈ l)) as [Hin|Hin].
    + rewrite decide_True; [done|]. rewrite elem_of_cons. by right.
    + rewrite decide_False; [done|]. rewrite elem_of_cons. intros [?|?]; congruence.
Qed.

(** The visits come in the order of the loops. *)
Lemma positions_sorted target t_ind eps :
  StronglySorted lt (positions target t_ind eps).
Proof.
  revert t_ind. induction eps as [|e eps IH]; intros t_ind; cbn [positions].
  - constructor.
  - apply StronglySorted_app_2; [|destruct (decide (e = target)); repeat constructor|done].
    intros t1 t2 Ht1 Ht2. apply elem_of_positions in Ht2 as [Hle _].
    destruct (decide (e = target)); [|by apply elem_of_nil in Ht1].
    apply list_elem_of_singleton in Ht1 as ->. lia.
Qed.

Lemma visits_sorted test_set sorted_targets endpoints target index smiles :
  StronglySorted visit_lt
    (visits test_set sorted_targets endpoints target index smiles).
Proof.
  revert index. induction smiles as [|s smiles IH]; intros index; cbn [visits].
  - constructor.
  - apply StronglySorted_app_2; [| |done].
    + intros [i1 t1] [i2 t2] H1 H2. left. simpl.
      apply elem_of_visits in H2 as [Hle _].
      destruct (test_set !! s) as [dp|]; [|by apply elem_of_nil in H1].
      destruct (is_skipped sorted_targets dp target); [by apply elem_of_nil in H1|].
      apply list_elem_of_fmap in H1 as (t & [= -> ->] & _). lia.
    + destruct (test_set !! s) as [dp|]; [|constructor].
      destruct (is_skipped sorted_targets dp target); [constructor|].
      apply (StronglySorted_fmap _ lt); [|apply positions_sorted].
      intros t1 t2 Hlt. right. by simpl.
Qed.

(** The entry of a result read back: both arrays come from lists of the same
    length, and the predicted values are those of the visits. *)
Lemma eval_model_lookup `{DictOrder} {ndarray}
    (dataset_to_numpy : gmap string datapoint → ndarray * ndarray * ndarray)
    test_set model task_types desc_transforms modeltype add_descriptors R :
  eval_model dataset_to_numpy test_set model task_types desc_transforms
    modeltype add_descriptors = Ok R →
  ∃ ypreds,
    model_predictions dataset_to_numpy test_set model
      (length (sorted (keys task_types))) (size desc_transforms)
      add_descriptors modeltype = Ok ypreds ∧
    ∀ target ytrue yscore,
      R !! target = Some (ytrue, yscore) →
      target ∈ (endpoint_list task_types desc_transforms add_descriptors).1 ∧
      ∃ yt ys,
        ytrue = PyArray (PyNum <$> yt) ∧ yscore = PyArray ys ∧
        length yt = length ys ∧
        collect (prediction ypreds)
          (visits test_set (sorted (keys task_types))
             (endpoint_list task_types desc_transforms add_descriptors).1
             target 0 (sorted (keys test_set))) = Ok ys.
Proof.
  intros Hok. apply eval_model_Ok in Hok as (ypreds & Hpreds & Hall).
  exists ypreds. split; [done|]. intros target ytrue yscore HR.
  specialize (Hall target). destruct (decide (target ∈ _)) as [Hin|Hin].
  - destruct Hall as (yt & ys & HR' & Hlen & Hc). split; [done|].
    exists yt, ys. rewrite HR in HR'. by injection HR' as -> ->.
  - congruence.
Qed.

(** ** The loops of the score functions *)

Section score_loop.
Context (score_of : string → result (option pynum)).
Context (body : nat → string → gmap string pynum → result (gmap string pynum)).
Hypothesis body_eq : ∀ i target scores,
  body i target scores = o ← score_of target; Ok (store_score target o scores).

Lemma score_loop_Ok i l scores0 scores :
  for_each body i l scores0 = Ok scores →
  (∀ target, target ∈ l → ∃ o, score_of target = Ok o) ∧
  ∀ target,
    scores !! target
    = match score_of target with
      | Ok (Some s) => if decide (target ∈ l) then Some s else scores0 !! target
      | _ => scores0 !! target
      end.
Proof.
  revert i scores0. induction l as [|x l IH]; intros i scores0 Hok.
  - injection Hok as <-. split; [by intros ? ?%elem_of_nil|].
    intros target. destruct (score_of target) as [[s|]|]; [|done..].
    rewrite decide_False; [done|]. by intros ?%elem_of_nil.
  - cbn [for_each] in Hok. rewrite body_eq in Hok.
    apply bind_Ok in Hok as (scores1 & Hx & Hok).
    apply bind_Ok in Hx as (o & Ho & [= <-]).
    destruct (IH _ _ Hok) as [Hall Hlook]. split.
    + intros target [->|Hin]%elem_of_cons; eauto.
    + intros target. rewrite Hlook. clear Hlook.
      destruct (decide (target = x)) as [->|Hne].
      * rewrite Ho. destruct o as [s|]; cbn [store_score]; [|done].
        rewrite lookup_insert_eq.
        rewrite (decide_True (P := x ∈ x :: l)) by (rewrite elem_of_cons; by left).
        by destruct (decide (x ∈ l)).
      * assert (store_score x o scores0 !! target = scores0 !! target) as ->.
        { destruct o; cbn [store_score]; [|done]. by rewrite lookup_insert_ne. }
        destruct (score_of target) as [[s|]|]; [|done..].
        destruct (decide (target ∈ l)) as [Hin|Hin].
        -- rewrite decide_True; [done|]. rewrite elem_of_cons. by right.
        -- rewrite decide_False; [done|]. rewrite elem_of_cons. intros [?|?]; congruence.
Qed.

Lemma score_loop_total i l scores0 :
  (∀ target, target ∈ l → ∃ o, score_of target = Ok o) →
  ∃ scores, for_each body i l scores0 = Ok scores.
Proof.
  revert i scores0. induction l as [|x l IH]; intros i scores0 Hall; [by eexists|].
  cbn [for_each]. rewrite body_eq.
  destruct (Hall x) as [o ->]; [rewrite elem_of_cons; by left|].
  cbn [mbind result_bind]. apply IH. intros target Hin. apply Hall.
  rewrite elem_of_cons. by right.
Qed.

Lemma score_loop_Raise i l scores0 e :
  for_each body i l scores0 = Raise e →
  ∃ target, target ∈ l ∧ score_of target = Raise e.
Proof.
  revert i scores0. induction l as [|x l IH]; intros i scores0 Hraise; [done|].
  cbn [for_each] in Hraise. rewrite body_eq in Hraise.
  destruct (score_of x) as [o|e'] eqn:Hx; cbn [mbind result_bind] in Hraise.
  - destruct (IH _ _ Hraise) as (target & Hin & Htarget).
    exists target. split; [|done]. rewrite elem_of_cons. by right.
  - injection Hraise as ->. exists x. split; [|done]. rewrite elem_of_cons. by left.
Qed.
End score_loop.

Lemma compute_roc_auc_scores_body (labels_to_weights : pyobj → result pyobj)
    (roc_auc_score : pyobj → pyobj → pyobj → result pynum)
    (results : results_map) (task_types : gmap string string)
    (target : string) (scores : gmap string pynum) :
  (task_type ← dict_getitem task_types target;
   if decide (task_type ≠ "classification") then Ok scores
   else
     '(ytrue, yscore) ← dict_getitem results target;
     sample_weights ← labels_to_weights ytrue;
     positive ← column 1 yscore;
     score ← roc_auc_score ytrue positive sample_weights;
     Ok (<[target := score]> scores))
  = o ← auc_score labels_to_weights roc_auc_score results task_types target;
    Ok (store_score target o scores).
Proof.
  unfold auc_score. destruct (dict_getitem task_types target) as [tt|]; [|done].
  cbn [mbind result_bind]. destruct (decide (tt ≠ "classification")); [done|].
  destruct (dict_getitem results target) as [[yt ys]|]; [|done].
  cbn [mbind result_bind]. destruct (labels_to_weights yt); [|done].
  cbn [mbind result_bind]. destruct (column 1 ys); [|done].
  cbn [mbind result_bind]. by destruct (roc_auc_score _ _ _).
Qed.

Lemma regression_scores_body (metric : pyobj → pyobj → result pynum)
    (results : results_map) (task_types : gmap string string)
    (target : string) (scores : gmap string pynum) :
  (task_type ← dict_getitem task_types target;
   if decide (task_type ≠ "regression") then Ok scores
   else
     '(ytrue, yscore) ← dict_getitem results target;
     score ← metric ytrue yscore;
     Ok (<[target := score]> scores))
  = o ← regression_score metric results task_types target;
    Ok (store_score target o scores).
Proof.
  unfold regression_score. destruct (dict_getitem task_types target) as [tt|]; [|done].
  cbn [mbind result_bind]. destruct (decide (tt ≠ "regression")); [done|].
  destruct (dict_getitem results target) as [[yt ys]|]; [|done].
  cbn [mbind result_bind]. by destruct (metric _ _).
Qed.

Lemma compute_rms_scores_body
    (mean_squared_error : pyobj → pyobj → result pynum) (np_sqrt : pynum → pynum)
    (results : results_map) (task_types : gmap string string)
    (target : string) (scores : gmap string pynum) :
  (task_type ← dict_getitem task_types target;
   if decide (task_type ≠ "regression") then Ok scores
   else
     '(ytrue, yscore) ← dict_getitem results target;
     mse ← mean_squared_error ytrue yscore;
     Ok (<[target := np_sqrt mse]> scores))
  = o ← regression_score (λ yt ys, np_sqrt <$> mean_squared_error yt ys)
          results task_types target;
    Ok (store_score target o scores).
Proof.
  unfold regression_score. destruct (dict_getitem task_types target) as [tt|]; [|done].
  cbn [mbind result_bind]. destruct (decide (tt ≠ "regression")); [done|].
  destruct (dict_getitem results target) as [[yt ys]|]; [|done].
  cbn [mbind result_bind]. by destruct (mean_squared_error _ _).
Qed.

(** A score function returns only if every key of the results has a type. *)
Lemma auc_score_Ok_type labels_to_weights roc_auc_score results task_types target o :
  auc_score labels_to_weights roc_auc_score results task_types target = Ok o →
  is_Some (task_types !! target).
Proof.
  unfold auc_score. intros (tt & Htt%dict_getitem_Ok & _)%bind_Ok. eauto.
Qed.

Lemma regression_score_Ok_type metric results task_types target o :
  regression_score metric results task_types target = Ok o →
  is_Some (task_types !! target).
Proof.
  unfold regression_score. intros (tt & Htt%dict_getitem_Ok & _)%bind_Ok. eauto.
Qed.

(** ** Lengths and skipped samples *)

Lemma count_endpoint `{DictOrder} (task_types : gmap string string)
    (desc_transforms : gmap string transform) add_descriptors target :
  length (filter (λ e, e = target)
            (endpoint_list task_types desc_transforms add_descriptors).1)
  = ((if decide (is_Some (task_types !! target)) then 1 else 0)
     + (if add_descriptors
        then if decide (is_Some (desc_transforms !! target)) then 1 else 0
        else 0))%nat.
Proof.
  rewrite endpoint_list_fst, filter_app, length_app.
  rewrite length_filter_eq_NoDup by apply NoDup_sorted_keys. f_equal.
  - destruct (decide (target ∈ _)) as [Hin|Hin]; rewrite elem_of_sorted_keys in Hin.
    + by rewrite decide_True.
    + by rewrite decide_False.
  - destruct add_descriptors; [|done].
    rewrite length_filter_eq_NoDup by apply NoDup_sorted_keys.
    destruct (decide (target ∈ _)) as [Hin|Hin]; rewrite elem_of_sorted_keys in Hin.
    + by rewrite decide_True.
    + by rewrite decide_False.
Qed.

(** The two arrays of an endpoint have the same length: the number of samples
    that are not skipped for it, once for every occurrence of the endpoint in
    the list of endpoints. *)
Lemma eval_model_length `{DictOrder} {ndarray}
    (dataset_to_numpy : gmap string datapoint → ndarray * ndarray * ndarray)
    test_set model task_types desc_transforms modeltype add_descriptors
    R target ytrue yscore :
  eval_model dataset_to_numpy test_set model task_types desc_transforms
    modeltype add_descriptors = Ok R →
  R !! target = Some (ytrue, yscore) →
  target ∈ (endpoint_list task_types desc_transforms add_descriptors).1 ∧
  ∃ n, py_len ytrue = Some n ∧ py_len yscore = Some n ∧
       n = (length (filter (λ e, e = target)
                      (endpoint_list task_types desc_transforms add_descriptors).1)
            * (size test_set
               - size (skipped_samples test_set (sorted (keys task_types)) target)))%nat.
Proof.
  intros HR Hlook. apply eval_model_lookup in HR as (ypreds & _ & Hall).
  destruct (Hall _ _ _ Hlook) as (Hin & yt & ys & -> & -> & Hlen & Hc).
  split; [done|]. exists (length ys). cbn [py_len].
  rewrite length_fmap, Hlen. split_and!; [done..|].
  apply collect_length in Hc. by rewrite Hc, length_visits_sorted_keys.
Qed.

(** C1. The two arrays of an endpoint are to have one entry for every
    sample that is not skipped for it. [eval_model] breaks this when a task
    and an included descriptor share a name: the name is twice in the list of
    endpoints but has one pair of lists, and both visits of a sample take the
    branch of the task (the test is [target in sorted_targets]). With the one
    sample A, none skipped, both arrays of the endpoint "0" have two entries:
    the label 5 of the task twice, where the branch of the descriptors (lines
    118-122) would read [descriptors[0]], which is 7 and is never read, and
    the predictions of the two heads of the model, the one for the descriptor
    next to the label of the task. *)
Theorem eval_model_lengths_collision :
  ∃ R ytrue yscore,
    eval_model (H := listing_order) no_features collision_test_set
      (constant_model collision_predictions) collision_task_types
      collision_desc_transforms "keras_multitask" true = Ok R ∧
    (@endpoint_list listing_order collision_task_types
       collision_desc_transforms true).1 = ["0"; "0"] ∧
    R !! "0" = Some (ytrue, yscore) ∧
    ytrue = PyArray [PyNum (PInt 5); PyNum (PInt 5)] ∧
    yscore = PyArray [PyNum (PFloat 0.5); PyNum (PFloat 0.25)] ∧
    py_len ytrue = Some 2%nat ∧ py_len yscore = Some 2%nat ∧
    (size collision_test_set
     - size (skipped_samples collision_test_set
               (sorted (@keys listing_order _ collision_task_types)) "0"))%nat
    = 1%nat ∧
    ∃ dp ds,
      collision_test_set !! "A" = Some dp ∧ descriptors dp = Some ds ∧
      (i ← py_int "0"; seq_getitem ds i) = Ok (PInt 7).
Proof.
  eexists _, _, _.
  split_and!; [by vm_compute|by vm_compute|by vm_compute|done..|by vm_compute|].
  eexists _, _. split_and!; [by vm_compute|done|by vm_compute].
Qed.

(** C2. A sample whose label for a task equals -1 appends nothing for that
    endpoint: the step of the inner loop returns the results as they are, the
    pass over the endpoints leaves both lists of the endpoint as they were,
    and no visit of the endpoint is at the position of that sample. *)
Theorem skip_missing_label (test_set : gmap string datapoint)
    (sorted_targets endpoints : list string)
    (local_task_types : gmap string string) (ypreds : pyobj)
    (index : nat) (smiles : string) (dp : datapoint) (target : string)
    (l : pynum) (results : results_lists) :
  test_set !! smiles = Some dp →
  target ∈ sorted_targets →
  labels dp !! target = Some l →
  py_eq l (PInt (-1)) = true →
  (∀ t_ind, is_Some (local_task_types !! target) →
     align_endpoint sorted_targets local_task_types ypreds index dp t_ind
       target results = Ok results)
  ∧ (∀ results',
       align_sample test_set sorted_targets endpoints local_task_types ypreds
         index smiles results = Ok results' →
       results' !! target = results !! target)
  ∧ (∀ smiles_list i t_ind,
       smiles_list !! i = Some smiles →
       (i, t_ind) ∉ visits test_set sorted_targets endpoints target 0 smiles_list).
Proof.
  intros Hdp Hin Hl Hmissing.
  assert (is_skipped sorted_targets dp target = true) as Hskip.
  { unfold is_skipped. by rewrite bool_decide_eq_true_2, Hl. }
  split_and!.
  - intros t_ind [task_type Htt]. unfold align_endpoint, dict_getitem.
    rewrite Htt, bool_decide_eq_true_2, Hl by done. cbn [mbind result_bind].
    by rewrite Hmissing.
  - intros results' Hok. unfold align_sample, dict_getitem in Hok.
    rewrite Hdp in Hok. cbn [mbind result_bind] in Hok.
    apply (align_endpoints_Ok _ _ _ _ _ _ _ _ _ target) in Hok.
    rewrite Hskip in Hok. destruct (results !! target) as [[yt ys]|]; [|done].
    destruct Hok as (yt2 & ys2 & -> & Hlen & [= <-]).
    destruct yt2; [|done]. by rewrite !app_nil_r.
  - intros smiles_list i t_ind Hi Hvisit.
    apply elem_of_visits in Hvisit as (_ & _ & s & dp' & Hs & Hdp' & Hns).
    rewrite Nat.sub_0_r in Hs. congruence.
Qed.

Lemma skip_missing_label_witness :
  (∀ t_ind, is_Some (scenario_task_types !! "t1") →
     align_endpoint ["t1"] scenario_task_types (PyList [scenario_predictions])
       2 (labelled "t1" (PInt (-1))) t_ind "t1" (empty_results ["t1"])
     = Ok (empty_results ["t1"]))
  ∧ (∀ results',
       align_sample scenario_test_set ["t1"] ["t1"] scenario_task_types
         (PyList [scenario_predictions]) 2 "C" (empty_results ["t1"])
       = Ok results' →
       results' !! "t1" = empty_results ["t1"] !! "t1")
  ∧ (∀ smiles_list i t_ind,
       smiles_list !! i = Some "C" →
       (i, t_ind) ∉ visits scenario_test_set ["t1"] ["t1"] "t1" 0 smiles_list).
Proof.
  apply (skip_missing_label scenario_test_set ["t1"] ["t1"] scenario_task_types
           (PyList [scenario_predictions]) 2 "C" (labelled "t1" (PInt (-1)))
           "t1" (PInt (-1)) (empty_results ["t1"])).
  - by vm_compute.
  - apply list_elem_of_singleton. reflexivity.
  - by vm_compute.
  - reflexivity.
Defined.

(** ** The end-to-end scenario *)

(** C3. On the test set with the samples A (label 1), B (label 0) and C
    (label -1) for the one classification task t1, and a probability-output
    model whose predictions, in the order A, B, C, are [[0.1, 0.9],
    [0.8, 0.2], [0.5, 0.5]], [eval_model] returns
    {"t1": ([1, 0], [[0.1, 0.9], [0.8, 0.2]])}: sample C is left out. This
    holds whatever the order in which the dicts yield their keys. *)
Theorem eval_model_scenario `{DictOrder} {ndarray}
    (dataset_to_numpy : gmap string datapoint → ndarray * ndarray * ndarray)
    (m : model ndarray) :
  predict_proba m (dataset_to_numpy scenario_test_set).1.1 = scenario_predictions →
  eval_model dataset_to_numpy scenario_test_set m scenario_task_types ∅
    "sklearn" false = Ok scenario_results.
Proof.
  intros Hm. rewrite (eval_model_order _ listing_order).
  unfold eval_model, model_predictions.
  destruct (dataset_to_numpy scenario_test_set) as [[X ?] ?]. simpl in Hm.
  rewrite decide_True by done. cbn [mbind result_bind]. rewrite Hm.
  by vm_compute.
Qed.

Lemma eval_model_scenario_witness :
  eval_model (H := listing_order) no_features scenario_test_set
    (constant_model scenario_predictions) scenario_task_types ∅ "sklearn" false
  = Ok scenario_results.
Proof. apply (eval_model_scenario (H := listing_order) no_features). reflexivity. Defined.

(** ** Determinism and alignment *)

(** C4. [eval_model] is deterministic: whatever the order in which the dicts
    yield their keys, the result is the same. The samples are processed in
    the lexicographically sorted order of their identifiers, and the predicted
    values of an endpoint are the entries [ypreds[t_ind][index]] where
    [index] is the position of a sample (one that is not skipped) in that
    sorted order, listed by increasing position. *)
Theorem eval_model_deterministic (o1 o2 : DictOrder) {ndarray}
    (dataset_to_numpy : gmap string datapoint → ndarray * ndarray * ndarray)
    test_set model task_types desc_transforms modeltype add_descriptors :
  @eval_model o1 _ dataset_to_numpy test_set model task_types desc_transforms
    modeltype add_descriptors
  = @eval_model o2 _ dataset_to_numpy test_set model task_types desc_transforms
      modeltype add_descriptors
  ∧ sorted (@keys o1 _ test_set) = sorted (@keys o2 _ test_set)
  ∧ Sorted str_le (sorted (@keys o1 _ test_set))
  ∧ NoDup (sorted (@keys o1 _ test_set))
  ∧ (∀ s, s ∈ sorted (@keys o1 _ test_set) ↔ is_Some (test_set !! s))
  ∧ ∀ R,
      @eval_model o1 _ dataset_to_numpy test_set model task_types
        desc_transforms modeltype add_descriptors = Ok R →
      ∃ ypreds,
        model_predictions dataset_to_numpy test_set model
          (length (sorted (@keys o1 _ task_types))) (size desc_transforms)
          add_descriptors modeltype = Ok ypreds ∧
        ∀ target ytrue yscore,
          R !! target = Some (ytrue, yscore) →
          ∃ ys vs,
            yscore = PyArray ys ∧
            collect (prediction ypreds) vs = Ok ys ∧
            StronglySorted visit_lt vs ∧
            ∀ index t_ind,
              (index, t_ind) ∈ vs ↔
              (@endpoint_list o1 task_types desc_transforms add_descriptors).1
                !! t_ind = Some target ∧
              ∃ s dp,
                sorted (@keys o1 _ test_set) !! index = Some s ∧
                test_set !! s = Some dp ∧
                is_skipped (sorted (@keys o1 _ task_types)) dp target = false.
Proof.
  split_and!.
  - apply eval_model_order.
  - apply sorted_keys_order.
  - apply sorted_Sorted.
  - apply NoDup_sorted_keys.
  - intros s. apply elem_of_sorted_keys.
  - intros R HR. apply eval_model_lookup in HR as (ypreds & Hpreds & Hall).
    exists ypreds. split; [done|]. intros target ytrue yscore Hlook.
    destruct (Hall _ _ _ Hlook) as (_ & yt & ys & _ & -> & _ & Hc).
    eexists ys, _. split_and!; [done|exact Hc|apply visits_sorted|].
    intros index t_ind. rewrite elem_of_visits, Nat.sub_0_r.
    split; [by intros (_ & ? & ?)|]. intros [? ?]. split_and!; [lia|done..].
Qed.

Lemma eval_model_deterministic_witness :
  eval_model (H := listing_order) no_features scenario_test_set
    (constant_model scenario_predictions) scenario_task_types ∅ "sklearn" false
  = eval_model (H := reverse_order) no_features scenario_test_set
      (constant_model scenario_predictions) scenario_task_types ∅ "sklearn" false
  ∧ sorted (@keys listing_order _ scenario_test_set) = ["A"; "B"; "C"]
  ∧ sorted (@keys reverse_order _ scenario_test_set) = ["A"; "B"; "C"].
Proof.
  split; [|by vm_compute].
  apply (eval_model_deterministic listing_order reverse_order no_features
           scenario_test_set (constant_model scenario_predictions)
           scenario_task_types ∅ "sklearn" false).
Defined.

(** C8. The endpoints of [eval_model] are the sorted task names followed,
    when the descriptors are included, by the sorted descriptor keys. At every
    (sample, endpoint) pair that is not skipped, the predicted value appended
    is [ypreds[t_ind][index]], with [t_ind] the position of the endpoint in
    that list. So when [eval_model] returns, every endpoint of the list has
    its pair of arrays in the result, and for every sample that is not
    skipped for it the predicted array holds the entry of the prediction
    array at the position of the endpoint and the index of the sample; the
    predicted values of an endpoint are these entries and no others. *)
Theorem eval_model_endpoint_order `{DictOrder} {ndarray}
    (dataset_to_numpy : gmap string datapoint → ndarray * ndarray * ndarray)
    test_set model task_types desc_transforms modeltype add_descriptors :
  (endpoint_list task_types desc_transforms add_descriptors).1
  = sorted (keys task_types)
    ++ (if add_descriptors then sorted (keys desc_transforms) else [])
  ∧ (∀ local_task_types ypreds index dp t_ind target results results',
       align_endpoint (sorted (keys task_types)) local_task_types ypreds index
         dp t_ind target results = Ok results' →
       is_skipped (sorted (keys task_types)) dp target = false →
       ∃ yt ys a p,
         results !! target = Some (yt, ys) ∧
         (preds ← py_getitem ypreds (KInt (Z.of_nat t_ind));
          py_getitem preds (KInt (Z.of_nat index))) = Ok p ∧
         results' = <[target := (yt ++ [a], ys ++ [p])]> results)
  ∧ ∀ R,
      eval_model dataset_to_numpy test_set model task_types desc_transforms
        modeltype add_descriptors = Ok R →
      ∃ ypreds,
        model_predictions dataset_to_numpy test_set model
          (length (sorted (keys task_types))) (size desc_transforms)
          add_descriptors modeltype = Ok ypreds ∧
        (∀ t_ind target,
           (endpoint_list task_types desc_transforms add_descriptors).1
             !! t_ind = Some target →
           ∃ ytrue ys,
             R !! target = Some (ytrue, PyArray ys) ∧
             collect (prediction ypreds)
               (visits test_set (sorted (keys task_types))
                  (endpoint_list task_types desc_transforms add_descriptors).1
                  target 0 (sorted (keys test_set))) = Ok ys ∧
             ∀ index smiles dp,
               sorted (keys test_set) !! index = Some smiles →
               test_set !! smiles = Some dp →
               is_skipped (sorted (keys task_types)) dp target = false →
               ∃ p, prediction ypreds (index, t_ind) = Ok p ∧ p ∈ ys) ∧
        ∀ target ytrue yscore,
          R !! target = Some (ytrue, yscore) →
          ∃ ys vs,
            yscore = PyArray ys ∧
            collect (prediction ypreds) vs = Ok ys ∧
            vs = visits test_set (sorted (keys task_types))
                   (endpoint_list task_types desc_transforms add_descriptors).1
                   target 0 (sorted (keys test_set)) ∧
            ∀ index t_ind,
              (index, t_ind) ∈ vs →
              (endpoint_list task_types desc_transforms add_descriptors).1
                !! t_ind = Some target.
Proof.
  split_and!.
  - apply endpoint_list_fst.
  - intros ltt ypreds index dp t_ind target results results' Hok Hskip.
    apply align_endpoint_Ok in Hok. by rewrite Hskip in Hok.
  - intros R HR. pose proof (eval_model_Ok _ _ _ _ _ _ _ _ HR) as Hends.
    apply eval_model_lookup in HR as (ypreds & Hpreds & Hall).
    exists ypreds. split; [done|]. split.
    + intros t_ind target Ht. cbv zeta in Hends.
      destruct Hends as (ypreds' & Hpreds' & Hends).
      assert (ypreds' = ypreds) as -> by congruence.
      specialize (Hends target).
      rewrite decide_True in Hends by (by eapply list_elem_of_lookup_2).
      destruct Hends as (yt & ys & HR & _ & Hc).
      exists (np_array (PyNum <$> yt)), ys. split_and!; [done..|].
      intros index smiles dp Hindex Hdp Hkept.
      assert ((index, t_ind)
              ∈ visits test_set (sorted (keys task_types))
                  (endpoint_list task_types desc_transforms add_descriptors).1
                  target 0 (sorted (keys test_set)))
        as [j Hj]%list_elem_of_lookup.
      { apply elem_of_visits. split_and!; [lia|done|].
        exists smiles, dp. by rewrite Nat.sub_0_r. }
      destruct (collect_lookup _ _ _ _ _ Hc Hj) as (p & Hp & Hpred).
      exists p. split; [done|]. by eapply list_elem_of_lookup_2.
    + intros target ytrue yscore Hlook.
      destruct (Hall _ _ _ Hlook) as (_ & yt & ys & _ & -> & _ & Hc).
      eexists ys, _. split_and!; [done|exact Hc|done|].
      intros index t_ind Hin. by apply elem_of_visits in Hin as (_ & ? & _).
Qed.

Lemma eval_model_endpoint_order_witness :
  (@endpoint_list listing_order scenario_task_types ∅ false).1 = ["t1"]
  ∧ ∃ ypreds ytrue ys,
      model_predictions no_features scenario_test_set
        (constant_model scenario_predictions) 1 0 false "sklearn" = Ok ypreds
      ∧ scenario_results !! "t1" = Some (ytrue, PyArray ys)
      ∧ prediction ypreds (1%nat, 0%nat) = Ok (proba 0.8 0.2)
      ∧ ∃ p, prediction ypreds (1%nat, 0%nat) = Ok p ∧ p ∈ ys.
Proof.
  split; [by vm_compute|].
  destruct (eval_model_endpoint_order (H := listing_order) no_features
              scenario_test_set (constant_model scenario_predictions)
              scenario_task_types ∅ "sklearn" false) as (_ & _ & Hall).
  destruct (Hall scenario_results) as (ypreds & Hpreds & Hends & _);
    [by vm_compute|].
  destruct (Hends 0%nat "t1") as (ytrue & ys & HR & _ & Hp); [by vm_compute|].
  exists ypreds, ytrue, ys. split_and!; [exact Hpreds|exact HR| |].
  - vm_compute in Hpreds. injection Hpreds as <-. by vm_compute.
  - apply (Hp 1%nat "B" (labelled "t1" (PInt 0))); by vm_compute.
Defined.

(** ** Errors *)

(** A classification endpoint with a label that is neither 0 nor 1, and that
    is not skipped, makes the step of the inner loop raise, whatever the
    lists filled so far. *)
Lemma align_endpoint_invalid sorted_targets (local_task_types : gmap string string)
    ypreds index dp t_ind target l (results : results_lists) :
  local_task_types !! target = Some "classification" →
  labels dp !! target = Some l →
  is_skipped sorted_targets dp target = false →
  py_eq l (PInt 0) = false →
  py_eq l (PInt 1) = false →
  align_endpoint sorted_targets local_task_types ypreds index dp t_ind target results
  = match results !! target with
    | Some _ => Raise (ValueError "Labels must be 0/1.")
    | None => Raise (KeyError (KStr target))
    end.
Proof.
  intros Htt Hl Hskip H0 H1. unfold align_endpoint, dict_getitem.
  rewrite Htt, Hl. cbn [mbind result_bind].
  unfold is_skipped in Hskip. rewrite Hl in Hskip.
  destruct (bool_decide (target ∈ sorted_targets)); cbn [mbind result_bind andb] in *.
  - rewrite Hskip. destruct (results !! target) as [[yt ys]|]; [|done].
    cbn [mbind result_bind]. rewrite decide_True by done.
    cbn [mbind result_bind]. by rewrite H0, H1.
  - destruct (results !! target) as [[yt ys]|]; [|done].
    cbn [mbind result_bind]. rewrite decide_True by done.
    cbn [mbind result_bind]. by rewrite H0, H1.
Qed.

(** The loops keep the keys of the results. *)
Lemma align_samples_keys test_set sorted_targets endpoints local_task_types ypreds
    index smiles (results results' : results_lists) target :
  for_each (align_sample test_set sorted_targets endpoints local_task_types ypreds)
    index smiles results = Ok results' →
  is_Some (results !! target) → is_Some (results' !! target).
Proof.
  intros Hok [[yt ys] Hres].
  apply align_samples_Ok with (target := target) in Hok. rewrite Hres in Hok.
  destruct Hok as (? & ? & -> & _). eauto.
Qed.

Lemma align_endpoints_keys sorted_targets local_task_types ypreds index dp
    t_ind eps (results results' : results_lists) target :
  for_each (align_endpoint sorted_targets local_task_types ypreds index dp)
    t_ind eps results = Ok results' →
  is_Some (results !! target) → is_Some (results' !! target).
Proof.
  intros Hok [[yt ys] Hres].
  apply align_endpoints_Ok with (target := target) in Hok. rewrite Hres in Hok.
  destruct Hok as (? & ? & -> & _). eauto.
Qed.

Lemma align_sample_lookup test_set sorted_targets endpoints local_task_types
    ypreds index smiles dp (results : results_lists) :
  test_set !! smiles = Some dp →
  align_sample test_set sorted_targets endpoints local_task_types ypreds index
    smiles results
  = for_each (align_endpoint sorted_targets local_task_types ypreds index dp)
      0 endpoints results.
Proof. intros Hdp. unfold align_sample, dict_getitem. by rewrite Hdp. Qed.

Lemma empty_results_lookup endpoints target :
  target ∈ endpoints → empty_results endpoints !! target = Some ([], []).
Proof.
  intros Hin. unfold empty_results. by rewrite lookup_foldl_insert, decide_True.
Qed.

Lemma is_ok_false {A} (r : result A) : is_ok r = false ↔ ∀ a, r ≠ Ok a.
Proof. destruct r; simpl; split; try done. intros Hne. by destruct (Hne a). Qed.

(** C5 (amended). If a sample has, for a classification task that is not
    also the key of an included descriptor, a label that is none of -1, 0
    and 1, then [eval_model] returns no result. The error is
    ValueError("Labels must be 0/1.") when the predictions were obtained and
    no pair of a sample and an endpoint that comes earlier in the order of
    the loops raised. *)
Theorem invalid_label `{DictOrder} {ndarray}
    (dataset_to_numpy : gmap string datapoint → ndarray * ndarray * ndarray)
    test_set model task_types desc_transforms modeltype add_descriptors
    smiles dp target l :
  test_set !! smiles = Some dp →
  task_types !! target = Some "classification" →
  ¬ (add_descriptors = true ∧ is_Some (desc_transforms !! target)) →
  labels dp !! target = Some l →
  py_eq l (PInt (-1)) = false →
  py_eq l (PInt 0) = false →
  py_eq l (PInt 1) = false →
  (∀ R, eval_model dataset_to_numpy test_set model task_types desc_transforms
          modeltype add_descriptors ≠ Ok R)
  ∧ ∀ ypreds pre post epre epost results1 results2,
      model_predictions dataset_to_numpy test_set model
        (length (sorted (keys task_types))) (size desc_transforms)
        add_descriptors modeltype = Ok ypreds →
      sorted (keys test_set) = pre ++ smiles :: post →
      (endpoint_list task_types desc_transforms add_descriptors).1
      = epre ++ target :: epost →
      for_each
        (align_sample test_set (sorted (keys task_types))
           (endpoint_list task_types desc_transforms add_descriptors).1
           (endpoint_list task_types desc_transforms add_descriptors).2 ypreds)
        0 pre
        (empty_results (endpoint_list task_types desc_transforms add_descriptors).1)
      = Ok results1 →
      for_each
        (align_endpoint (sorted (keys task_types))
           (endpoint_list task_types desc_transforms add_descriptors).2 ypreds
           (length pre) dp)
        0 epre results1 = Ok results2 →
      eval_model dataset_to_numpy test_set model task_types desc_transforms
        modeltype add_descriptors = Raise (ValueError "Labels must be 0/1.").
Proof.
  intros Hdp Htype Hno Hl Hm1 H0 H1.
  assert (target ∈ sorted (keys task_types)) as Htarget
    by (apply elem_of_sorted_keys; eauto).
  assert ((endpoint_list task_types desc_transforms add_descriptors).2 !! target
          = Some "classification") as Hltt.
  { rewrite endpoint_list_snd. destruct add_descriptors; [|done].
    rewrite bool_decide_eq_false_2; [done|]. intros ?. by apply Hno. }
  assert (is_skipped (sorted (keys task_types)) dp target = false) as Hskip.
  { unfold is_skipped. by rewrite Hl, Hm1, andb_false_r. }
  assert (target ∈ (endpoint_list task_types desc_transforms add_descriptors).1)
    as Hin by (rewrite endpoint_list_fst, elem_of_app; by left).
  assert (∀ ypreds index t_ind (results : results_lists),
            align_endpoint (sorted (keys task_types))
              (endpoint_list task_types desc_transforms add_descriptors).2
              ypreds index dp t_ind target results
            = match results !! target with
              | Some _ => Raise (ValueError "Labels must be 0/1.")
              | None => Raise (KeyError (KStr target))
              end) as Hbad
    by (intros; by apply align_endpoint_invalid with (l := l)).
  unfold eval_model.
  destruct (endpoint_list task_types desc_transforms add_descriptors)
    as [endpoints local_task_types] eqn:Hel. cbn [fst snd] in *.
  split.
  - intros R HR. apply bind_Ok in HR as (ypreds & _ & HR).
    apply bind_Ok in HR as (results & Hloop & _).
    assert (smiles ∈ sorted (keys test_set)) as Hs
      by (apply elem_of_sorted_keys; eauto).
    apply list_elem_of_lookup in Hs as [j Hj].
    apply list_elem_of_lookup in Hin as [t Ht].
    eapply is_ok_false; [|exact Hloop].
    apply (for_each_fails _ _ _ _ j smiles); [done|]. intros results'.
    rewrite (align_sample_lookup _ _ _ _ _ _ _ dp) by done.
    apply (for_each_fails _ _ _ _ t target); [done|]. intros results''.
    rewrite Hbad. by destruct (results'' !! target).
  - intros ypreds pre post epre epost results1 results2 Hpreds Hsm Hep Hpre Hepre.
    rewrite Hpreds, Hsm. cbn [mbind result_bind].
    rewrite for_each_app, Hpre. cbn [mbind result_bind for_each Nat.add].
    rewrite (align_sample_lookup _ _ _ _ _ _ _ dp) by done.
    assert (for_each
              (align_endpoint (sorted (keys task_types)) local_task_types ypreds
                 (length pre) dp) 0 endpoints results1
            = Raise (ValueError "Labels must be 0/1.")) as ->; [|done].
    rewrite Hep, for_each_app, Hepre. cbn [mbind result_bind for_each].
    rewrite Hbad.
    assert (is_Some (results2 !! target)) as [? ->]; [|done].
    eapply align_endpoints_keys; [exact Hepre|].
    eapply align_samples_keys; [exact Hpre|].
    rewrite empty_results_lookup by done. eauto.
Qed.

Lemma invalid_label_witness :
  (∀ R, eval_model (H := listing_order) no_features invalid_test_set
          (constant_model invalid_predictions) scenario_task_types ∅
          "sklearn" false ≠ Ok R)
  ∧ eval_model (H := listing_order) no_features invalid_test_set
      (constant_model invalid_predictions) scenario_task_types ∅ "sklearn" false
    = Raise (ValueError "Labels must be 0/1.").
Proof.
  destruct (invalid_label (H := listing_order) no_features invalid_test_set
              (constant_model invalid_predictions) scenario_task_types ∅
              "sklearn" false "B" (labelled "t1" (PInt 2)) "t1" (PInt 2))
    as [Hnone Herr].
  - by vm_compute.
  - by vm_compute.
  - intros [Hf _]. discriminate Hf.
  - by vm_compute.
  - reflexivity.
  - reflexivity.
  - reflexivity.
  - split; [exact Hnone|].
    eapply (Herr _ ["A"] [] [] []); [reflexivity|by vm_compute|by vm_compute| |].
    + vm_compute. reflexivity.
    + reflexivity.
Defined.

(** C5 as first stated fails in two ways. An earlier failure is the one
    [eval_model] reports, although sample B has the label 2 for the
    classification task t1: with a value of [modeltype] that is not
    recognised it is the error of [model_predictions], and with a second task
    t0 for which sample A has no label it is the KeyError of that lookup. And
    when the task is also the key of an included descriptor, its type in the
    working copy is "regression": the label 2 is appended and [eval_model]
    returns. *)
Lemma invalid_label_preempted :
  invalid_test_set !! "B" = Some (labelled "t1" (PInt 2))
  ∧ eval_model (H := listing_order) no_features invalid_test_set
      (constant_model invalid_predictions) scenario_task_types ∅ "xgboost" false
    = Raise (ValueError "Improper modeltype.")
  ∧ eval_model (H := listing_order) no_features invalid_test_set
      (constant_model invalid_predictions) two_task_types ∅ "sklearn" false
    = Raise (KeyError (KStr "t0"))
  ∧ eval_model (H := listing_order) no_features collision_invalid_test_set
      (constant_model collision_predictions) collision_classification
      collision_desc_transforms "keras_multitask" true
    = Ok {[ "0" := (PyArray [PyNum (PInt 2); PyNum (PInt 2)],
                    PyArray [PyNum (PFloat 0.5); PyNum (PFloat 0.25)]) ]}.
Proof. split_and!; by vm_compute. Qed.

(** ** The predictions *)

(** C6. Any value of [modeltype] other than "sklearn", "keras" and
    "keras_multitask" makes [model_predictions] raise
    ValueError("Improper modeltype."); it returns no predictions, and
    [eval_model], which calls it first, raises the same error. *)
Theorem improper_modeltype {ndarray}
    (dataset_to_numpy : gmap string datapoint → ndarray * ndarray * ndarray)
    test_set (model : model ndarray) n_targets n_descriptors add_descriptors
    modeltype :
  modeltype ≠ "sklearn" →
  modeltype ≠ "keras" →
  modeltype ≠ "keras_multitask" →
  model_predictions dataset_to_numpy test_set model n_targets n_descriptors
    add_descriptors modeltype = Raise (ValueError "Improper modeltype.")
  ∧ ∀ (order : DictOrder) task_types desc_transforms,
      @eval_model order _ dataset_to_numpy test_set model task_types
        desc_transforms modeltype add_descriptors
      = Raise (ValueError "Improper modeltype.").
Proof.
  intros H1 H2 H3.
  assert (∀ n_targets n_descriptors,
            model_predictions dataset_to_numpy test_set model n_targets
              n_descriptors add_descriptors modeltype
            = Raise (ValueError "Improper modeltype.")) as Hraise.
  { intros n1 n2. unfold model_predictions.
    destruct (dataset_to_numpy test_set) as [[X ?] ?].
    by rewrite !decide_False by done. }
  split; [apply Hraise|]. intros order task_types desc_transforms.
  unfold eval_model.
  destruct (endpoint_list task_types desc_transforms add_descriptors).
  by rewrite Hraise.
Qed.

Lemma improper_modeltype_witness :
  model_predictions no_features scenario_test_set
    (constant_model scenario_predictions) 1 0 false "xgboost"
  = Raise (ValueError "Improper modeltype.")
  ∧ ∀ (order : DictOrder) task_types desc_transforms,
      @eval_model order _ no_features scenario_test_set
        (constant_model scenario_predictions) task_types desc_transforms
        "xgboost" false
      = Raise (ValueError "Improper modeltype.").
Proof. apply improper_modeltype; discriminate. Defined.

(** C7. [model_predictions] returns a list whenever it returns. With the
    modeltypes "sklearn" and "keras" it always returns: the value of the
    model call itself when that is a list, and otherwise the one-element list
    that holds it. *)
Theorem model_predictions_list {ndarray}
    (dataset_to_numpy : gmap string datapoint → ndarray * ndarray * ndarray)
    test_set (model : model ndarray) n_targets n_descriptors add_descriptors
    modeltype :
  (∀ ypreds,
     model_predictions dataset_to_numpy test_set model n_targets n_descriptors
       add_descriptors modeltype = Ok ypreds →
     ∃ l, ypreds = PyList l)
  ∧ ∀ raw,
      (modeltype = "sklearn"
       ∧ raw = predict_proba model (dataset_to_numpy test_set).1.1)
      ∨ (modeltype = "keras"
         ∧ raw = predict model (Matrix (dataset_to_numpy test_set).1.1)) →
      ((∀ l, raw ≠ PyList l) →
       model_predictions dataset_to_numpy test_set model n_targets
         n_descriptors add_descriptors modeltype = Ok (PyList [raw]))
      ∧ (∀ l, raw = PyList l →
         model_predictions dataset_to_numpy test_set model n_targets
           n_descriptors add_descriptors modeltype = Ok raw).
Proof.
  unfold model_predictions.
  destruct (dataset_to_numpy test_set) as [[X ?] ?]. cbn [fst].
  split.
  - intros ypreds Hok. apply bind_Ok in Hok as (raw & _ & Hok).
    destruct raw; injection Hok as <-; eauto.
  - intros raw [[-> ->]|[-> ->]].
    + rewrite decide_True by done. cbn [mbind result_bind].
      split; [|by intros l ->].
      intros Hraw. destruct (predict_proba model X) as [| l | |]; try done.
      by destruct (Hraw l).
    + rewrite decide_False, decide_True by done. cbn [mbind result_bind].
      split; [|by intros l ->].
      intros Hraw. destruct (predict model (Matrix X)) as [| l | |]; try done.
      by destruct (Hraw l).
Qed.

Lemma model_predictions_list_witness :
  model_predictions no_features scenario_test_set
    (constant_model scenario_predictions) 1 0 false "sklearn"
  = Ok (PyList [scenario_predictions]).
Proof.
  destruct (model_predictions_list no_features scenario_test_set
              (constant_model scenario_predictions) 1 0 false "sklearn")
    as [_ Hwrap].
  destruct (Hwrap scenario_predictions) as [Hsingle _].
  - left. split; reflexivity.
  - apply Hsingle. intros l. discriminate.
Defined.

(** ** The score functions *)

Lemma auc_score_Some (labels_to_weights : pyobj → result pyobj)
    (roc_auc_score : pyobj → pyobj → pyobj → result pynum)
    (results : results_map) (task_types : gmap string string) target score :
  auc_score labels_to_weights roc_auc_score results task_types target
  = Ok (Some score) ↔
  task_types !! target = Some "classification" ∧
  ∃ ytrue yscore weights positive,
    results !! target = Some (ytrue, yscore) ∧
    labels_to_weights ytrue = Ok weights ∧
    column 1 yscore = Ok positive ∧
    roc_auc_score ytrue positive weights = Ok score.
Proof.
  unfold auc_score. split.
  - intros (tt & Htt%dict_getitem_Ok & Hok)%bind_Ok.
    destruct (decide (tt ≠ "classification")) as [|Heq%dec_stable]; [done|].
    subst tt. split; [done|].
    apply bind_Ok in Hok as ([yt ys] & Hres%dict_getitem_Ok & Hok).
    apply bind_Ok in Hok as (w & Hw & Hok).
    apply bind_Ok in Hok as (pos & Hpos & Hok).
    apply bind_Ok in Hok as (s & Hs & [= <-]).
    by exists yt, ys, w, pos.
  - intros (Htt & yt & ys & w & pos & Hres & Hw & Hpos & Hs).
    unfold dict_getitem. rewrite Htt, Hres. cbn [mbind result_bind].
    rewrite decide_False by (by intros []). cbn [mbind result_bind].
    rewrite Hw. cbn [mbind result_bind]. rewrite Hpos. cbn [mbind result_bind].
    by rewrite Hs.
Qed.

Lemma auc_score_None (labels_to_weights : pyobj → result pyobj)
    (roc_auc_score : pyobj → pyobj → pyobj → result pynum)
    (results : results_map) (task_types : gmap string string) target :
  auc_score labels_to_weights roc_auc_score results task_types target = Ok None ↔
  ∃ task_type, task_types !! target = Some task_type ∧ task_type ≠ "classification".
Proof.
  unfold auc_score. split.
  - intros (tt & Htt%dict_getitem_Ok & Hok)%bind_Ok.
    destruct (decide (tt ≠ "classification")); [eauto|].
    apply bind_Ok in Hok as ([yt ys] & _ & Hok).
    apply bind_Ok in Hok as (w & _ & Hok).
    apply bind_Ok in Hok as (pos & _ & Hok).
    by apply bind_Ok in Hok as (s & _ & ?).
  - intros (tt & Htt & Hne). unfold dict_getitem. rewrite Htt.
    cbn [mbind result_bind]. by rewrite decide_True.
Qed.

Lemma auc_score_Raise (labels_to_weights : pyobj → result pyobj)
    (roc_auc_score : pyobj → pyobj → pyobj → result pynum)
    (results : results_map) (task_types : gmap string string) target e :
  is_Some (results !! target) →
  auc_score labels_to_weights roc_auc_score results task_types target = Raise e →
  missing_type results task_types e
  ∨ auc_call_raised labels_to_weights roc_auc_score results e.
Proof.
  intros Hres. unfold auc_score, dict_getitem.
  destruct (task_types !! target) as [tt|] eqn:Htt; cbn [mbind result_bind].
  - destruct (decide (tt ≠ "classification")); [done|].
    destruct Hres as [[yt ys] Hres]. rewrite Hres. cbn [mbind result_bind].
    intros Hraise. right. exists target, yt, ys. split; [done|].
    destruct (labels_to_weights yt) as [w|] eqn:Hw; cbn [mbind result_bind] in Hraise;
      [|left; congruence].
    destruct (column 1 ys) as [pos|] eqn:Hpos; cbn [mbind result_bind] in Hraise;
      [|right; left; congruence].
    destruct (roc_auc_score yt pos w) eqn:Hs; cbn [mbind result_bind] in Hraise;
      [done|].
    right. right. exists pos, w. congruence.
  - intros [= <-]. left. by exists target.
Qed.

Lemma regression_score_Raise (metric : pyobj → pyobj → result pynum)
    (results : results_map) (task_types : gmap string string) target e :
  is_Some (results !! target) →
  regression_score metric results task_types target = Raise e →
  missing_type results task_types e ∨ metric_raised metric results e.
Proof.
  intros Hres. unfold regression_score, dict_getitem.
  destruct (task_types !! target) as [tt|] eqn:Htt; cbn [mbind result_bind].
  - destruct (decide (tt ≠ "regression")); [done|].
    destruct Hres as [[yt ys] Hres]. rewrite Hres. cbn [mbind result_bind].
    intros Hraise. right. exists target, yt, ys. split; [done|].
    destruct (metric yt ys); cbn [mbind result_bind] in Hraise; congruence.
  - intros [= <-]. left. by exists target.
Qed.

Lemma seq_getitem_1 {A} (l : list A) (x : A) :
  seq_getitem l 1 = Ok x → l !! 1%nat = Some x.
Proof.
  unfold seq_getitem. cbn [Z.ltb Z.compare].
  destruct (_ && _); [|done]. change (Z.to_nat 1) with 1%nat.
  by destruct (l !! 1%nat); intros [= ->].
Qed.

(** [a[:, 1]] is the array of the second entries of the rows of [a]. *)
Lemma column_1_Ok (a positive : pyobj) :
  column 1 a = Ok positive →
  ∃ rows ps,
    a = PyArray rows ∧ positive = PyArray ps ∧ length ps = length rows ∧
    ∀ i row, rows !! i = Some row →
      ∃ l p, (row = PyList l ∨ row = PyArray l) ∧
             l !! 1%nat = Some p ∧ ps !! i = Some p.
Proof.
  destruct a as [| |rows|]; try done. destruct rows as [|row0 rows]; [done|].
  unfold column. destruct (collect _ _) as [ps|] eqn:Hc; [|done].
  intros [= <-]. exists (row0 :: rows), ps. split_and!; [done..| |].
  - by apply collect_length in Hc.
  - intros i row Hrow.
    destruct (collect_lookup _ _ _ _ _ Hc Hrow) as (p & Hp & Hentry).
    destruct row as [|l|l|]; try done; apply seq_getitem_1 in Hentry; eauto 6.
Qed.

(** C9. [compute_roc_auc_scores] returns scores exactly when every endpoint
    of the results has a type and, for every endpoint of type
    "classification", the weights, the column and the score can be computed;
    the scores then hold, for exactly these endpoints, the value of
    [roc_auc_score] on the true labels, on the second entry of every
    prediction vector, and with the weights [labels_to_weights] gives for the
    true labels. Endpoints of any other type get no score. *)
Theorem compute_roc_auc_scores_spec `{DictOrder}
    (labels_to_weights : pyobj → result pyobj)
    (roc_auc_score : pyobj → pyobj → pyobj → result pynum)
    (results : results_map) (task_types : gmap string string)
    (scores : gmap string pynum) :
  (compute_roc_auc_scores labels_to_weights roc_auc_score results task_types
   = Ok scores ↔
   (∀ target ytrue yscore,
      results !! target = Some (ytrue, yscore) →
      ∃ task_type,
        task_types !! target = Some task_type ∧
        if decide (task_type = "classification") then
          ∃ weights positive score,
            labels_to_weights ytrue = Ok weights ∧
            column 1 yscore = Ok positive ∧
            roc_auc_score ytrue positive weights = Ok score ∧
            scores !! target = Some score
        else scores !! target = None)
   ∧ (∀ target, results !! target = None → scores !! target = None))
  ∧ (∀ yscore positive,
       column 1 yscore = Ok positive →
       ∃ rows ps,
         yscore = PyArray rows ∧ positive = PyArray ps ∧
         length ps = length rows ∧
         ∀ i row, rows !! i = Some row →
           ∃ l p, (row = PyList l ∨ row = PyArray l) ∧
                  l !! 1%nat = Some p ∧ ps !! i = Some p).
Proof.
  split; [|apply column_1_Ok].
  pose proof (compute_roc_auc_scores_body labels_to_weights roc_auc_score
                results task_types) as Hbody.
  unfold compute_roc_auc_scores. split.
  - intros Hok.
    eapply (score_loop_Ok _ _ (λ _, Hbody)) in Hok as [Hall Hlook].
    split.
    + intros target yt ys Hres.
      assert (target ∈ keys results) as Hin by (apply elem_of_keys; eauto).
      destruct (Hall _ Hin) as [[s|] Ho].
      * specialize (Hlook target). rewrite Ho, decide_True in Hlook by done.
        apply auc_score_Some in Ho
          as (Htt & yt' & ys' & w & pos & Hres' & Hw & Hpos & Hs).
        simplify_eq. exists "classification". split; [done|].
        rewrite decide_True by done. by exists w, pos, s.
      * specialize (Hlook target). rewrite Ho, lookup_empty in Hlook.
        apply auc_score_None in Ho as (tt & Htt & Hne).
        exists tt. split; [done|]. by rewrite decide_False.
    + intros target Hnone. rewrite Hlook.
      destruct (auc_score _ _ _ _ _) as [[s|]|]; try apply lookup_empty.
      rewrite decide_False; [apply lookup_empty|].
      rewrite elem_of_keys, Hnone. by intros [].
  - intros [Hsome Hnone].
    assert (∀ target, target ∈ keys results →
              ∃ o, auc_score labels_to_weights roc_auc_score results task_types
                     target = Ok o) as Hall.
    { intros target [[yt ys] Hres]%elem_of_keys.
      destruct (Hsome _ _ _ Hres) as (tt & Htt & Hcase).
      destruct (decide (tt = "classification")) as [->|Hne].
      - destruct Hcase as (w & pos & s & Hw & Hpos & Hs & _).
        exists (Some s). apply auc_score_Some. split; [done|].
        by exists yt, ys, w, pos.
      - exists None. apply auc_score_None. eauto. }
    destruct (score_loop_total _ _ (λ _, Hbody) 0%nat (keys results) ∅ Hall)
      as [scores' Hok].
    rewrite Hok. f_equal. apply map_eq. intros target.
    eapply (score_loop_Ok _ _ (λ _, Hbody)) in Hok as [_ Hlook].
    rewrite Hlook. clear Hlook.
    destruct (results !! target) as [[yt ys]|] eqn:Hres.
    + destruct (Hsome _ _ _ Hres) as (tt & Htt & Hcase).
      destruct (decide (tt = "classification")) as [->|Hne].
      * destruct Hcase as (w & pos & s & Hw & Hpos & Hs & ->).
        assert (auc_score labels_to_weights roc_auc_score results task_types
                  target = Ok (Some s)) as ->.
        { apply auc_score_Some. split; [done|]. by exists yt, ys, w, pos. }
        rewrite decide_True; [done|]. apply elem_of_keys. eauto.
      * assert (auc_score labels_to_weights roc_auc_score results task_types
                  target = Ok None) as ->
          by (apply auc_score_None; eauto).
        by rewrite Hcase, lookup_empty.
    + rewrite (Hnone _ Hres).
      destruct (auc_score _ _ _ _ _) as [[s|]|]; try apply lookup_empty.
      rewrite decide_False; [apply lookup_empty|].
      rewrite elem_of_keys, Hres. by intros [].
Qed.

Section first_failure.
Context (score_of : string → result (option pynum)).
Context (body : nat → string → gmap string pynum → result (gmap string pynum)).
Hypothesis body_eq : ∀ i target scores,
  body i target scores = o ← score_of target; Ok (store_score target o scores).

(** The loop raises the error of the first endpoint that has no score. *)
Lemma score_loop_first_failure i l1 k l2 scores0 e :
  (∀ k', k' ∈ l1 → is_ok (score_of k') = true) →
  score_of k = Raise e →
  for_each body i (l1 ++ k :: l2) scores0 = Raise e.
Proof.
  intros Hbefore Hk. revert i scores0.
  induction l1 as [|x l1 IH]; intros i scores0; cbn [app for_each];
    rewrite body_eq.
  - by rewrite Hk.
  - pose proof (Hbefore x ltac:(rewrite elem_of_cons; by left)) as Hx.
    destruct (score_of x) as [o|]; [|done]. cbn [mbind result_bind].
    apply IH. intros k' Hk'. apply Hbefore. rewrite elem_of_cons. by right.
Qed.
End first_failure.

Section needs_types.
Context `{DictOrder}.
Context (labels_to_weights : pyobj → result pyobj)
        (roc_auc_score : pyobj → pyobj → pyobj → result pynum)
        (r2_score : pyobj → pyobj → result pynum)
        (mean_squared_error : pyobj → pyobj → result pynum)
        (np_sqrt : pynum → pynum).
Implicit Types (results : results_map) (task_types : gmap string string).

Lemma compute_roc_auc_scores_covered results task_types scores target :
  compute_roc_auc_scores labels_to_weights roc_auc_score results task_types
  = Ok scores →
  is_Some (results !! target) → is_Some (task_types !! target).
Proof.
  unfold compute_roc_auc_scores. intros Hok Hres.
  eapply (score_loop_Ok _ _ (λ _, compute_roc_auc_scores_body _ _ _ _))
    in Hok as [Hall _].
  destruct (Hall target) as [o Ho]; [by apply elem_of_keys|].
  by apply auc_score_Ok_type in Ho.
Qed.

Lemma compute_r2_scores_covered results task_types scores target :
  compute_r2_scores r2_score results task_types = Ok scores →
  is_Some (results !! target) → is_Some (task_types !! target).
Proof.
  unfold compute_r2_scores. intros Hok Hres.
  eapply (score_loop_Ok _ _ (λ _, regression_scores_body _ _ _)) in Hok as [Hall _].
  destruct (Hall target) as [o Ho]; [by apply elem_of_keys|].
  by apply regression_score_Ok_type in Ho.
Qed.

Lemma compute_rms_scores_covered results task_types scores target :
  compute_rms_scores mean_squared_error np_sqrt results task_types = Ok scores →
  is_Some (results !! target) → is_Some (task_types !! target).
Proof.
  unfold compute_rms_scores. intros Hok Hres.
  eapply (score_loop_Ok _ _ (λ _, compute_rms_scores_body _ _ _ _)) in Hok as [Hall _].
  destruct (Hall target) as [o Ho]; [by apply elem_of_keys|].
  by apply regression_score_Ok_type in Ho.
Qed.

Lemma compute_roc_auc_scores_Raise results task_types e :
  compute_roc_auc_scores labels_to_weights roc_auc_score results task_types
  = Raise e →
  missing_type results task_types e
  ∨ auc_call_raised labels_to_weights roc_auc_score results e.
Proof.
  unfold compute_roc_auc_scores. intros Hraise.
  eapply (score_loop_Raise _ _ (λ _, compute_roc_auc_scores_body _ _ _ _))
    in Hraise as (target & Hin%elem_of_keys & Hraise).
  by eapply auc_score_Raise.
Qed.

Lemma compute_r2_scores_Raise results task_types e :
  compute_r2_scores r2_score results task_types = Raise e →
  missing_type results task_types e ∨ metric_raised r2_score results e.
Proof.
  unfold compute_r2_scores. intros Hraise.
  eapply (score_loop_Raise _ _ (λ _, regression_scores_body _ _ _))
    in Hraise as (target & Hin%elem_of_keys & Hraise).
  by eapply regression_score_Raise.
Qed.

Lemma compute_rms_scores_Raise results task_types e :
  compute_rms_scores mean_squared_error np_sqrt results task_types = Raise e →
  missing_type results task_types e
  ∨ metric_raised mean_squared_error results e.
Proof.
  unfold compute_rms_scores. intros Hraise.
  eapply (score_loop_Raise _ _ (λ _, compute_rms_scores_body _ _ _ _))
    in Hraise as (target & Hin%elem_of_keys & Hraise).
  apply regression_score_Raise in Hraise; [|done].
  destruct Hraise as [?|(k & yt & ys & Hres & Hm)]; [by left|].
  right. exists k, yt, ys. split; [done|].
  by destruct (mean_squared_error yt ys); simplify_eq/=.
Qed.

(** C10. Each of the three score functions looks up the type of every key
    of the results in the [task_types] it is given: it returns only if
    [task_types] holds every such key. In particular, on the results of
    [eval_model] with the descriptors included and the task types
    [eval_model] was given, a descriptor key that is not a task name is a
    key of the results whose lookup raises KeyError, and none of the three
    returns: each raises, either the KeyError of such a lookup or an error
    that a metric call raised on an endpoint. The error is the KeyError of
    the lookup of the first key, in the order in which the results yield
    their keys, that [task_types] does not hold, unless the score function
    raised on a key that comes before it. *)
Theorem score_functions_need_task_types :
  (∀ results task_types scores target,
     (compute_roc_auc_scores labels_to_weights roc_auc_score results task_types
      = Ok scores
      ∨ compute_r2_scores r2_score results task_types = Ok scores
      ∨ compute_rms_scores mean_squared_error np_sqrt results task_types
        = Ok scores) →
     is_Some (results !! target) → is_Some (task_types !! target))
  ∧ (∀ {ndarray}
       (dataset_to_numpy : gmap string datapoint → ndarray * ndarray * ndarray)
       test_set model task_types desc_transforms modeltype R d,
       eval_model dataset_to_numpy test_set model task_types desc_transforms
         modeltype true = Ok R →
       is_Some (desc_transforms !! d) →
       task_types !! d = None →
       is_Some (R !! d)
       ∧ dict_getitem task_types d = Raise (KeyError (KStr d))
       ∧ (∃ e, compute_roc_auc_scores labels_to_weights roc_auc_score R task_types
               = Raise e
               ∧ (missing_type R task_types e
                  ∨ auc_call_raised labels_to_weights roc_auc_score R e))
       ∧ (∃ e, compute_r2_scores r2_score R task_types = Raise e
               ∧ (missing_type R task_types e ∨ metric_raised r2_score R e))
       ∧ (∃ e, compute_rms_scores mean_squared_error np_sqrt R task_types
               = Raise e
               ∧ (missing_type R task_types e
                  ∨ metric_raised mean_squared_error R e)))
  ∧ ∀ results task_types before k after,
      keys results = before ++ k :: after →
      task_types !! k = None →
      ((∀ k', k' ∈ before →
          is_ok (auc_score labels_to_weights roc_auc_score results task_types k')
          = true) →
       compute_roc_auc_scores labels_to_weights roc_auc_score results task_types
       = Raise (KeyError (KStr k)))
      ∧ ((∀ k', k' ∈ before →
            is_ok (regression_score r2_score results task_types k') = true) →
         compute_r2_scores r2_score results task_types
         = Raise (KeyError (KStr k)))
      ∧ ((∀ k', k' ∈ before →
            is_ok (regression_score
                     (λ yt ys, np_sqrt <$> mean_squared_error yt ys)
                     results task_types k') = true) →
         compute_rms_scores mean_squared_error np_sqrt results task_types
         = Raise (KeyError (KStr k))).
Proof.
  split_and!.
  - intros results task_types scores target [Hok|[Hok|Hok]].
    + by eapply compute_roc_auc_scores_covered.
    + by eapply compute_r2_scores_covered.
    + by eapply compute_rms_scores_covered.
  - intros ndarray dataset_to_numpy test_set model task_types desc_transforms
      modeltype R d HR Hd Hnone.
    assert (is_Some (R !! d)) as HRd.
    { apply eval_model_Ok in HR as (ypreds & _ & Hall). specialize (Hall d).
      rewrite decide_True in Hall.
      - destruct Hall as (yt & ys & -> & _). eauto.
      - rewrite endpoint_list_fst, elem_of_app. right.
        by apply elem_of_sorted_keys. }
    split_and!; [done|by apply dict_getitem_Raise|..].
    + destruct (compute_roc_auc_scores _ _ R task_types) as [scores|e] eqn:Hrun.
      * eapply compute_roc_auc_scores_covered in Hrun; [|exact HRd].
        rewrite Hnone in Hrun. by destruct Hrun.
      * exists e. split; [done|]. by apply compute_roc_auc_scores_Raise.
    + destruct (compute_r2_scores _ R task_types) as [scores|e] eqn:Hrun.
      * eapply compute_r2_scores_covered in Hrun; [|exact HRd].
        rewrite Hnone in Hrun. by destruct Hrun.
      * exists e. split; [done|]. by apply compute_r2_scores_Raise.
    + destruct (compute_rms_scores _ _ R task_types) as [scores|e] eqn:Hrun.
      * eapply compute_rms_scores_covered in Hrun; [|exact HRd].
        rewrite Hnone in Hrun. by destruct Hrun.
      * exists e. split; [done|]. by apply compute_rms_scores_Raise.
  - intros results task_types before k after Hkeys Hnone.
    unfold compute_roc_auc_scores, compute_r2_scores, compute_rms_scores.
    rewrite Hkeys. split_and!; intros Hbefore.
    + apply (score_loop_first_failure _ _
               (λ _, compute_roc_auc_scores_body _ _ _ _)); [done|].
      unfold auc_score, dict_getitem. by rewrite Hnone.
    + apply (score_loop_first_failure _ _ (λ _, regression_scores_body _ _ _));
        [done|].
      unfold regression_score, dict_getitem. by rewrite Hnone.
    + apply (score_loop_first_failure _ _
               (λ _, compute_rms_scores_body _ _ _ _)); [done|].
      unfold regression_score, dict_getitem. by rewrite Hnone.
Qed.
End needs_types.

(** ** The score functions on concrete results *)

Example descriptor_eval_model :
  eval_model (H := listing_order) no_features descriptor_test_set
    (constant_model descriptor_predictions) descriptor_task_types
    descriptor_transforms "keras_multitask" true = Ok descriptor_results.
Proof. by vm_compute. Qed.

Example scenario_auc :
  compute_roc_auc_scores (H := listing_order) class_weights pairwise_auc
    scenario_results scenario_task_types = Ok {[ "t1" := PFloat 1 ]}.
Proof. by vm_compute. Qed.

Example descriptor_r2 :
  compute_r2_scores (H := listing_order) determination descriptor_results
    {[ "t1" := "regression"; "0" := "regression" ]}
  = Ok {[ "t1" := PFloat 1; "0" := PFloat 1 ]}.
Proof. by vm_compute. Qed.

Example descriptor_rms :
  compute_rms_scores (H := listing_order) mean_squared float_sqrt
    descriptor_results {[ "t1" := "regression"; "0" := "regression" ]}
  = Ok {[ "t1" := PFloat 0; "0" := PFloat 0 ]}.
Proof. by vm_compute. Qed.

Example descriptor_r2_original_types :
  compute_r2_scores (H := listing_order) determination descriptor_results
    descriptor_task_types = Raise (KeyError (KStr "0"))
  ∧ compute_r2_scores (H := reverse_order) determination descriptor_results
      descriptor_task_types = Raise (KeyError (KStr "0")).
Proof. split; by vm_compute. Qed.

Lemma compute_roc_auc_scores_spec_witness :
  (∀ target ytrue yscore,
     scenario_results !! target = Some (ytrue, yscore) →
     ∃ task_type,
       scenario_task_types !! target = Some task_type ∧
       if decide (task_type = "classification") then
         ∃ weights positive score,
           class_weights ytrue = Ok weights ∧
           column 1 yscore = Ok positive ∧
           pairwise_auc ytrue positive weights = Ok score ∧
           ({[ "t1" := PFloat 1 ]} : gmap string pynum) !! target = Some score
       else ({[ "t1" := PFloat 1 ]} : gmap string pynum) !! target = None)
  ∧ (∀ target, scenario_results !! target = None →
       ({[ "t1" := PFloat 1 ]} : gmap string pynum) !! target = None).
Proof.
  apply (proj1 (proj1 (compute_roc_auc_scores_spec (H := listing_order)
                         class_weights pairwise_auc scenario_results
                         scenario_task_types {[ "t1" := PFloat 1 ]}))).
  by vm_compute.
Defined.

Lemma score_functions_need_task_types_witness :
  (is_Some (descriptor_results !! "0")
   ∧ dict_getitem descriptor_task_types "0" = Raise (KeyError (KStr "0"))
   ∧ (∃ e, compute_roc_auc_scores (H := listing_order) class_weights pairwise_auc
             descriptor_results descriptor_task_types = Raise e
           ∧ (missing_type descriptor_results descriptor_task_types e
              ∨ auc_call_raised class_weights pairwise_auc descriptor_results e))
   ∧ (∃ e, compute_r2_scores (H := listing_order) determination
             descriptor_results descriptor_task_types = Raise e
           ∧ (missing_type descriptor_results descriptor_task_types e
              ∨ metric_raised determination descriptor_results e))
   ∧ (∃ e, compute_rms_scores (H := listing_order) mean_squared float_sqrt
             descriptor_results descriptor_task_types = Raise e
           ∧ (missing_type descriptor_results descriptor_task_types e
              ∨ metric_raised mean_squared descriptor_results e)))
  ∧ compute_r2_scores (H := listing_order) determination descriptor_results
      descriptor_task_types = Raise (KeyError (KStr "0")).
Proof.
  pose proof (score_functions_need_task_types (H := listing_order)
                class_weights pairwise_auc determination mean_squared
                float_sqrt) as (_ & Hnone & Hfirst).
  split.
  - apply (Hnone unit no_features descriptor_test_set
             (constant_model descriptor_predictions) descriptor_task_types
             descriptor_transforms "keras_multitask").
    + by vm_compute.
    + by exists Log.
    + by vm_compute.
  - apply (Hfirst descriptor_results descriptor_task_types ["t1"] "0" []).
    + by vm_compute.
    + by vm_compute.
    + intros k' ->%list_elem_of_singleton. by vm_compute.
Defined.

(** C10 as first stated fails: the call need not fail on the lookup. On the
    results of [eval_model] with the descriptor "0" included and a task whose
    predictions have one axis, [compute_roc_auc_scores] with the task types
    [eval_model] was given reaches the task first under [listing_order]: the
    lookup of its type returns, and [yscore[:, 1]] raises IndexError before
    the type of "0" is looked up. Under [reverse_order] the descriptor comes
    first and the error is the KeyError of its lookup. *)
Lemma score_functions_lookup_preempted :
  eval_model (H := listing_order) no_features flat_test_set
    (constant_model flat_predictions) scenario_task_types
    descriptor_transforms "keras_multitask" true = Ok flat_results
  ∧ is_Some (descriptor_transforms !! "0")
  ∧ scenario_task_types !! "0" = None
  ∧ @keys listing_order _ flat_results = ["t1"; "0"]
  ∧ dict_getitem scenario_task_types "t1" = Ok "classification"
  ∧ compute_roc_auc_scores (H := listing_order) class_weights pairwise_auc
      flat_results scenario_task_types = Raise IndexError
  ∧ compute_roc_auc_scores (H := reverse_order) class_weights pairwise_auc
      flat_results scenario_task_types = Raise (KeyError (KStr "0")).
Proof. split_and!; try by vm_compute. by exists Log. Qed.

(** ** The ground truth *)

Lemma collect_Forall2 {A B} (f : A → result B) (l : list A) (ys : list B) :
  collect f l = Ok ys ↔ Forall2 (λ x y, f x = Ok y) l ys.
Proof.
  revert ys. induction l as [|x l IH]; intros ys; simpl.
  - split; [intros [= <-]; constructor|]. by intros ->%Forall2_nil_inv_l.
  - split.
    + intros (y & Hy & Hok)%bind_Ok. apply bind_Ok in Hok as (ys' & Hys & [= <-]).
      constructor; [done|]. by apply IH.
    + intros (y & ys' & Hy & Hys & ->)%Forall2_cons_inv_l.
      rewrite Hy. cbn [mbind result_bind]. apply IH in Hys. by rewrite Hys.
Qed.

(** What one step of the inner loop appends to the ground truth. *)
Lemma align_endpoint_truth sorted_targets (local_task_types : gmap string string)
    ypreds index dp t_ind target (results results' : results_lists) :
  align_endpoint sorted_targets local_task_types ypreds index dp t_ind target
    results = Ok results' →
  is_skipped sorted_targets dp target = false →
  ∃ yt ys a p,
    results !! target = Some (yt, ys) ∧
    ground_truth sorted_targets local_task_types target dp = Ok a ∧
    results' = <[target := (yt ++ [a], ys ++ [p])]> results.
Proof.
  unfold align_endpoint, ground_truth. intros Hok Hskip.
  apply bind_Ok in Hok as (task_type & Htt & Hok). rewrite Htt.
  cbn [mbind result_bind].
  apply bind_Ok in Hok as (missing & Hmiss & Hok).
  assert (missing = false) as ->.
  { unfold is_skipped in Hskip.
    destruct (bool_decide (target ∈ sorted_targets)); simpl in *.
    - apply bind_Ok in Hmiss as (l & Hl & [= <-]).
      apply dict_getitem_Ok in Hl. by rewrite Hl in Hskip.
    - by injection Hmiss. }
  apply bind_Ok in Hok as ([yt ys] & Hres & Hok).
  apply bind_Ok in Hok as (yt' & Hyt & Hok).
  apply bind_Ok in Hok as (preds & Hpreds & Hok).
  apply bind_Ok in Hok as (p & Hp & [= <-]).
  apply dict_getitem_Ok in Hres. unfold ytrue_entry.
  assert (∃ a, ytrue_entry sorted_targets task_type dp target = Ok a
               ∧ yt' = yt ++ [a]) as (a & Ha & ->).
  { unfold ytrue_entry. destruct (decide (task_type = "classification")).
    - apply bind_Ok in Hyt as (l & -> & Hyt). cbn [mbind result_bind].
      destruct (py_eq l (PInt 0)); [injection Hyt as <-; eauto|].
      destruct (py_eq l (PInt 1)); [injection Hyt as <-; eauto|done].
    - destruct (_ && _).
      + apply bind_Ok in Hyt as (l & -> & [= <-]). eauto.
      + destruct (_ && _); [|done].
        apply bind_Ok in Hyt as (ds & -> & Hyt). cbn [mbind result_bind].
        apply bind_Ok in Hyt as (i & -> & Hyt). cbn [mbind result_bind].
        apply bind_Ok in Hyt as (d & -> & [= <-]). eauto. }
  by exists yt, ys, a, p.
Qed.

Lemma align_endpoints_truth sorted_targets (local_task_types : gmap string string)
    ypreds index dp t_ind eps (results results' : results_lists) target :
  for_each (align_endpoint sorted_targets local_task_types ypreds index dp)
    t_ind eps results = Ok results' →
  match results !! target with
  | Some (yt, ys) => ∃ yt2 ys2,
      results' !! target = Some (yt ++ yt2, ys ++ ys2) ∧
      collect (ground_truth sorted_targets local_task_types target)
        (if is_skipped sorted_targets dp target then []
         else (λ _, dp) <$> positions target t_ind eps) = Ok yt2
  | None => results' !! target = None
  end.
Proof.
  revert t_ind results. induction eps as [|e eps IH]; intros t_ind results Hok.
  - injection Hok as <-. destruct (results !! target) as [[yt ys]|]; [|done].
    exists [], []. rewrite !app_nil_r. by destruct (is_skipped _ _ _).
  - cbn [for_each] in Hok. apply bind_Ok in Hok as (results1 & Hstep & Hok).
    specialize (IH _ _ Hok).
    destruct (is_skipped sorted_targets dp e) eqn:Hskip_e.
    { apply align_endpoint_Ok in Hstep. rewrite Hskip_e in Hstep. subst results1.
      destruct (results !! target) as [[yt ys]|]; [|done].
      destruct IH as (yt2 & ys2 & ? & Hc). exists yt2, ys2. split; [done|].
      destruct (is_skipped sorted_targets dp target) eqn:Hskip; [done|].
      cbn [positions]. destruct (decide (e = target)) as [->|]; [congruence|done]. }
    apply align_endpoint_truth in Hstep as (yt0 & ys0 & a & p & Hres & Ha & ->);
      [|done].
    destruct (decide (e = target)) as [->|Hne].
    + rewrite lookup_insert_eq in IH. rewrite Hres.
      destruct IH as (yt2 & ys2 & Hres' & Hc).
      exists ([a] ++ yt2), ([p] ++ ys2). rewrite !app_assoc. split; [done|].
      rewrite Hskip_e in Hc |- *. cbn [positions].
      rewrite decide_True by done. csimpl. rewrite Ha. csimpl. by rewrite Hc.
    + rewrite lookup_insert_ne in IH by done.
      destruct (results !! target) as [[yt ys]|]; [|done].
      destruct IH as (yt2 & ys2 & ? & Hc). exists yt2, ys2. split; [done|].
      cbn [positions]. by rewrite decide_False.
Qed.

Lemma align_samples_truth test_set sorted_targets endpoints
    (local_task_types : gmap string string) ypreds index smiles
    (results results' : results_lists) target :
  for_each (align_sample test_set sorted_targets endpoints local_task_types ypreds)
    index smiles results = Ok results' →
  match results !! target with
  | Some (yt, ys) => ∃ yt2 ys2,
      results' !! target = Some (yt ++ yt2, ys ++ ys2) ∧
      collect (ground_truth sorted_targets local_task_types target)
        (visited_samples test_set sorted_targets endpoints target smiles) = Ok yt2
  | None => results' !! target = None
  end.
Proof.
  revert index results. induction smiles as [|s smiles IH]; intros index results Hok.
  - injection Hok as <-. destruct (results !! target) as [[yt ys]|]; [|done].
    exists [], []. by rewrite !app_nil_r.
  - cbn [for_each] in Hok. apply bind_Ok in Hok as (results1 & Hstep & Hok).
    unfold align_sample in Hstep. apply bind_Ok in Hstep as (dp & Hdp & Hstep).
    apply dict_getitem_Ok in Hdp.
    apply align_endpoints_truth with (target := target) in Hstep.
    specialize (IH _ _ Hok).
    destruct (results !! target) as [[yt ys]|].
    + destruct Hstep as (yt1 & ys1 & Hres1 & Hc1). rewrite Hres1 in IH.
      destruct IH as (yt2 & ys2 & Hres2 & Hc2).
      exists (yt1 ++ yt2), (ys1 ++ ys2). rewrite !app_assoc. split; [done|].
      cbn [visited_samples]. rewrite Hdp, collect_app, Hc2.
      destruct (is_skipped sorted_targets dp target); by rewrite Hc1.
    + by rewrite Hstep in IH.
Qed.

(** The ground truth of an endpoint of the result: the value appended at each
    of its visits, in the order of the loops. *)
Lemma eval_model_truth `{DictOrder} {ndarray}
    (dataset_to_numpy : gmap string datapoint → ndarray * ndarray * ndarray)
    test_set model task_types desc_transforms modeltype add_descriptors
    R target ytrue yscore :
  eval_model dataset_to_numpy test_set model task_types desc_transforms
    modeltype add_descriptors = Ok R →
  R !! target = Some (ytrue, yscore) →
  ∃ yt,
    ytrue = array_of yt ∧
    collect
      (ground_truth (sorted (keys task_types))
         (endpoint_list task_types desc_transforms add_descriptors).2 target)
      (visited_samples test_set (sorted (keys task_types))
         (endpoint_list task_types desc_transforms add_descriptors).1 target
         (sorted (keys test_set))) = Ok yt.
Proof.
  unfold eval_model. intros Hok HR.
  destruct (endpoint_list task_types desc_transforms add_descriptors)
    as [endpoints local_task_types]. cbn [fst snd].
  apply bind_Ok in Hok as (ypreds & Hpreds & Hok).
  apply bind_Ok in Hok as (results & Hloop & Hok).
  apply align_samples_truth with (target := target) in Hloop.
  apply freeze_Ok with (target := target) in Hok.
  unfold empty_results in Hloop. rewrite lookup_foldl_insert in Hloop.
  destruct (decide (target ∈ endpoints)).
  - destruct Hloop as (yt & ys & Hres & Hc).
    destruct Hok as (yt' & ys' & Hres' & HR'). simplify_eq/=.
    by exists yt.
  - rewrite Hok, lookup_empty in HR. done.
Qed.

Lemma visited_samples_once test_set sorted_targets endpoints target smiles :
  length (filter (λ e, e = target) endpoints) = 1%nat →
  visited_samples test_set sorted_targets endpoints target smiles
  = kept_samples test_set sorted_targets target smiles.
Proof.
  intros Hone. rewrite <- (length_positions target 0) in Hone.
  induction smiles as [|s smiles IH]; [done|].
  cbn [visited_samples kept_samples]. rewrite IH. f_equal.
  destruct (test_set !! s) as [dp|]; [|done].
  destruct (is_skipped sorted_targets dp target); [done|].
  destruct (positions target 0 endpoints) as [|t [|t' ts]]; done.
Qed.

(** The working type of a task that is not also an included descriptor is
    its type; the working type of an included descriptor is "regression". *)
Lemma endpoint_list_snd_task `{DictOrder} (task_types : gmap string string)
    (desc_transforms : gmap string transform) add_descriptors target :
  ¬ (add_descriptors = true ∧ is_Some (desc_transforms !! target)) →
  (endpoint_list task_types desc_transforms add_descriptors).2 !! target
  = task_types !! target.
Proof.
  intros Hno. rewrite endpoint_list_snd. destruct add_descriptors; [|done].
  rewrite bool_decide_eq_false_2; [done|]. intros ?. by apply Hno.
Qed.

Lemma count_endpoint_once `{DictOrder} (task_types : gmap string string)
    (desc_transforms : gmap string transform) add_descriptors target :
  target ∈ (endpoint_list task_types desc_transforms add_descriptors).1 →
  ¬ (add_descriptors = true ∧ is_Some (task_types !! target)
     ∧ is_Some (desc_transforms !! target)) →
  length (filter (λ e, e = target)
            (endpoint_list task_types desc_transforms add_descriptors).1) = 1%nat.
Proof.
  intros Hin Hno. rewrite count_endpoint.
  rewrite endpoint_list_fst, elem_of_app, elem_of_sorted_keys in Hin.
  destruct (decide (is_Some (task_types !! target))) as [Ht|Ht].
  - destruct add_descriptors; [|done].
    rewrite decide_False; [done|]. intros Hd. by apply Hno.
  - destruct Hin as [?|Hin]; [done|]. destruct add_descriptors.
    + rewrite elem_of_sorted_keys in Hin. by rewrite decide_True.
    + by apply elem_of_nil in Hin.
Qed.

(** The ground truth of an endpoint that occurs once, sample by sample. *)
Lemma eval_model_truth_once `{DictOrder} {ndarray}
    (dataset_to_numpy : gmap string datapoint → ndarray * ndarray * ndarray)
    test_set model task_types desc_transforms modeltype add_descriptors
    R target ytrue yscore :
  eval_model dataset_to_numpy test_set model task_types desc_transforms
    modeltype add_descriptors = Ok R →
  R !! target = Some (ytrue, yscore) →
  ¬ (add_descriptors = true ∧ is_Some (task_types !! target)
     ∧ is_Some (desc_transforms !! target)) →
  ∃ yt,
    ytrue = array_of yt ∧
    Forall2
      (λ dp a,
         ground_truth (sorted (keys task_types))
           (endpoint_list task_types desc_transforms add_descriptors).2
           target dp = Ok a)
      (kept_samples test_set (sorted (keys task_types)) target
         (sorted (keys test_set))) yt.
Proof.
  intros Hok HR Hno.
  destruct (eval_model_length _ _ _ _ _ _ _ _ _ _ _ Hok HR) as [Hin _].
  destruct (eval_model_truth _ _ _ _ _ _ _ _ _ _ _ Hok HR) as (yt & -> & Hc).
  exists yt. split; [done|].
  rewrite visited_samples_once in Hc by by apply count_endpoint_once.
  by apply collect_Forall2.
Qed.

(** Every endpoint has an entry in the result. *)
Lemma eval_model_keys_of_result `{DictOrder} {ndarray}
    (dataset_to_numpy : gmap string datapoint → ndarray * ndarray * ndarray)
    test_set model task_types desc_transforms modeltype add_descriptors R target :
  eval_model dataset_to_numpy test_set model task_types desc_transforms
    modeltype add_descriptors = Ok R →
  is_Some (task_types !! target)
  ∨ (add_descriptors = true ∧ is_Some (desc_transforms !! target)) →
  ∃ ytrue yscore, R !! target = Some (ytrue, yscore).
Proof.
  intros Hok Hkey. apply eval_model_Ok in Hok as (ypreds & _ & Hall).
  specialize (Hall target). rewrite decide_True in Hall.
  - destruct Hall as (yt & ys & -> & _). eauto.
  - rewrite endpoint_list_fst, elem_of_app, !elem_of_sorted_keys.
    destruct Hkey as [?|[-> ?]]; [by left|right]. by apply elem_of_sorted_keys.
Qed.

(** ** More on the result of [eval_model] *)

(** X1. The two arrays of an endpoint have one entry for every sample that
    is not skipped for it and every occurrence of the endpoint in the list of
    endpoints: one occurrence as a task, one as an included descriptor. *)
Theorem eval_model_lengths_general `{DictOrder} {ndarray}
    (dataset_to_numpy : gmap string datapoint → ndarray * ndarray * ndarray)
    test_set model task_types desc_transforms modeltype add_descriptors
    R target ytrue yscore :
  eval_model dataset_to_numpy test_set model task_types desc_transforms
    modeltype add_descriptors = Ok R →
  R !! target = Some (ytrue, yscore) →
  ∃ n, py_len ytrue = Some n ∧ py_len yscore = Some n ∧
       n = (((if decide (is_Some (task_types !! target)) then 1 else 0)
             + (if add_descriptors
                then if decide (is_Some (desc_transforms !! target)) then 1 else 0
                else 0))
            * (size test_set
               - size (skipped_samples test_set (sorted (keys task_types)) target)))%nat.
Proof.
  intros Hok HR.
  destruct (eval_model_length _ _ _ _ _ _ _ _ _ _ _ Hok HR)
    as (_ & n & Hyt & Hys & ->).
  eexists. split_and!; [done..|]. by rewrite count_endpoint.
Qed.

Lemma eval_model_lengths_general_witness :
  ∃ n, py_len (PyArray [PyNum (PInt 5); PyNum (PInt 5)]) = Some n ∧
       py_len (PyArray [PyNum (PFloat 0.5); PyNum (PFloat 0.25)]) = Some n ∧
       n = (((if decide (is_Some (collision_task_types !! "0")) then 1 else 0)
             + (if true
                then if decide (is_Some (collision_desc_transforms !! "0"))
                     then 1 else 0
                else 0))
            * (size collision_test_set
               - size (skipped_samples collision_test_set
                         (sorted (@keys listing_order _ collision_task_types))
                         "0")))%nat.
Proof.
  apply (eval_model_lengths_general (H := listing_order) no_features
           collision_test_set (constant_model collision_predictions)
           collision_task_types collision_desc_transforms "keras_multitask" true
           {[ "0" := (PyArray [PyNum (PInt 5); PyNum (PInt 5)],
                      PyArray [PyNum (PFloat 0.5); PyNum (PFloat 0.25)]) ]} "0").
  - by vm_compute.
  - by vm_compute.
Defined.

(** X2. The keys of the result are the task names and, when the descriptors
    are included, the descriptor keys, and nothing else; every value is a
    pair of arrays. *)
Theorem eval_model_keys `{DictOrder} {ndarray}
    (dataset_to_numpy : gmap string datapoint → ndarray * ndarray * ndarray)
    test_set model task_types desc_transforms modeltype add_descriptors R :
  eval_model dataset_to_numpy test_set model task_types desc_transforms
    modeltype add_descriptors = Ok R →
  ∀ target,
    (is_Some (R !! target) ↔
     is_Some (task_types !! target)
     ∨ (add_descriptors = true ∧ is_Some (desc_transforms !! target)))
    ∧ ∀ ytrue yscore, R !! target = Some (ytrue, yscore) →
        ∃ yt ys, ytrue = PyArray yt ∧ yscore = PyArray ys.
Proof.
  intros Hok target. split.
  - apply eval_model_Ok in Hok as (ypreds & _ & Hall). specialize (Hall target).
    destruct (decide _) as [Hin|Hin];
      rewrite endpoint_list_fst, elem_of_app, elem_of_sorted_keys in Hin.
    + destruct Hall as (yt & ys & -> & _). split; [intros _|by eauto].
      destruct Hin as [?|Hin]; [by left|]. right.
      destruct add_descriptors; [|by apply elem_of_nil in Hin].
      by rewrite elem_of_sorted_keys in Hin.
    + rewrite Hall. split; [by intros []|]. intros Hkey. destruct Hin.
      destruct Hkey as [?|[-> ?]]; [by left|right].
      by apply elem_of_sorted_keys.
  - intros ytrue yscore HR.
    apply eval_model_lookup in Hok as (ypreds & _ & Hall).
    destruct (Hall _ _ _ HR) as (_ & yt & ys & -> & -> & _). eauto.
Qed.

Lemma eval_model_keys_witness :
  (is_Some (descriptor_results !! "0") ↔
   is_Some (descriptor_task_types !! "0")
   ∨ (true = true ∧ is_Some (descriptor_transforms !! "0")))
  ∧ ∀ ytrue yscore, descriptor_results !! "0" = Some (ytrue, yscore) →
      ∃ yt ys, ytrue = PyArray yt ∧ yscore = PyArray ys.
Proof.
  apply (eval_model_keys (H := listing_order) no_features descriptor_test_set
           (constant_model descriptor_predictions) descriptor_task_types
           descriptor_transforms "keras_multitask" true descriptor_results).
  by vm_compute.
Defined.

(** X3. The ground truth of a classification task (one that is not also an
    included descriptor) holds, for every sample that is not skipped and in
    the sorted order of the samples, the int 0 or the int 1, whichever the
    label of the sample equals: a label 1.0 is stored as 1. *)
Theorem eval_model_classification_truth `{DictOrder} {ndarray}
    (dataset_to_numpy : gmap string datapoint → ndarray * ndarray * ndarray)
    test_set model task_types desc_transforms modeltype add_descriptors
    R target ytrue yscore :
  eval_model dataset_to_numpy test_set model task_types desc_transforms
    modeltype add_descriptors = Ok R →
  R !! target = Some (ytrue, yscore) →
  task_types !! target = Some "classification" →
  ¬ (add_descriptors = true ∧ is_Some (desc_transforms !! target)) →
  ∃ yt,
    ytrue = array_of yt ∧
    Forall2
      (λ dp a,
         (a = PInt 0 ∨ a = PInt 1) ∧
         ∃ l, labels dp !! target = Some l ∧ py_eq l a = true)
      (kept_samples test_set (sorted (keys task_types)) target
         (sorted (keys test_set))) yt.
Proof.
  intros Hok HR Htype Hno.
  destruct (eval_model_truth_once _ _ _ _ _ _ _ _ _ _ _ Hok HR)
    as (yt & -> & Hall); [by intros (? & _ & ?); apply Hno|].
  exists yt. split; [done|].
  eapply Forall2_impl; [exact Hall|]. intros dp a. unfold ground_truth.
  unfold dict_getitem at 1. rewrite endpoint_list_snd_task, Htype by done.
  cbn [mbind result_bind]. unfold ytrue_entry. rewrite decide_True by done.
  intros (l & Hl%dict_getitem_Ok & Ha)%bind_Ok.
  destruct (py_eq l (PInt 0)) eqn:H0; [injection Ha as <-; eauto|].
  destruct (py_eq l (PInt 1)) eqn:H1; [injection Ha as <-; eauto|done].
Qed.

Lemma eval_model_classification_truth_witness :
  ∃ yt,
    PyArray [PyNum (PInt 1); PyNum (PInt 0)] = array_of yt ∧
    Forall2
      (λ dp a,
         (a = PInt 0 ∨ a = PInt 1) ∧
         ∃ l, labels dp !! "t1" = Some l ∧ py_eq l a = true)
      (kept_samples scenario_test_set
         (sorted (@keys listing_order _ scenario_task_types)) "t1"
         (sorted (@keys listing_order _ scenario_test_set))) yt.
Proof.
  apply (eval_model_classification_truth (H := listing_order) no_features
           scenario_test_set (constant_model scenario_predictions)
           scenario_task_types ∅ "sklearn" false scenario_results "t1"
           (PyArray [PyNum (PInt 1); PyNum (PInt 0)])
           (PyArray [proba 0.1 0.9; proba 0.8 0.2])).
  - by vm_compute.
  - by vm_compute.
  - by vm_compute.
  - intros [Hf _]. discriminate Hf.
Defined.

(** X4. For a regression task (one that is not also an included
    descriptor), the values collected as ground truth are the labels
    themselves of the samples that are not skipped, in the sorted order of
    the samples. When these labels are all floats, or all ints of the int64
    range, so that [numpy.array] converts none of them, they are the entries
    of the ground-truth array. *)
Theorem eval_model_regression_truth `{DictOrder} {ndarray}
    (dataset_to_numpy : gmap string datapoint → ndarray * ndarray * ndarray)
    test_set model task_types desc_transforms modeltype add_descriptors
    R target ytrue yscore :
  eval_model dataset_to_numpy test_set model task_types desc_transforms
    modeltype add_descriptors = Ok R →
  R !! target = Some (ytrue, yscore) →
  task_types !! target = Some "regression" →
  ¬ (add_descriptors = true ∧ is_Some (desc_transforms !! target)) →
  ∃ yt,
    Forall2 (λ dp a, labels dp !! target = Some a)
      (kept_samples test_set (sorted (keys task_types)) target
         (sorted (keys test_set))) yt ∧
    (one_dtype yt = true → ytrue = array_of yt).
Proof.
  intros Hok HR Htype Hno.
  destruct (eval_model_truth_once _ _ _ _ _ _ _ _ _ _ _ Hok HR)
    as (yt & -> & Hall); [by intros (? & _ & ?); apply Hno|].
  exists yt. split; [|done].
  eapply Forall2_impl; [exact Hall|]. intros dp a. unfold ground_truth.
  unfold dict_getitem at 1. rewrite endpoint_list_snd_task, Htype by done.
  cbn [mbind result_bind]. unfold ytrue_entry. rewrite decide_False by done.
  rewrite bool_decide_eq_true_2 by (apply elem_of_sorted_keys; eauto).
  rewrite bool_decide_eq_true_2 by done. cbn [andb].
  by intros ?%dict_getitem_Ok.
Qed.

Lemma eval_model_regression_truth_witness :
  one_dtype [PFloat 1.5; PFloat 2.5] = true
  ∧ ∃ yt,
      Forall2 (λ dp a, labels dp !! "t1" = Some a)
        (kept_samples descriptor_test_set
           (sorted (@keys listing_order _ descriptor_task_types)) "t1"
           (sorted (@keys listing_order _ descriptor_test_set))) yt ∧
      (one_dtype yt = true →
       PyArray [PyNum (PFloat 1.5); PyNum (PFloat 2.5)] = array_of yt).
Proof.
  split; [done|].
  apply (eval_model_regression_truth (H := listing_order) no_features
           descriptor_test_set (constant_model descriptor_predictions)
           descriptor_task_types descriptor_transforms "keras_multitask" true
           descriptor_results "t1"
           (PyArray [PyNum (PFloat 1.5); PyNum (PFloat 2.5)])
           (PyArray [PyNum (PFloat 1.5); PyNum (PFloat 2.5)])).
  - by vm_compute.
  - by vm_compute.
  - by vm_compute.
  - intros [_ Hd]. vm_compute in Hd. by destruct Hd.
Defined.

Lemma Forall2_compose {A B C} (P : A → B → Prop) (Q : B → C → Prop)
    (l : list A) (k : list B) (m : list C) :
  Forall2 P l k → Forall2 Q k m → Forall2 (λ x z, ∃ y, P x y ∧ Q y z) l m.
Proof.
  intros HP. revert m. induction HP as [|x y l k Hxy HP IH]; intros m HQ.
  - apply Forall2_nil_inv_l in HQ as ->. constructor.
  - apply Forall2_cons_inv_l in HQ as (z & m' & Hyz & HQ & ->).
    constructor; eauto.
Qed.

(** An endpoint that is no task is never skipped: every sample is kept. *)
Lemma kept_samples_all test_set sorted_targets target smiles :
  target ∉ sorted_targets →
  (∀ s, s ∈ smiles → is_Some (test_set !! s)) →
  Forall2 (λ s dp, test_set !! s = Some dp) smiles
    (kept_samples test_set sorted_targets target smiles).
Proof.
  intros Hno. induction smiles as [|s smiles IH]; intros Hall; [constructor|].
  cbn [kept_samples]. destruct (Hall s) as [dp Hdp]; [rewrite elem_of_cons; by left|].
  rewrite Hdp. unfold is_skipped. rewrite bool_decide_eq_false_2 by done.
  cbn [andb app]. constructor; [done|]. apply IH. intros s' Hs'. apply Hall.
  rewrite elem_of_cons. by right.
Qed.

(** X5. For an included descriptor whose key is not a task name, no sample
    is skipped: the values collected as ground truth are, for every sample in
    the sorted order of the samples, the entry of its "descriptors" at the
    index [int(key)]. So [eval_model] returns only if every sample has
    descriptors, the key reads as an integer and the index is in range. When
    these entries are all floats, or all ints of the int64 range, so that
    [numpy.array] converts none of them, they are the entries of the
    ground-truth array. *)
Theorem eval_model_descriptor_truth `{DictOrder} {ndarray}
    (dataset_to_numpy : gmap string datapoint → ndarray * ndarray * ndarray)
    test_set model task_types desc_transforms modeltype R target :
  eval_model dataset_to_numpy test_set model task_types desc_transforms
    modeltype true = Ok R →
  is_Some (desc_transforms !! target) →
  task_types !! target = None →
  ∃ ytrue yscore yt,
    R !! target = Some (ytrue, yscore) ∧
    Forall2
      (λ s a, ∃ dp ds i,
         test_set !! s = Some dp ∧ descriptors dp = Some ds ∧
         py_int target = Ok i ∧ seq_getitem ds i = Ok a)
      (sorted (keys test_set)) yt ∧
    (one_dtype yt = true → ytrue = array_of yt).
Proof.
  intros Hok Hdesc Hnone.
  assert (target ∉ sorted (keys task_types)) as Hnot.
  { rewrite elem_of_sorted_keys, Hnone. by intros []. }
  destruct (eval_model_keys_of_result _ _ _ _ _ _ _ _ target Hok)
    as [ytrue [yscore HR]].
  { right. by split. }
  exists ytrue, yscore.
  destruct (eval_model_truth_once _ _ _ _ _ _ _ _ _ _ _ Hok HR)
    as (yt & -> & Hall).
  { intros (_ & [? Ht] & _). congruence. }
  exists yt. split_and!; [done| |done].
  pose proof (kept_samples_all test_set _ target (sorted (keys test_set)) Hnot)
    as Hkept.
  eapply Forall2_impl;
    [apply (Forall2_compose _ _ _ _ _ (Hkept (λ s, proj1 (elem_of_sorted_keys _ s))) Hall)|].
  intros s a (dp & Hdp & Ha). exists dp.
  unfold ground_truth, dict_getitem in Ha. rewrite endpoint_list_snd in Ha.
  rewrite bool_decide_eq_true_2 in Ha by done. cbn [andb mbind result_bind] in Ha.
  unfold ytrue_entry in Ha. rewrite decide_False in Ha by done.
  rewrite (bool_decide_eq_false_2 (target ∈ _)) in Ha by done.
  rewrite !bool_decide_eq_true_2 in Ha by done. cbn [andb] in Ha.
  apply bind_Ok in Ha as (ds & Hds & Ha). apply bind_Ok in Ha as (i & Hi & Ha).
  exists ds, i. split_and!; [done| |done..].
  by destruct (descriptors dp); simplify_eq.
Qed.

Lemma eval_model_descriptor_truth_witness :
  one_dtype [PFloat 0.25; PFloat 0.75] = true
  ∧ ∃ ytrue yscore yt,
      descriptor_results !! "0" = Some (ytrue, yscore) ∧
      Forall2
        (λ s a, ∃ dp ds i,
           descriptor_test_set !! s = Some dp ∧ descriptors dp = Some ds ∧
           py_int "0" = Ok i ∧ seq_getitem ds i = Ok a)
        (sorted (@keys listing_order _ descriptor_test_set)) yt ∧
      (one_dtype yt = true → ytrue = array_of yt).
Proof.
  split; [done|].
  apply (eval_model_descriptor_truth (H := listing_order) no_features
           descriptor_test_set (constant_model descriptor_predictions)
           descriptor_task_types descriptor_transforms "keras_multitask"
           descriptor_results "0").
  - by vm_compute.
  - by exists Log.
  - by vm_compute.
Defined.

(** ** When [eval_model] returns and when it does not *)

(** A loop returns when its body does, on every state an invariant allows. *)
Lemma for_each_total {A St} (Inv : St → Prop)
    (body : nat → A → St → result St) i l s :
  Inv s →
  (∀ j x s', l !! j = Some x → Inv s' →
     ∃ s'', body (i + j)%nat x s' = Ok s'' ∧ Inv s'') →
  ∃ s', for_each body i l s = Ok s' ∧ Inv s'.
Proof.
  revert i s. induction l as [|x l IH]; intros i s Hinv Hbody; [by exists s|].
  cbn [for_each]. destruct (Hbody 0%nat x s) as (s1 & Hs1 & Hinv1); [done..|].
  rewrite Nat.add_0_r in Hs1. rewrite Hs1. cbn [mbind result_bind].
  apply IH; [done|]. intros j y s' Hj Hs'.
  replace (S i + j)%nat with (i + S j)%nat by lia. by apply Hbody.
Qed.

Lemma freeze_total (results : results_lists) index eps (arrays0 : results_map) :
  (∀ target, target ∈ eps → is_Some (results !! target)) →
  ∃ arrays,
    for_each (λ _ target (arrays : results_map),
        '(ytrue, yscore) ← dict_getitem results target;
        Ok (<[target := (np_array (PyNum <$> ytrue), np_array yscore)]> arrays))
      index eps arrays0 = Ok arrays.
Proof.
  revert index arrays0. induction eps as [|e eps IH]; intros index arrays0 Hall;
    [by eexists|].
  cbn [for_each]. destruct (Hall e) as [[yt ys] Hres]; [rewrite elem_of_cons; by left|].
  rewrite (proj2 (dict_getitem_Ok results e (yt, ys)) Hres).
  cbn [mbind result_bind]. apply IH. intros target Hin. apply Hall. rewrite elem_of_cons. by right.
Qed.

Lemma keys_empty `{DictOrder} {V} : keys (∅ : gmap string V) = [].
Proof.
  apply Permutation_nil_r. by rewrite keys_perm, map_to_list_empty.
Qed.

(** X6. On an empty test set [eval_model] returns as soon as the predictions
    are obtained, whatever the types of the tasks and the shape of the
    predictions: every endpoint gets a pair of empty arrays. *)
Theorem eval_model_empty_test_set `{DictOrder} {ndarray}
    (dataset_to_numpy : gmap string datapoint → ndarray * ndarray * ndarray)
    model task_types desc_transforms modeltype add_descriptors ypreds :
  model_predictions dataset_to_numpy ∅ model (length (sorted (keys task_types)))
    (size desc_transforms) add_descriptors modeltype = Ok ypreds →
  ∃ R,
    eval_model dataset_to_numpy ∅ model task_types desc_transforms modeltype
      add_descriptors = Ok R ∧
    ∀ target,
      R !! target
      = if decide (is_Some (task_types !! target)
                   ∨ (add_descriptors = true
                      ∧ is_Some (desc_transforms !! target)))
        then Some (PyArray [], PyArray []) else None.
Proof.
  intros Hpreds. unfold eval_model.
  pose proof (endpoint_list_fst task_types desc_transforms add_descriptors) as Hfst.
  destruct (endpoint_list task_types desc_transforms add_descriptors)
    as [endpoints local_task_types]. cbn [fst] in Hfst.
  rewrite Hpreds, keys_empty. cbn [mbind result_bind].
  change (sorted []) with (@nil string). cbn [for_each mbind result_bind].
  destruct (freeze_total (empty_results endpoints) 0 endpoints ∅) as [R HR].
  { intros target Hin. rewrite empty_results_lookup by done. eauto. }
  exists R. split; [done|]. intros target.
  apply freeze_Ok with (target := target) in HR.
  assert (target ∈ endpoints ↔
          is_Some (task_types !! target)
          ∨ (add_descriptors = true ∧ is_Some (desc_transforms !! target)))
    as Hiff.
  { rewrite Hfst, elem_of_app, elem_of_sorted_keys.
    destruct add_descriptors.
    - rewrite elem_of_sorted_keys. tauto.
    - rewrite elem_of_nil. intuition congruence. }
  destruct (decide (target ∈ endpoints)) as [Hin|Hin].
  - destruct HR as (yt & ys & Hres & ->).
    rewrite empty_results_lookup in Hres by done. injection Hres as <- <-.
    rewrite decide_True; [done|]. by apply Hiff.
  - rewrite HR, lookup_empty. rewrite decide_False; [done|].
    intros ?. by apply Hin, Hiff.
Qed.

Lemma eval_model_empty_test_set_witness :
  ∃ R,
    eval_model (H := listing_order) no_features ∅
      (constant_model scenario_predictions) two_task_types
      collision_desc_transforms "sklearn" true = Ok R ∧
    ∀ target,
      R !! target
      = if decide (is_Some (two_task_types !! target)
                   ∨ (true = true
                      ∧ is_Some (collision_desc_transforms !! target)))
        then Some (PyArray [], PyArray []) else None.
Proof.
  apply (eval_model_empty_test_set (H := listing_order) no_features
           (constant_model scenario_predictions) two_task_types
           collision_desc_transforms "sklearn" true
           (PyList [scenario_predictions])).
  by vm_compute.
Defined.

(** A pair at which the step of the inner loop raises on every state makes
    [eval_model] raise. *)
Lemma eval_model_fails_at `{DictOrder} {ndarray}
    (dataset_to_numpy : gmap string datapoint → ndarray * ndarray * ndarray)
    test_set model task_types desc_transforms modeltype add_descriptors
    smiles dp target :
  test_set !! smiles = Some dp →
  target ∈ (endpoint_list task_types desc_transforms add_descriptors).1 →
  (∀ ypreds index t_ind (results : results_lists),
     is_ok (align_endpoint (sorted (keys task_types))
              (endpoint_list task_types desc_transforms add_descriptors).2
              ypreds index dp t_ind target results) = false) →
  ∀ R, eval_model dataset_to_numpy test_set model task_types desc_transforms
         modeltype add_descriptors ≠ Ok R.
Proof.
  intros Hdp Hin Hbad R. unfold eval_model.
  destruct (endpoint_list task_types desc_transforms add_descriptors)
    as [endpoints local_task_types]. cbn [fst snd] in *.
  intros HR. apply bind_Ok in HR as (ypreds & _ & HR).
  apply bind_Ok in HR as (results & Hloop & _).
  assert (smiles ∈ sorted (keys test_set)) as Hs
    by (apply elem_of_sorted_keys; eauto).
  apply list_elem_of_lookup in Hs as [j Hj].
  apply list_elem_of_lookup in Hin as [t Ht].
  eapply is_ok_false; [|exact Hloop].
  apply (for_each_fails _ _ _ _ j smiles); [done|]. intros results'.
  rewrite (align_sample_lookup _ _ _ _ _ _ _ dp) by done.
  apply (for_each_fails _ _ _ _ t target); [done|]. intros results''.
  apply Hbad.
Qed.

(** X7. A sample without a label for one of the tasks makes [eval_model]
    raise: the label is read for every task and every sample, to compare it
    with -1. A missing label must be written -1; leaving the key out does not
    skip the sample. *)
Theorem eval_model_missing_label `{DictOrder} {ndarray}
    (dataset_to_numpy : gmap string datapoint → ndarray * ndarray * ndarray)
    test_set model task_types desc_transforms modeltype add_descriptors
    smiles dp target :
  test_set !! smiles = Some dp →
  is_Some (task_types !! target) →
  labels dp !! target = None →
  (∀ R, eval_model dataset_to_numpy test_set model task_types desc_transforms
          modeltype add_descriptors ≠ Ok R)
  ∧ ∀ ypreds index t_ind (results : results_lists),
      align_endpoint (sorted (keys task_types))
        (endpoint_list task_types desc_transforms add_descriptors).2
        ypreds index dp t_ind target results = Raise (KeyError (KStr target)).
Proof.
  intros Hdp Htask Hnone.
  assert (∀ ypreds index t_ind (results : results_lists),
            align_endpoint (sorted (keys task_types))
              (endpoint_list task_types desc_transforms add_descriptors).2
              ypreds index dp t_ind target results
            = Raise (KeyError (KStr target))) as Hraise.
  { intros ypreds index t_ind results. unfold align_endpoint, dict_getitem.
    rewrite endpoint_list_snd. destruct Htask as [ty Hty]. rewrite Hty, Hnone.
    rewrite bool_decide_eq_true_2 by (apply elem_of_sorted_keys; eauto).
    by destruct (_ && _). }
  split; [|done]. eapply eval_model_fails_at; [done| |].
  - rewrite endpoint_list_fst, elem_of_app. left. by apply elem_of_sorted_keys.
  - intros. by rewrite Hraise.
Qed.

Lemma eval_model_missing_label_witness :
  (∀ R, eval_model (H := listing_order) no_features invalid_test_set
          (constant_model invalid_predictions) two_task_types ∅ "sklearn" false
        ≠ Ok R)
  ∧ ∀ ypreds index t_ind (results : results_lists),
      align_endpoint (sorted (@keys listing_order _ two_task_types))
        (@endpoint_list listing_order two_task_types ∅ false).2
        ypreds index (labelled "t1" (PInt 1)) t_ind "t0" results
      = Raise (KeyError (KStr "t0")).
Proof.
  apply (eval_model_missing_label (H := listing_order) no_features
           invalid_test_set (constant_model invalid_predictions) two_task_types
           ∅ "sklearn" false "A" (labelled "t1" (PInt 1)) "t0").
  - by vm_compute.
  - by exists "classification".
  - by vm_compute.
Defined.

(** X8. A task whose type is neither "classification" nor "regression" (and
    that is not also an included descriptor) makes [eval_model] raise as soon
    as one sample is not skipped for it. The type is checked at the pairs
    only: it goes unnoticed when every sample has the label -1. *)
Theorem eval_model_unknown_task_type `{DictOrder} {ndarray}
    (dataset_to_numpy : gmap string datapoint → ndarray * ndarray * ndarray)
    test_set model task_types desc_transforms modeltype add_descriptors
    smiles dp target task_type :
  test_set !! smiles = Some dp →
  task_types !! target = Some task_type →
  task_type ≠ "classification" →
  task_type ≠ "regression" →
  ¬ (add_descriptors = true ∧ is_Some (desc_transforms !! target)) →
  is_skipped (sorted (keys task_types)) dp target = false →
  (∀ R, eval_model dataset_to_numpy test_set model task_types desc_transforms
          modeltype add_descriptors ≠ Ok R)
  ∧ ∀ ypreds index t_ind (results : results_lists) l,
      labels dp !! target = Some l →
      is_Some (results !! target) →
      align_endpoint (sorted (keys task_types))
        (endpoint_list task_types desc_transforms add_descriptors).2
        ypreds index dp t_ind target results
      = Raise (ValueError "task_type must be classification or regression.").
Proof.
  intros Hdp Hty Hc Hr Hno Hskip.
  assert (target ∈ sorted (keys task_types)) as Htarget
    by (apply elem_of_sorted_keys; eauto).
  assert ((endpoint_list task_types desc_transforms add_descriptors).2 !! target
          = Some task_type) as Hltt by (by rewrite endpoint_list_snd_task).
  split.
  - eapply eval_model_fails_at; [done| |].
    + rewrite endpoint_list_fst, elem_of_app. by left.
    + intros ypreds index t_ind results. unfold align_endpoint, dict_getitem.
      rewrite Hltt. cbn [mbind result_bind].
      rewrite bool_decide_eq_true_2 by done.
      unfold is_skipped in Hskip. rewrite bool_decide_eq_true_2 in Hskip by done.
      cbn [andb] in Hskip.
      destruct (labels dp !! target) as [l|]; [|done].
      cbn [mbind result_bind]. rewrite Hskip.
      destruct (results !! target) as [[yt ys]|]; [|done].
      cbn [mbind result_bind]. rewrite decide_False by done.
      rewrite (bool_decide_eq_false_2 (task_type = "regression")) by done.
      by rewrite !andb_false_r.
  - intros ypreds index t_ind results l Hl [[yt ys] Hres].
    unfold align_endpoint, dict_getitem. rewrite Hltt, Hl, Hres.
    cbn [mbind result_bind]. rewrite bool_decide_eq_true_2 by done.
    unfold is_skipped in Hskip.
    rewrite bool_decide_eq_true_2, Hl in Hskip by done. cbn [andb] in Hskip.
    cbn [mbind result_bind]. rewrite Hskip. cbn [mbind result_bind].
    rewrite decide_False by done.
    rewrite (bool_decide_eq_false_2 (task_type = "regression")) by done.
    by rewrite !andb_false_r.
Qed.

Lemma eval_model_unknown_task_type_witness :
  (∀ R, eval_model (H := listing_order) no_features scenario_test_set
          (constant_model scenario_predictions) ranking_task_types ∅
          "sklearn" false ≠ Ok R)
  ∧ eval_model (H := listing_order) no_features unlabelled_test_set
      (constant_model scenario_predictions) ranking_task_types ∅ "sklearn" false
    = Ok {[ "t1" := (PyArray [], PyArray []) ]}.
Proof.
  split; [|by vm_compute].
  apply (eval_model_unknown_task_type (H := listing_order) no_features
           scenario_test_set (constant_model scenario_predictions)
           ranking_task_types ∅ "sklearn" false "A" (labelled "t1" (PInt 1))
           "t1" "ranking").
  - by vm_compute.
  - by vm_compute.
  - discriminate.
  - discriminate.
  - intros [Hf _]. discriminate Hf.
  - by vm_compute.
Defined.

(** One step of the inner loop returns when the type, the lists, the value
    for the ground truth and the prediction are there. *)
Lemma align_endpoint_returns sorted_targets (local_task_types : gmap string string)
    ypreds index dp t_ind target (results : results_lists) :
  is_Some (local_task_types !! target) →
  (target ∈ sorted_targets → is_Some (labels dp !! target)) →
  is_Some (results !! target) →
  (is_skipped sorted_targets dp target = false →
   (∃ a, ground_truth sorted_targets local_task_types target dp = Ok a)
   ∧ ∃ p, prediction ypreds (index, t_ind) = Ok p) →
  ∃ results',
    align_endpoint sorted_targets local_task_types ypreds index dp t_ind target
      results = Ok results'
    ∧ ∀ k, is_Some (results !! k) → is_Some (results' !! k).
Proof.
  intros [ty Hty] Hlabel [[yt ys] Hres] Hentry.
  unfold align_endpoint, dict_getitem. rewrite Hty. cbn [mbind result_bind].
  assert ((if bool_decide (target ∈ sorted_targets)
           then l ← match labels dp !! target with
                    | Some v => Ok v
                    | None => Raise (KeyError (KStr target))
                    end; Ok (py_eq l (PInt (-1)))
           else Ok false)
          = Ok (is_skipped sorted_targets dp target)) as ->.
  { unfold is_skipped. destruct (bool_decide_reflect (target ∈ sorted_targets));
      [|done].
    destruct (Hlabel ltac:(done)) as [l ->]. done. }
  cbn [mbind result_bind].
  destruct (is_skipped sorted_targets dp target); [by exists results|].
  destruct Hentry as [[a Ha] [p Hp]]; [done|].
  rewrite Hres. cbn [mbind result_bind].
  unfold ground_truth, dict_getitem in Ha. rewrite Hty in Ha.
  cbn [mbind result_bind] in Ha. unfold ytrue_entry in Ha.
  assert (∀ (r : result pynum) (k : pynum → result (list pynum)),
            r = Ok a → (r ≫= k) = k a) as Hbind by (by intros r k ->).
  match goal with
  | |- ∃ r', (?e ≫= ?k) = Ok r' ∧ _ =>
      assert (e = Ok (yt ++ [a])) as ->
  end.
  { destruct (decide (ty = "classification")).
    - apply bind_Ok in Ha as (l & Hl & Ha). unfold dict_getitem in Hl.
      destruct (labels dp !! target) as [l'|]; [|done]. injection Hl as ->.
      cbn [mbind result_bind].
      destruct (py_eq l (PInt 0)); [by injection Ha as <-|].
      destruct (py_eq l (PInt 1)); [by injection Ha as <-|done].
    - destruct (_ && _).
      + unfold dict_getitem in Ha. destruct (labels dp !! target); [|done].
        by injection Ha as ->.
      + destruct (_ && _); [|done].
        apply bind_Ok in Ha as (ds & -> & Ha). cbn [mbind result_bind].
        apply bind_Ok in Ha as (i & -> & Ha). cbn [mbind result_bind].
        by rewrite Ha. }
  cbn [mbind result_bind]. unfold prediction in Hp.
  apply bind_Ok in Hp as (preds & Hpreds & Hp).
  rewrite Hpreds. cbn [mbind result_bind]. rewrite Hp. cbn [mbind result_bind].
  eexists. split; [done|]. intros k Hk.
  destruct (decide (target = k)) as [->|Hne].
  - rewrite lookup_insert_eq. eauto.
  - by rewrite lookup_insert_ne.
Qed.

(** X9. [eval_model] returns when the predictions are obtained and
    - every sample has a label for every task: -1, or 0 or 1 for a task of
      type "classification", or any number for a task of type "regression";
    - when the descriptors are included, every sample has descriptors with an
      entry at the index every descriptor key (that is no task name) reads
      as;
    - a prediction [ypreds[t_ind][index]] is there for every position of a
      sample and every position of an endpoint. *)
Theorem eval_model_returns `{DictOrder} {ndarray}
    (dataset_to_numpy : gmap string datapoint → ndarray * ndarray * ndarray)
    test_set model task_types desc_transforms modeltype add_descriptors ypreds :
  model_predictions dataset_to_numpy test_set model
    (length (sorted (keys task_types))) (size desc_transforms) add_descriptors
    modeltype = Ok ypreds →
  (∀ s dp target task_type,
     test_set !! s = Some dp →
     task_types !! target = Some task_type →
     ∃ l, labels dp !! target = Some l ∧
          (py_eq l (PInt (-1)) = true
           ∨ (task_type = "classification"
              ∧ (py_eq l (PInt 0) = true ∨ py_eq l (PInt 1) = true))
           ∨ task_type = "regression")) →
  (add_descriptors = true →
   ∀ s dp target,
     test_set !! s = Some dp →
     is_Some (desc_transforms !! target) →
     task_types !! target = None →
     ∃ ds i a, descriptors dp = Some ds ∧ py_int target = Ok i
               ∧ seq_getitem ds i = Ok a) →
  (∀ index t_ind,
     (index < size test_set)%nat →
     (t_ind < size task_types
              + (if add_descriptors then size desc_transforms else 0))%nat →
     ∃ p, prediction ypreds (index, t_ind) = Ok p) →
  ∃ R, eval_model dataset_to_numpy test_set model task_types desc_transforms
         modeltype add_descriptors = Ok R.
Proof.
  intros Hpreds Hlabels Hdescs Hpred. unfold eval_model.
  pose proof (endpoint_list_fst task_types desc_transforms add_descriptors) as Hfst.
  pose proof (endpoint_list_snd task_types desc_transforms add_descriptors) as Hsnd.
  destruct (endpoint_list task_types desc_transforms add_descriptors)
    as [endpoints local_task_types]. cbn [fst snd] in Hfst, Hsnd.
  rewrite Hpreds. cbn [mbind result_bind].
  assert (length endpoints
          = (size task_types
             + (if add_descriptors then size desc_transforms else 0))%nat) as Hlen.
  { rewrite Hfst, length_app, length_sorted_keys.
    destruct add_descriptors; [|done]. by rewrite length_sorted_keys. }
  set (Inv := λ results : results_lists,
         ∀ target, target ∈ endpoints → is_Some (results !! target)).
  destruct (for_each_total Inv
              (align_sample test_set (sorted (keys task_types)) endpoints
                 local_task_types ypreds)
              0 (sorted (keys test_set)) (empty_results endpoints))
    as (results & -> & Hinv).
  { intros target Hin. rewrite empty_results_lookup by done. eauto. }
  { intros j s results Hj Hinv.
    assert (is_Some (test_set !! s)) as [dp Hdp]
      by (by eapply elem_of_sorted_keys, list_elem_of_lookup_2).
    rewrite (align_sample_lookup _ _ _ _ _ _ _ dp) by done.
    apply for_each_total; [done|]. intros t target results' Ht Hinv'.
    assert (target ∈ endpoints) as Hin by (by eapply list_elem_of_lookup_2).
    destruct (align_endpoint_returns (sorted (keys task_types)) local_task_types
                ypreds (0 + j) dp (0 + t) target results')
      as (results'' & Hok & Hkeys).
    - rewrite Hsnd. destruct (_ && _) eqn:Hboth; [eauto|].
      rewrite Hfst, elem_of_app, elem_of_sorted_keys in Hin.
      destruct Hin as [?|Hin]; [done|].
      destruct add_descriptors; [|by apply elem_of_nil in Hin].
      apply elem_of_sorted_keys in Hin.
      by rewrite bool_decide_eq_true_2 in Hboth.
    - intros [ty Hty]%elem_of_sorted_keys.
      destruct (Hlabels _ _ _ _ Hdp Hty) as (l & -> & _). eauto.
    - by apply Hinv'.
    - intros Hskip. split.
      + unfold ground_truth, ytrue_entry, dict_getitem. rewrite Hsnd.
        destruct (decide (target ∈ sorted (keys task_types))) as [Htask|Htask].
        * pose proof Htask as [ty Hty]%elem_of_sorted_keys.
          destruct (Hlabels _ _ _ _ Hdp Hty) as (l & Hl & Hcase).
          unfold is_skipped in Hskip.
          rewrite bool_decide_eq_true_2, Hl in Hskip by done.
          cbn [andb] in Hskip. rewrite Hl.
          rewrite (bool_decide_eq_true_2 (target ∈ _)) by done.
          destruct (_ && _); cbn [mbind result_bind].
          -- rewrite decide_False by done.
             rewrite bool_decide_eq_true_2 by done. eauto.
          -- rewrite Hty. cbn [mbind result_bind].
             destruct Hcase as [Hm1|[[Hcl H01]|Hrg]]; [congruence|subst ty|subst ty].
             ++ rewrite decide_True by done. cbn [mbind result_bind].
                destruct (py_eq l (PInt 0)); [eauto|].
                destruct H01 as [?| ->]; [done|eauto].
             ++ rewrite decide_False by done.
                rewrite bool_decide_eq_true_2 by done. eauto.
        * rewrite Hfst, elem_of_app in Hin. destruct Hin as [?|Hin]; [done|].
          destruct add_descriptors; [|by apply elem_of_nil in Hin].
          apply elem_of_sorted_keys in Hin.
          rewrite (bool_decide_eq_true_2 (is_Some _)) by done.
          cbn [andb mbind result_bind]. rewrite decide_False by done.
          rewrite (bool_decide_eq_false_2 (target ∈ _)) by done.
          rewrite !bool_decide_eq_true_2 by done. cbn [andb].
          destruct (Hdescs eq_refl s dp target) as (ds & i & a & Hds & Hi & Ha);
            [done..| |].
          { rewrite elem_of_sorted_keys in Htask.
            destruct (task_types !! target); [|done]. destruct Htask. eauto. }
          rewrite Hds. cbn [mbind result_bind]. rewrite Hi.
          cbn [mbind result_bind]. eauto.
      + apply Hpred.
        * rewrite <- (length_sorted_keys test_set). simpl.
          by eapply lookup_lt_Some.
        * rewrite <- Hlen. simpl. by eapply lookup_lt_Some.
    - exists results''. split; [done|]. intros k Hk. by apply Hkeys, Hinv'. }
  cbn [mbind result_bind]. by apply freeze_total.
Qed.

Lemma eval_model_returns_witness :
  ∃ R, eval_model (H := listing_order) no_features descriptor_test_set
         (constant_model descriptor_predictions) descriptor_task_types
         descriptor_transforms "keras_multitask" true = Ok R.
Proof.
  apply (eval_model_returns (H := listing_order) no_features
           descriptor_test_set (constant_model descriptor_predictions)
           descriptor_task_types descriptor_transforms "keras_multitask" true
           (PyList [PyArray [PyNum (PFloat 1.5); PyNum (PFloat 2.5)];
                    PyArray [PyNum (PFloat 0.25); PyNum (PFloat 0.75)]])).
  - by vm_compute.
  - intros s dp target ty Hdp Hty.
    unfold descriptor_task_types in Hty.
    apply lookup_singleton_Some in Hty as [<- <-].
    unfold descriptor_test_set in Hdp.
    apply lookup_insert_Some in Hdp as [[<- <-]|[_ Hdp]].
    + eexists. split; [reflexivity|]. right. by right.
    + apply lookup_singleton_Some in Hdp as [<- <-].
      eexists. split; [reflexivity|]. right. by right.
  - intros _ s dp target Hdp [tr Htr] _.
    unfold descriptor_transforms in Htr.
    apply lookup_singleton_Some in Htr as [<- <-].
    unfold descriptor_test_set in Hdp.
    apply lookup_insert_Some in Hdp as [[<- <-]|[_ Hdp]].
    + by eexists _, _, _.
    + apply lookup_singleton_Some in Hdp as [<- <-]. by eexists _, _, _.
  - intros index t_ind Hi Ht.
    change (size descriptor_test_set) with 2%nat in Hi.
    change (size descriptor_task_types + size descriptor_transforms)%nat
      with 2%nat in Ht.
    destruct index as [|[|index]]; [| |lia];
      (destruct t_ind as [|[|t_ind]]; [| |lia]); by eexists.
Defined.

(** ** More on the predictions *)

(** X10. When the descriptors are not included, the descriptor transforms
    have no effect on [eval_model]: with any two of them it returns the same
    result or raises the same error. *)
Theorem eval_model_ignores_descriptors `{DictOrder} {ndarray}
    (dataset_to_numpy : gmap string datapoint → ndarray * ndarray * ndarray)
    test_set model task_types (desc_transforms desc_transforms' : gmap string transform)
    modeltype :
  eval_model dataset_to_numpy test_set model task_types desc_transforms
    modeltype false
  = eval_model dataset_to_numpy test_set model task_types desc_transforms'
      modeltype false.
Proof.
  unfold eval_model, endpoint_list.
  assert (∀ n n',
            model_predictions dataset_to_numpy test_set model
              (length (sorted (keys task_types))) n false modeltype
            = model_predictions dataset_to_numpy test_set model
                (length (sorted (keys task_types))) n' false modeltype) as Hn.
  { intros n n'. unfold model_predictions.
    by destruct (dataset_to_numpy test_set) as [[X ?] ?]. }
  by rewrite (Hn (size desc_transforms) (size desc_transforms')).
Qed.

(** The loop of lines 44-46 gathers the blocks in the order of the indices. *)
Lemma gather_blocks (predictions : pyobj) (indices : list nat) i (acc : list pyobj) :
  for_each (λ _ index ypreds,
      p ← py_getitem predictions (KStr (task_key index));
      Ok (ypreds ++ [p]))
    i indices acc
  = blocks ← collect (λ index, py_getitem predictions (KStr (task_key index)))
               indices;
    Ok (acc ++ blocks).
Proof.
  revert i acc. induction indices as [|index indices IH]; intros i acc.
  - simpl. by rewrite app_nil_r.
  - cbn [for_each collect].
    destruct (py_getitem predictions (KStr (task_key index))) as [p|]; [|done].
    cbn [mbind result_bind]. rewrite IH.
    destruct (collect _ indices); [|done]. cbn [mbind result_bind].
    by rewrite <- app_assoc.
Qed.

(** X11. With the modeltype "keras_multitask" the predictions are the list of
    the blocks [predictions["task0"]], [predictions["task1"]], ... of the
    value of the model call, one for every output: [n_targets] of them, and
    [n_descriptors] more when the descriptors are included. The list is
    returned as it is, also when it has one block or none. When a block is
    missing, the error is the one of the first lookup that fails. *)
Theorem model_predictions_multitask {ndarray}
    (dataset_to_numpy : gmap string datapoint → ndarray * ndarray * ndarray)
    test_set (model : model ndarray) (n_targets n_descriptors : nat)
    (add_descriptors : bool) :
  let predictions :=
    predict model (Inputs {[ "input" := (dataset_to_numpy test_set).1.1 ]}) in
  let n_outputs :=
    if add_descriptors then (n_targets + n_descriptors)%nat else n_targets in
  (∀ ypreds,
     model_predictions dataset_to_numpy test_set model n_targets n_descriptors
       add_descriptors "keras_multitask" = Ok ypreds ↔
     ∃ blocks,
       ypreds = PyList blocks ∧ length blocks = n_outputs ∧
       ∀ index, (index < n_outputs)%nat →
         ∃ block, blocks !! index = Some block ∧
                  py_getitem predictions (KStr (task_key index)) = Ok block)
  ∧ ∀ index e,
      (index < n_outputs)%nat →
      (∀ j, (j < index)%nat →
         is_ok (py_getitem predictions (KStr (task_key j))) = true) →
      py_getitem predictions (KStr (task_key index)) = Raise e →
      model_predictions dataset_to_numpy test_set model n_targets n_descriptors
        add_descriptors "keras_multitask" = Raise e.
Proof.
  intros predictions n_outputs.
  assert (model_predictions dataset_to_numpy test_set model n_targets
            n_descriptors add_descriptors "keras_multitask"
          = PyList <$> collect (λ index, py_getitem predictions (KStr (task_key index)))
                         (seq 0 n_outputs)) as ->.
  { unfold model_predictions. subst predictions n_outputs.
    destruct (dataset_to_numpy test_set) as [[X ?] ?]. cbn [fst].
    rewrite decide_False, decide_False, decide_True by done.
    rewrite gather_blocks. by destruct (collect _ _). }
  split.
  - intros ypreds. split.
    + destruct (collect _ _) as [blocks|] eqn:Hc; [|done]. intros [= <-].
      exists blocks. pose proof (collect_length _ _ _ Hc) as Hlen.
      rewrite length_seq in Hlen. split_and!; [done..|].
      intros index Hindex.
      destruct (collect_lookup _ _ _ index index Hc) as (block & ? & ?);
        [by apply lookup_seq_lt|eauto].
    + intros (blocks & -> & Hlen & Hall).
      assert (collect (λ index, py_getitem predictions (KStr (task_key index)))
                (seq 0 n_outputs) = Ok blocks) as ->; [|done].
      apply collect_Forall2, Forall2_same_length_lookup.
      split; [by rewrite length_seq|].
      intros i index block [-> Hi]%lookup_seq Hblock.
      destruct (Hall _ Hi) as (block' & ? & ?). by simplify_eq/=.
  - intros index e Hindex Hbefore Hraise.
    assert (seq 0 n_outputs
            = seq 0 index ++ index :: seq (S index) (n_outputs - S index)) as ->.
    { replace n_outputs with (index + S (n_outputs - S index))%nat at 1 by lia.
      by rewrite seq_app. }
    rewrite collect_app.
    assert (∃ before,
              collect (λ index, py_getitem predictions (KStr (task_key index)))
                (seq 0 index) = Ok before) as [before ->].
    { clear Hindex Hraise. induction index as [|index IH]; [by eexists|].
      rewrite seq_S, collect_app. destruct IH as [before ->]; [by auto|].
      cbn [mbind result_bind collect Nat.add].
      specialize (Hbefore index ltac:(lia)).
      destruct (py_getitem predictions (KStr (task_key index))); [|done].
      by eexists. }
    cbn [mbind result_bind collect]. by rewrite Hraise.
Qed.

Lemma model_predictions_multitask_witness :
  model_predictions no_features collision_test_set
    (constant_model one_block_predictions) 1 1 true "keras_multitask"
  = Raise (KeyError (KStr "task1"))
  ∧ model_predictions no_features collision_test_set
      (constant_model one_block_predictions) 1 1 false "keras_multitask"
    = Ok (PyList [PyArray [PyNum (PFloat 0.5)]]).
Proof.
  split.
  - apply (proj2 (model_predictions_multitask no_features collision_test_set
                    (constant_model one_block_predictions) 1 1 true) 1%nat).
    + cbn. lia.
    + intros j Hj. destruct j as [|j]; [reflexivity|lia].
    + reflexivity.
  - apply (proj1 (model_predictions_multitask no_features collision_test_set
                    (constant_model one_block_predictions) 1 1 false)).
    exists [PyArray [PyNum (PFloat 0.5)]]. split_and!; [done..|].
    intros index Hindex. cbn in Hindex. destruct index as [|index]; [|lia].
    by eexists.
Defined.

(** ** More on the score functions *)

Section score_loop_spec.
Context (score_of : string → result (option pynum)).
Context (body : nat → string → gmap string pynum → result (gmap string pynum)).
Hypothesis body_eq : ∀ i target scores,
  body i target scores = o ← score_of target; Ok (store_score target o scores).

(** A loop over the endpoints returns the scores of the endpoints, and
    returns when every endpoint has one or none. *)
Lemma score_loop_spec l scores :
  for_each body 0 l ∅ = Ok scores ↔
  (∀ target, target ∈ l → score_of target = Ok (scores !! target))
  ∧ (∀ target, target ∉ l → scores !! target = None).
Proof.
  split.
  - intros Hok. destruct (score_loop_Ok _ _ body_eq _ _ _ _ Hok) as [Hall Hlook].
    split.
    + intros target Hin. destruct (Hall _ Hin) as [o Ho].
      rewrite Hlook, Ho. destruct o; [by rewrite decide_True|done].
    + intros target Hin. rewrite Hlook.
      destruct (score_of target) as [[s|]|]; try apply lookup_empty.
      by rewrite decide_False.
  - intros [Hin Hout].
    destruct (score_loop_total _ _ body_eq 0 l ∅) as [scores' Hok]; [by eauto|].
    rewrite Hok. f_equal. apply map_eq. intros target.
    destruct (score_loop_Ok _ _ body_eq _ _ _ _ Hok) as [_ Hlook].
    rewrite Hlook. destruct (decide (target ∈ l)) as [Ht|Ht].
    + rewrite (Hin _ Ht). by destruct (scores !! target).
    + rewrite (Hout _ Ht).
      by destruct (score_of target) as [[s|]|]; rewrite ?lookup_empty.
Qed.

(** The order of the endpoints has no effect on the scores returned. *)
Lemma score_loop_perm l1 l2 scores :
  l1 ≡ₚ l2 → for_each body 0 l1 ∅ = Ok scores → for_each body 0 l2 ∅ = Ok scores.
Proof.
  intros Hp [Hin Hout]%score_loop_spec. apply score_loop_spec. split.
  - intros target Ht. apply Hin. by rewrite Hp.
  - intros target Ht. apply Hout. by rewrite Hp.
Qed.
End score_loop_spec.

Lemma regression_score_Ok (metric : pyobj → pyobj → result pynum)
    (results : results_map) (task_types : gmap string string) target o :
  regression_score metric results task_types target = Ok o ↔
  ∃ task_type,
    task_types !! target = Some task_type ∧
    if decide (task_type = "regression") then
      ∃ ytrue yscore score,
        results !! target = Some (ytrue, yscore) ∧
        metric ytrue yscore = Ok score ∧ o = Some score
    else o = None.
Proof.
  unfold regression_score, dict_getitem.
  destruct (task_types !! target) as [ty|]; cbn [mbind result_bind].
  - destruct (decide (ty ≠ "regression")) as [Hne|Heq%dec_stable].
    + split.
      * intros [= <-]. exists ty. by rewrite decide_False.
      * intros (ty' & [= <-] & Ho). rewrite decide_False in Ho by done. by subst.
    + subst ty. destruct (results !! target) as [[yt ys]|]; cbn [mbind result_bind].
      * destruct (metric yt ys) as [s|] eqn:Hm; cbn [mbind result_bind]; split.
        -- intros [= <-]. exists "regression". split; [done|].
           rewrite decide_True by done. by exists yt, ys, s.
        -- intros (ty' & [= <-] & Ho). rewrite decide_True in Ho by done.
           destruct Ho as (yt' & ys' & s' & [= <- <-] & Hs & ->). congruence.
        -- done.
        -- intros (ty' & [= <-] & Ho). rewrite decide_True in Ho by done.
           destruct Ho as (yt' & ys' & s' & [= <- <-] & Hs & ->). congruence.
      * split; [done|]. intros (ty' & [= <-] & Ho).
        rewrite decide_True in Ho by done. by destruct Ho as (? & ? & ? & ? & _).
  - split; [done|]. by intros (? & ? & _).
Qed.

Lemma auc_score_Ok (labels_to_weights : pyobj → result pyobj)
    (roc_auc_score : pyobj → pyobj → pyobj → result pynum)
    (results : results_map) (task_types : gmap string string) target o :
  auc_score labels_to_weights roc_auc_score results task_types target = Ok o →
  (is_Some o ↔ task_types !! target = Some "classification")
  ∧ (is_Some o → is_Some (results !! target)).
Proof.
  destruct o as [s|].
  - intros (Htt & yt & ys & _ & _ & Hres & _)%auc_score_Some.
    split; [by split|]. eauto.
  - intros (ty & Hty & Hne)%auc_score_None.
    split; [|by intros []]. split; [by intros []|]. congruence.
Qed.

(** What a loop with the metric of a regression score returns. *)
Lemma regression_scores_spec `{DictOrder}
    (metric : pyobj → pyobj → result pynum)
    (body : nat → string → gmap string pynum → result (gmap string pynum))
    (results : results_map) (task_types : gmap string string)
    (scores : gmap string pynum) :
  (∀ i target scores,
     body i target scores
     = o ← regression_score metric results task_types target;
       Ok (store_score target o scores)) →
  for_each body 0 (keys results) ∅ = Ok scores ↔
  (∀ target ytrue yscore,
     results !! target = Some (ytrue, yscore) →
     ∃ task_type,
       task_types !! target = Some task_type ∧
       if decide (task_type = "regression") then
         ∃ score, metric ytrue yscore = Ok score ∧ scores !! target = Some score
       else scores !! target = None)
  ∧ (∀ target, results !! target = None → scores !! target = None).
Proof.
  intros Hbody. rewrite (score_loop_spec _ _ Hbody). split.
  - intros [Hin Hout]. split.
    + intros target yt ys Hres.
      assert (target ∈ keys results) as Ht by (apply elem_of_keys; eauto).
      apply Hin, regression_score_Ok in Ht as (ty & Hty & Hcase).
      exists ty. split; [done|]. destruct (decide (ty = "regression")); [|done].
      destruct Hcase as (yt' & ys' & s & ? & ? & ?). exists s. by simplify_eq.
    + intros target Hnone. apply Hout. rewrite elem_of_keys, Hnone. by intros [].
  - intros [Hsome Hnone]. split.
    + intros target [[yt ys] Hres]%elem_of_keys.
      destruct (Hsome _ _ _ Hres) as (ty & Hty & Hcase).
      apply regression_score_Ok. exists ty. split; [done|].
      destruct (decide (ty = "regression")); [|done].
      destruct Hcase as (s & Hs & ->). by exists yt, ys, s.
    + intros target Ht. apply Hnone. rewrite elem_of_keys in Ht.
      by destruct (results !! target) as [x|]; [destruct Ht; eauto|].
Qed.

(** X12. [compute_r2_scores] returns scores exactly when every endpoint of the
    results has a type and [r2_score] returns on the two arrays of every
    endpoint of type "regression". The scores then hold that value for these
    endpoints and nothing for the others. *)
Theorem compute_r2_scores_spec `{DictOrder}
    (r2_score : pyobj → pyobj → result pynum)
    (results : results_map) (task_types : gmap string string)
    (scores : gmap string pynum) :
  compute_r2_scores r2_score results task_types = Ok scores ↔
  (∀ target ytrue yscore,
     results !! target = Some (ytrue, yscore) →
     ∃ task_type,
       task_types !! target = Some task_type ∧
       if decide (task_type = "regression") then
         ∃ score, r2_score ytrue yscore = Ok score ∧ scores !! target = Some score
       else scores !! target = None)
  ∧ (∀ target, results !! target = None → scores !! target = None).
Proof.
  unfold compute_r2_scores. apply regression_scores_spec.
  intros _ target scores'. apply regression_scores_body.
Qed.

(** X13. [compute_rms_scores] returns scores exactly when every endpoint of
    the results has a type and [mean_squared_error] returns on the two arrays
    of every endpoint of type "regression". The scores then hold the square
    root of that value for these endpoints and nothing for the others. *)
Theorem compute_rms_scores_spec `{DictOrder}
    (mean_squared_error : pyobj → pyobj → result pynum) (np_sqrt : pynum → pynum)
    (results : results_map) (task_types : gmap string string)
    (scores : gmap string pynum) :
  compute_rms_scores mean_squared_error np_sqrt results task_types = Ok scores ↔
  (∀ target ytrue yscore,
     results !! target = Some (ytrue, yscore) →
     ∃ task_type,
       task_types !! target = Some task_type ∧
       if decide (task_type = "regression") then
         ∃ mse, mean_squared_error ytrue yscore = Ok mse
                ∧ scores !! target = Some (np_sqrt mse)
       else scores !! target = None)
  ∧ (∀ target, results !! target = None → scores !! target = None).
Proof.
  unfold compute_rms_scores.
  rewrite (regression_scores_spec (λ yt ys, np_sqrt <$> mean_squared_error yt ys))
    by (intros _ target scores'; apply compute_rms_scores_body).
  split; intros [Hsome Hnone]; (split; [|done]); intros target yt ys Hres;
    destruct (Hsome _ _ _ Hres) as (ty & Hty & Hcase); exists ty; (split; [done|]);
    destruct (decide (ty = "regression")); try done.
  - destruct Hcase as (s & Hs & Hlook).
    destruct (mean_squared_error yt ys) as [mse|]; [|done].
    injection Hs as <-. by exists mse.
  - destruct Hcase as (mse & -> & Hlook). by eexists.
Qed.

(** X14. The scores do not depend on the order in which the dict of results
    yields its keys: under any two orders, each of the three score functions
    returns the same scores, or returns under neither. *)
Theorem scores_order_independent (order1 order2 : DictOrder)
    (labels_to_weights : pyobj → result pyobj)
    (roc_auc_score : pyobj → pyobj → pyobj → result pynum)
    (r2_score mean_squared_error : pyobj → pyobj → result pynum)
    (np_sqrt : pynum → pynum)
    (results : results_map) (task_types : gmap string string)
    (scores : gmap string pynum) :
  (compute_roc_auc_scores (H := order1) labels_to_weights roc_auc_score
     results task_types = Ok scores
   ↔ compute_roc_auc_scores (H := order2) labels_to_weights roc_auc_score
       results task_types = Ok scores)
  ∧ (compute_r2_scores (H := order1) r2_score results task_types = Ok scores
     ↔ compute_r2_scores (H := order2) r2_score results task_types = Ok scores)
  ∧ (compute_rms_scores (H := order1) mean_squared_error np_sqrt
       results task_types = Ok scores
     ↔ compute_rms_scores (H := order2) mean_squared_error np_sqrt
         results task_types = Ok scores).
Proof.
  assert (∀ o1 o2 : DictOrder,
            @keys o1 _ results ≡ₚ @keys o2 _ results) as Hperm.
  { intros o1 o2. by rewrite !keys_perm. }
  unfold compute_roc_auc_scores, compute_r2_scores, compute_rms_scores.
  split_and!; split;
    first [ apply (score_loop_perm _ _ (λ _, compute_roc_auc_scores_body _ _ _ _))
          | apply (score_loop_perm _ _ (λ _, regression_scores_body _ _ _))
          | apply (score_loop_perm _ _ (λ _, compute_rms_scores_body _ _ _ _)) ];
    apply Hperm.
Qed.

Section scored_keys.
Context (score_of : string → result (option pynum)).
Context (body : nat → string → gmap string pynum → result (gmap string pynum)).
Hypothesis body_eq : ∀ i target scores,
  body i target scores = o ← score_of target; Ok (store_score target o scores).
Context (results : results_map) (task_types : gmap string string).
Context (type : string).
Hypothesis score_of_type : ∀ target o,
  score_of target = Ok o →
  (is_Some o ↔ task_types !! target = Some type).

(** The endpoints with a score are the endpoints of the type the loop
    scores. *)
Lemma scored_keys l scores target :
  (∀ k, k ∈ l ↔ is_Some (results !! k)) →
  for_each body 0 l ∅ = Ok scores →
  is_Some (scores !! target)
  ↔ is_Some (results !! target) ∧ task_types !! target = Some type.
Proof.
  intros Hl [Hin Hout]%(score_loop_spec _ _ body_eq). split.
  - intros Hsome. assert (target ∈ l) as Ht.
    { destruct (decide (target ∈ l)) as [|Hn]; [done|].
      rewrite (Hout _ Hn) in Hsome. by destruct Hsome. }
    split; [by apply Hl|]. by apply (score_of_type _ _ (Hin _ Ht)).
  - intros [Ht%Hl Hty]. by apply (score_of_type _ _ (Hin _ Ht)).
Qed.
End scored_keys.

Lemma regression_score_type (metric : pyobj → pyobj → result pynum)
    (results : results_map) (task_types : gmap string string) target o :
  regression_score metric results task_types target = Ok o →
  (is_Some o ↔ task_types !! target = Some "regression").
Proof.
  intros (ty & Hty & Hcase)%regression_score_Ok.
  destruct (decide (ty = "regression")) as [->|Hne].
  - destruct Hcase as (? & ? & s & _ & _ & ->). by split.
  - subst o. split; [by intros []|]. congruence.
Qed.

Lemma auc_score_type (labels_to_weights : pyobj → result pyobj)
    (roc_auc_score : pyobj → pyobj → pyobj → result pynum)
    (results : results_map) (task_types : gmap string string) target o :
  auc_score labels_to_weights roc_auc_score results task_types target = Ok o →
  (is_Some o ↔ task_types !! target = Some "classification").
Proof. by intros [? _]%auc_score_Ok. Qed.

(** X15. When the three score functions return on the same results and task
    types, [compute_roc_auc_scores] scores exactly the endpoints of type
    "classification", and [compute_r2_scores] and [compute_rms_scores] score
    exactly those of type "regression": the last two score the same
    endpoints, no endpoint has both an AUC and an R2 score, and an endpoint
    of any other type has no score. *)
Theorem scored_endpoints `{DictOrder}
    (labels_to_weights : pyobj → result pyobj)
    (roc_auc_score : pyobj → pyobj → pyobj → result pynum)
    (r2_score mean_squared_error : pyobj → pyobj → result pynum)
    (np_sqrt : pynum → pynum)
    (results : results_map) (task_types : gmap string string)
    (auc r2 rms : gmap string pynum) :
  compute_roc_auc_scores labels_to_weights roc_auc_score results task_types
  = Ok auc →
  compute_r2_scores r2_score results task_types = Ok r2 →
  compute_rms_scores mean_squared_error np_sqrt results task_types = Ok rms →
  (∀ target,
     is_Some (auc !! target)
     ↔ is_Some (results !! target)
       ∧ task_types !! target = Some "classification")
  ∧ (∀ target,
       is_Some (r2 !! target)
       ↔ is_Some (results !! target) ∧ task_types !! target = Some "regression")
  ∧ dom rms = dom r2
  ∧ auc ##ₘ r2.
Proof.
  unfold compute_roc_auc_scores, compute_r2_scores, compute_rms_scores.
  intros Hauc Hr2 Hrms.
  assert (∀ k, k ∈ keys results ↔ is_Some (results !! k)) as Hkeys
    by (intros k; apply elem_of_keys).
  pose proof (λ target,
    scored_keys _ _ (λ _, compute_roc_auc_scores_body _ _ _ _) results task_types
      "classification" (auc_score_type _ _ _ _) _ _ target Hkeys Hauc) as Ha.
  pose proof (λ target,
    scored_keys _ _ (λ _, regression_scores_body _ _ _) results task_types
      "regression" (regression_score_type _ _ _) _ _ target Hkeys Hr2) as Hr.
  pose proof (λ target,
    scored_keys _ _ (λ _, compute_rms_scores_body _ _ _ _) results task_types
      "regression" (regression_score_type _ _ _) _ _ target Hkeys Hrms) as Hm.
  split_and!; [done|done|..].
  - apply set_eq. intros target. rewrite !elem_of_dom, Hr, Hm. tauto.
  - apply map_disjoint_spec. intros target a r Hta Htr.
    assert (is_Some (auc !! target)) as [_ Hc]%Ha by eauto.
    assert (is_Some (r2 !! target)) as [_ Hg]%Hr by eauto.
    congruence.
Qed.

Lemma scored_endpoints_witness :
  (∀ target,
     is_Some (({[ "t1" := PFloat 1 ]} : gmap string pynum) !! target)
     ↔ is_Some (mixed_results !! target)
       ∧ mixed_task_types !! target = Some "classification")
  ∧ (∀ target,
       is_Some (({[ "0" := PFloat 1 ]} : gmap string pynum) !! target)
       ↔ is_Some (mixed_results !! target)
         ∧ mixed_task_types !! target = Some "regression")
  ∧ dom ({[ "0" := PFloat 0 ]} : gmap string pynum)
    = dom ({[ "0" := PFloat 1 ]} : gmap string pynum)
  ∧ ({[ "t1" := PFloat 1 ]} : gmap string pynum) ##ₘ {[ "0" := PFloat 1 ]}.
Proof.
  apply (scored_endpoints (H := listing_order) class_weights pairwise_auc
           determination mean_squared float_sqrt mixed_results mixed_task_types).
  - by vm_compute.
  - by vm_compute.
  - by vm_compute.
Defined.

(** X16. On the results of [eval_model], with task types that cover the
    task types [eval_model] was given and, when the descriptors were
    included, its descriptor keys, no lookup of a type fails in a score
    function: each of the three returns scores, or raises an error that one
    of its calls raised on the arrays of an endpoint. *)
Theorem scores_after_eval_model `{DictOrder} {ndarray}
    (dataset_to_numpy : gmap string datapoint → ndarray * ndarray * ndarray)
    (labels_to_weights : pyobj → result pyobj)
    (roc_auc_score : pyobj → pyobj → pyobj → result pynum)
    (r2_score mean_squared_error : pyobj → pyobj → result pynum)
    (np_sqrt : pynum → pynum)
    test_set model (task_types : gmap string string)
    (desc_transforms : gmap string transform) modeltype
    (add_descriptors : bool) (score_types : gmap string string) R :
  eval_model dataset_to_numpy test_set model task_types desc_transforms
    modeltype add_descriptors = Ok R →
  (∀ k, is_Some (task_types !! k) → is_Some (score_types !! k)) →
  (add_descriptors = true →
   ∀ k, is_Some (desc_transforms !! k) → is_Some (score_types !! k)) →
  (∀ e, compute_roc_auc_scores labels_to_weights roc_auc_score R score_types
        = Raise e →
        auc_call_raised labels_to_weights roc_auc_score R e)
  ∧ (∀ e, compute_r2_scores r2_score R score_types = Raise e →
          metric_raised r2_score R e)
  ∧ (∀ e, compute_rms_scores mean_squared_error np_sqrt R score_types = Raise e →
          metric_raised mean_squared_error R e).
Proof.
  intros HR Htasks Hdescs.
  assert (∀ e, ¬ missing_type R score_types e) as Hcovered.
  { intros e (k & Hk & Hnone & _).
    apply eval_model_Ok in HR as (ypreds & _ & Hall). specialize (Hall k).
    destruct (decide (k ∈ _)) as [Hin|]; [|rewrite Hall in Hk; by destruct Hk].
    rewrite endpoint_list_fst, elem_of_app in Hin.
    assert (is_Some (score_types !! k)) as Hsome.
    { destruct Hin as [Hin|Hin].
      - by apply Htasks, elem_of_sorted_keys.
      - destruct add_descriptors; [|by apply elem_of_nil in Hin].
        by apply Hdescs, elem_of_sorted_keys. }
    rewrite Hnone in Hsome. by destruct Hsome. }
  split_and!; intros e Hraise.
  - apply compute_roc_auc_scores_Raise in Hraise as [Hm|?]; [|done].
    by apply Hcovered in Hm.
  - apply compute_r2_scores_Raise in Hraise as [Hm|?]; [|done].
    by apply Hcovered in Hm.
  - apply compute_rms_scores_Raise in Hraise as [Hm|?]; [|done].
    by apply Hcovered in Hm.
Qed.

Lemma scores_after_eval_model_witness :
  (∀ e, compute_roc_auc_scores (H := listing_order) class_weights pairwise_auc
          descriptor_results {[ "t1" := "regression"; "0" := "regression" ]}
        = Raise e →
        auc_call_raised class_weights pairwise_auc descriptor_results e)
  ∧ (∀ e, compute_r2_scores (H := listing_order) determination
            descriptor_results {[ "t1" := "regression"; "0" := "regression" ]}
          = Raise e →
          metric_raised determination descriptor_results e)
  ∧ (∀ e, compute_rms_scores (H := listing_order) mean_squared float_sqrt
            descriptor_results {[ "t1" := "regression"; "0" := "regression" ]}
          = Raise e →
          metric_raised mean_squared descriptor_results e).
Proof.
  apply (scores_after_eval_model (H := listing_order) no_features
           class_weights pairwise_auc determination mean_squared float_sqrt
           descriptor_test_set (constant_model descriptor_predictions)
           descriptor_task_types descriptor_transforms "keras_multitask" true).
  - by vm_compute.
  - intros k. unfold descriptor_task_types.
    destruct (decide (k = "t1")) as [->|Hne]; [by eexists|].
    rewrite lookup_singleton_ne by done. by intros [].
  - intros _ k. unfold descriptor_transforms.
    destruct (decide (k = "0")) as [->|Hne]; [by eexists|].
    rewrite lookup_singleton_ne by done. by intros [].
Defined.

(** ** A model with one output *)

(** X17. With the modeltype "sklearn" or "keras" and a model whose call
    returns something else than a list, the predictions are the one-element
    list of that value, and only the first endpoint has predictions:
    [eval_model] does not return when some sample is kept for a second or
    later endpoint. *)
Theorem eval_model_one_output `{DictOrder} {ndarray}
    (dataset_to_numpy : gmap string datapoint → ndarray * ndarray * ndarray)
    test_set (model : model ndarray) task_types desc_transforms modeltype
    add_descriptors raw t_ind target smiles dp :
  (modeltype = "sklearn"
   ∧ raw = predict_proba model (dataset_to_numpy test_set).1.1)
  ∨ (modeltype = "keras"
     ∧ raw = predict model (Matrix (dataset_to_numpy test_set).1.1)) →
  (∀ l, raw ≠ PyList l) →
  (endpoint_list task_types desc_transforms add_descriptors).1 !! S t_ind
  = Some target →
  test_set !! smiles = Some dp →
  is_skipped (sorted (keys task_types)) dp target = false →
  ∀ R, eval_model dataset_to_numpy test_set model task_types desc_transforms
         modeltype add_descriptors ≠ Ok R.
Proof.
  intros Hraw Hnolist Ht Hdp Hkept R HR.
  apply eval_model_Ok in HR as (ypreds & Hpreds & Hall).
  assert (ypreds = PyList [raw]) as ->.
  { unfold model_predictions in Hpreds.
    destruct (dataset_to_numpy test_set) as [[X ?] ?]. cbn [fst] in Hraw.
    destruct Hraw as [[-> ->]|[-> ->]].
    - rewrite decide_True in Hpreds by done. cbn [mbind result_bind] in Hpreds.
      destruct (predict_proba model X) as [| l | |]; try by simplify_eq.
      by destruct (Hnolist l).
    - rewrite decide_False, decide_True in Hpreds by done.
      cbn [mbind result_bind] in Hpreds.
      destruct (predict model (Matrix X)) as [| l | |]; try by simplify_eq.
      by destruct (Hnolist l). }
  specialize (Hall target).
  rewrite decide_True in Hall by (by eapply list_elem_of_lookup_2).
  destruct Hall as (yt & ys & _ & _ & Hcollect).
  assert (smiles ∈ sorted (keys test_set)) as [index Hindex]%list_elem_of_lookup
    by (apply elem_of_sorted_keys; eauto).
  assert ((index, S t_ind)
          ∈ visits test_set (sorted (keys task_types))
              (endpoint_list task_types desc_transforms add_descriptors).1
              target 0 (sorted (keys test_set))) as [j Hj]%list_elem_of_lookup.
  { apply elem_of_visits. split_and!; [lia|done|].
    exists smiles, dp. by rewrite Nat.sub_0_r. }
  destruct (collect_lookup _ _ _ _ _ Hcollect Hj) as (p & _ & Hp).
  unfold prediction in Hp. cbn [py_getitem] in Hp. unfold seq_getitem in Hp.
  cbn [length] in Hp.
  destruct (Z.ltb_spec (Z.of_nat (S t_ind)) 0) as [?|_]; [lia|].
  destruct (Z.ltb_spec (Z.of_nat (S t_ind)) (Z.of_nat 1)) as [?|_]; [lia|].
  by rewrite andb_false_r in Hp.
Qed.

Lemma eval_model_one_output_witness :
  (@endpoint_list listing_order descriptor_task_types descriptor_transforms
     true).1 !! 1%nat = Some "0"
  ∧ ∀ R, eval_model (H := listing_order) no_features descriptor_test_set
           (constant_model (PyArray [PyNum (PFloat 1.5); PyNum (PFloat 2.5)]))
           descriptor_task_types descriptor_transforms "sklearn" true ≠ Ok R.
Proof.
  split; [by vm_compute|].
  apply (eval_model_one_output (H := listing_order) no_features
           descriptor_test_set
           (constant_model (PyArray [PyNum (PFloat 1.5); PyNum (PFloat 2.5)]))
           descriptor_task_types descriptor_transforms "sklearn" true
           (PyArray [PyNum (PFloat 1.5); PyNum (PFloat 2.5)]) 0 "0" "A"
           {| labels := {[ "t1" := PFloat 1.5 ]};
              descriptors := Some [PFloat 0.25] |}).
  - by left.
  - done.
  - by vm_compute.
  - by vm_compute.
  - by vm_compute.
Defined.
